(** * EM-DAT dashboard: a shallow embedding of [emdat_streamlit_app.py]

    The script loads disaster records into a pandas [DataFrame] and hands the
    frame to a handful of streamlit renderers.  Each renderer is embedded as a
    function from the frame it receives (and the positions picked in its
    select boxes in the current run) to either a Python exception or the
    pair of

      - the frame as the *caller* sees it once the renderer has returned
        (column assignments [df[c] = ...] made before the local name [df] is
        rebound write through to the caller's object), and
      - the list of streamlit calls the renderer made, in order, with the
        data handed to each chart.

    Fetching the records ([load_data]) and the drawing done by matplotlib
    and plotly are not part of the embedding.

    A number in a cell is a whole number ([Z]).  pandas holds a column of
    numbers as [int64] or as [float64], whichever fits what the column
    holds; both hold the whole numbers below [2 ^ 53] exactly, and there
    they add exactly as long as the sum stays below [2 ^ 53].  Where a run
    meets a number that is not whole, or leaves that range, what the code
    yields depends on the dtype and on floating-point rounding; the
    embedding then ends the run with [Unsupported] and says nothing about
    it. *)

From Stdlib Require Import ZArith QArith Ascii String.
From stdpp Require Import base option list gmap strings sorting pretty.

Open Scope string_scope.
Open Scope list_scope.
Open Scope nat_scope.

(** ** Cells, rows, frames *)

(** A cell of an object column: a missing value (pandas shows [NaN]),
    a Python [str], or a number. *)
Inductive cell :=
  | NaN
  | Str (s : string)
  | Num (z : Z).

#[global] Instance cell_eq_dec : EqDecision cell.
Proof. solve_decision. Defined.

(** One flattened record: dotted column name to cell. *)
Abbreviation row := (gmap string cell).

(** A frame keeps its column labels apart from its rows: a frame filtered
    down to no rows still has its columns. *)
Record DataFrame := mkDF {
  columns : list string;
  rows : list row
}.

(** ** Exceptions *)

(** [Unsupported] is no exception of Python.  It ends a run at a point
    from which the embedding does not follow the code (see above, and
    [sorted], [ax_pie], [format_k] below); no theorem says anything about
    the code on such a run. *)
Inductive error :=
  | KeyError (c : string)
  | TypeError
  | ValueError
  | AttributeError
  | Unsupported.

Inductive result (A : Type) :=
  | Ok (a : A)
  | Raise (e : error).
Arguments Ok {A} a.
Arguments Raise {A} e.

#[global] Instance result_ret : MRet result := λ A a, Ok a.
#[global] Instance result_bind : MBind result := λ A B f m,
  match m with
  | Ok a => f a
  | Raise e => Raise e
  end.
#[global] Instance result_fmap : FMap result := λ A B f m,
  match m with
  | Ok a => Ok (f a)
  | Raise e => Raise e
  end.

(** ** Library functions over strings

    [pd.to_numeric] parses strings with pandas' own number reader, which is
    not part of the script; it is taken as an interface.  A text reads as
    no number at all, as a whole number (["12"], ["2e3"]), or as a number
    that is not whole (["2.5"], ["inf"]). *)
Inductive reading :=
  | NotNumber
  | Whole (z : Z)
  | NotWhole.

#[global] Instance reading_eq_dec : EqDecision reading.
Proof. solve_decision. Defined.

Class NumberParser := parse_number : string → reading.

(** How pandas prints a number when a column is cast to text depends on
    the dtype the column had (['250'] in an integer column, ['250.0'] in a
    float column); the numbers of one column are taken to be of one kind,
    and the text of the number [z] in the column labelled [c] is taken as
    an interface. *)
Class NumberText := number_text : string → Z → string.

(** Python's [str.strip()] is truthy iff some character is not whitespace
    ([str.isspace]).  A text is held as the bytes of its UTF-8 encoding.
    The whitespace characters of ASCII are the tab, line feed, vertical
    tab, form feed, carriage return, the four separators 28 to 31 and the
    blank. *)
Definition is_space (a : ascii) : bool :=
  let n := nat_of_ascii a in
  (((9 <=? n) && (n <=? 13)) || ((28 <=? n) && (n <=? 32)))%nat.

(** Beyond ASCII, [str.isspace] holds of U+0085 and U+00A0 (two bytes in
    UTF-8) and of U+1680, U+2000 to U+200A, U+2028, U+2029, U+202F, U+205F
    and U+3000 (three bytes). *)
Definition is_space2 (a b : ascii) : bool :=
  let a := nat_of_ascii a in
  let b := nat_of_ascii b in
  ((a =? 194) && ((b =? 133) || (b =? 160)))%nat.

Definition is_space3 (a b c : ascii) : bool :=
  let a := nat_of_ascii a in
  let b := nat_of_ascii b in
  let c := nat_of_ascii c in
  (((a =? 225) && (b =? 154) && (c =? 128))
   || ((a =? 226) && (b =? 128)
       && (((128 <=? c) && (c <=? 138)) || (c =? 168) || (c =? 169) || (c =? 175)))
   || ((a =? 226) && (b =? 129) && (c =? 159))
   || ((a =? 227) && (b =? 128) && (c =? 128)))%nat.

(** [not s.strip()]: the text consists of whitespace characters only. *)
Fixpoint strip_is_empty (s : string) : bool :=
  match s with
  | EmptyString => true
  | String a s1 =>
      if is_space a then strip_is_empty s1
      else
        match s1 with
        | EmptyString => false
        | String b s2 =>
            if is_space2 a b then strip_is_empty s2
            else
              match s2 with
              | EmptyString => false
              | String c s3 => is_space3 a b c && strip_is_empty s3
              end
        end
  end.

(** ** Python's [sorted] and the stable sorts of pandas *)

Section stable_sort.
Context {A : Type} (lt : A → A → bool).

(** [x] stood before every element of [l]: it moves right only past
    elements that are strictly smaller. *)
Fixpoint insert_sorted (x : A) (l : list A) : list A :=
  match l with
  | [] => [x]
  | y :: l' => if lt y x then y :: insert_sorted x l' else x :: l
  end.

Definition stable_sort (l : list A) : list A := foldr insert_sorted [] l.

(** [x] may stand before [y]: [y] is not strictly smaller. *)
Definition before (x y : A) : Prop := lt y x = false.
End stable_sort.

(** [a < b] where Python defines it without raising: numbers against
    numbers, strings against strings (byte order, which on UTF-8 is code
    point order).  A comparison with [NaN] is [False]. *)
Definition cell_lt (a b : cell) : bool :=
  match a, b with
  | Num x, Num y => (x <? y)%Z
  | Str s, Str t => String.ltb s t
  | _, _ => false
  end.

(** A [str] against a number or against [NaN] (a float) raises
    [TypeError]. *)
Definition comparable (a b : cell) : bool :=
  match a, b with
  | Str _, Str _ => true
  | Str _, _ | _, Str _ => false
  | _, _ => true
  end.

Definition isna (c : cell) : bool :=
  match c with NaN => true | _ => false end.

Definition is_num (c : cell) : bool :=
  match c with Num _ => true | _ => false end.

Definition is_str (c : cell) : bool :=
  match c with Str _ => true | _ => false end.

(** [sorted(xs)].  Sorting a list that mixes [str] with anything else
    raises; otherwise the order is that of [cell_lt].  Numbers together
    with [NaN] are not ordered by [<], and where CPython leaves the [NaN]
    depends on the steps of its merge sort: the embedding stops there. *)
Definition sorted (l : list cell) : result (list cell) :=
  match l with
  | [] => Ok []
  | x :: l' =>
      if forallb (comparable x) l' then
        if existsb isna l && existsb is_num l then Raise Unsupported
        else Ok (stable_sort cell_lt l)
      else Raise TypeError
  end.

(** ** pandas *)

Definition notna (c : cell) : bool := negb (isna c).

(** [row[c]], a label the document lacks reads as [NaN]. *)
Definition cell_at (c : string) (r : row) : cell := default NaN (r !! c).

(** [df[c]]. *)
Definition get_col (df : DataFrame) (c : string) : result (list cell) :=
  if bool_decide (c ∈ columns df) then Ok (cell_at c <$> rows df)
  else Raise (KeyError c).

(** [df[c] = vals], on the object itself. *)
Definition set_col (c : string) (vals : list cell) (df : DataFrame) : DataFrame :=
  mkDF (if bool_decide (c ∈ columns df) then columns df else columns df ++ [c])
       (zip_with (λ r v, <[c := v]> r) (rows df) vals).

(** [df[mask]] with the mask given row by row. *)
Definition select_rows (keep : row → bool) (df : DataFrame) : DataFrame :=
  mkDF (columns df) (filter (λ r, keep r) (rows df)).

(** What [pd.to_numeric(x, errors="coerce")] finds in one cell. *)
Definition read `{NumberParser} (c : cell) : reading :=
  match c with
  | NaN => NotNumber
  | Num z => Whole z
  | Str s => parse_number s
  end.

(** [pd.to_numeric(col, errors="coerce")]: a numeric column. *)
Definition to_numeric `{NumberParser} (col : list cell) : list reading :=
  read <$> col.

(** The whole numbers that [int64] and [float64] alike hold exactly. *)
Definition in_range (z : Z) : bool := (Z.abs z <? 2 ^ 53)%Z.

Definition not_whole (x : reading) : bool :=
  match x with NotWhole => true | _ => false end.

(** An entry of a numeric column that the embedding holds as it is. *)
Definition exact (x : reading) : bool :=
  match x with
  | NotNumber => true
  | Whole z => in_range z
  | NotWhole => false
  end.

(** The cell for an entry of a numeric column of whole numbers: what
    could not be read is missing. *)
Definition cell_of (x : reading) : cell :=
  match x with Whole z => Num z | _ => NaN end.

(** The whole number a cell reads as; [NaN] when it reads as none. *)
Definition whole `{NumberParser} (c : cell) : cell := cell_of (read c).

(** [df[c] = col] for a numeric column [col]: the cells the frame then
    holds, as far as the embedding has cells for them. *)
Definition numeric_cells (col : list reading) : result (list cell) :=
  if forallb exact col then Ok (cell_of <$> col) else Raise Unsupported.

(** [col.astype("Int64")] on a numeric column: a number that is not whole
    cannot be cast. *)
Definition astype_Int64 (col : list reading) : result (list cell) :=
  if existsb not_whole col then Raise TypeError
  else numeric_cells col.

(** [.astype(int)] on one cell. *)
Definition astype_int (c : cell) : result cell :=
  match c with
  | Num z => Ok (Num z)
  | _ => Raise ValueError
  end.

(** [.astype(str)] on one cell of the column labelled [c]: a text stays,
    a missing value stays missing, a number becomes a text. *)
Definition astype_str `{NumberText} (c : string) (v : cell) : cell :=
  match v with
  | NaN => NaN
  | Str s => Str s
  | Num z => Str (number_text c z)
  end.

Inductive how := how_any | how_all.

(** [df.dropna(subset=cs, how=h)]: a new frame. *)
Definition dropna (cs : list string) (h : how) (df : DataFrame) : result DataFrame :=
  _ ← mapM (get_col df) cs;
  mret (select_rows
          (λ r, match h with
                | how_any => forallb (λ c, notna (cell_at c r)) cs
                | how_all => existsb (λ c, notna (cell_at c r)) cs
                end) df).

(** [Series.dropna()]. *)
Definition series_dropna (l : list cell) : list cell := filter (λ c, notna c) l.

(** [Series.unique()]: first occurrences, in order of appearance. *)
Fixpoint unique (l : list cell) : list cell :=
  match l with
  | [] => []
  | x :: l' => x :: filter (λ y, y ≠ x) (unique l')
  end.

Definition count_occ_cell (x : cell) (l : list cell) : nat :=
  length (filter (λ y, y = x) l).

(** A [Series] of counts indexed by cell values. *)
Abbreviation counts := (list (cell * nat)).

Definition count_gt (a b : cell * nat) : bool := (b.2 <? a.2)%nat.

(** The distinct values of a column with the number of records of each,
    in order of first appearance; missing values form no category. *)
Definition category_counts (l : list cell) : counts :=
  let l' := series_dropna l in
  (λ v, (v, count_occ_cell v l')) <$> unique l'.

(** [Series.value_counts()]: the categories in descending order of count. *)
Definition value_counts (l : list cell) : counts :=
  stable_sort count_gt (category_counts l).

(** [Series.nlargest(n)] with [keep="first"]. *)
Definition nlargest (n : nat) (s : counts) : counts :=
  take n (stable_sort count_gt s).

(** [Series.sum()] of a series of counts. *)
Definition series_sum (s : counts) : nat := sum_list (s.*2).

(** Keys of a [groupby]: missing keys form no group; the keys come out
    sorted, numbers before strings when a column mixes the two. *)
Definition group_keys (l : list cell) : list cell :=
  let ks := unique (series_dropna l) in
  stable_sort cell_lt (filter (λ k, is_num k) ks)
    ++ stable_sort cell_lt (filter (λ k, is_str k) ks).

(** [df.groupby(c).size().reset_index(name="count")]. *)
Definition groupby_size (c : string) (df : DataFrame) : result counts :=
  col ← get_col df c;
  mret ((λ k, (k, count_occ_cell k col)) <$> group_keys col).

(** [df.sort_values(c)]: ascending, missing values last; comparing a
    [str] with a number raises. *)
Definition sort_values (c : string) (df : DataFrame) : result DataFrame :=
  col ← get_col df c;
  _ ← sorted (series_dropna col);
  mret (mkDF (columns df)
          (stable_sort (λ a b, cell_lt (cell_at c a) (cell_at c b))
             (filter (λ r, notna (cell_at c r)) (rows df))
           ++ filter (λ r, isna (cell_at c r)) (rows df))).

(** The number in a cell of a numeric column; missing values count for
    nothing in a sum. *)
Definition num_val (c : cell) : Z :=
  match c with Num z => z | _ => 0%Z end.

(** The sum of numbers, as a number. *)
Definition sum_Z (l : list Z) : Z := foldr Z.add 0%Z l.

(** [Series.sum()] of a numeric column without missing values.  pandas
    adds in [int64] (which wraps around) or in [float64] (which rounds);
    while the absolute values together stay below [2 ^ 53] every partial
    sum is exact in both. *)
Definition bounded (l : list Z) : bool :=
  (sum_Z (Z.abs <$> l) <? 2 ^ 53)%Z.

Definition column_sum (l : list Z) : result Z :=
  if bounded l then Ok (sum_Z l) else Raise Unsupported.

(** A scalar on the right of [==], [>=], [<=]: a cell picked in a widget,
    or Python's [None] when the widget had nothing to offer. *)
Abbreviation scalar := (option cell).

(** [series == v], row by row: a missing value equals nothing, and nothing
    equals [None]. *)
Definition py_eq (c : cell) (v : scalar) : bool :=
  match c, v with
  | NaN, _ | _, None | _, Some NaN => false
  | _, Some d => bool_decide (c = d)
  end.

(** [series >= v] and [series <= v] on an integer column; against [None]
    every row is [False]. *)
Definition py_ge (c : cell) (v : scalar) : bool :=
  match c, v with
  | Num x, Some (Num y) => (y <=? x)%Z
  | _, _ => false
  end.

Definition py_le (c : cell) (v : scalar) : bool :=
  match c, v with
  | Num x, Some (Num y) => (x <=? y)%Z
  | _, _ => false
  end.

(** [df.groupby(k)[v].sum().reset_index()]. *)
Definition groupby_sum (k v : string) (df : DataFrame) : result (list (cell * Z)) :=
  keys ← get_col df k;
  _ ← get_col df v;
  mapM (λ g, total ← column_sum ((λ r, num_val (cell_at v r))
                                   <$> filter (λ r, cell_at k r = g) (rows df));
             mret (g, total))
       (group_keys keys).

(** An entry of [Series.mean().reindex(..).fillna("nan")]: the mean,
    held as the fraction of the sum by the count that pandas divides out,
    or the filler text. *)
Inductive avg :=
  | Avg (q : Q)
  | Filled (s : string).

Definition numbers (l : list cell) : list Z :=
  omap (λ c, match c with Num z => Some z | _ => None end) l.

(** [Series.mean()] of a numeric column (missing values skipped), then
    [fillna("nan")]. *)
Definition mean_filled (l : list cell) : result avg :=
  match numbers l with
  | [] => mret (Filled "nan")
  | xs => total ← column_sum xs;
          mret (Avg (total # Pos.of_nat (length xs)))
  end.

(** ** streamlit *)

Inductive figure :=
  | Pie (labels : list cell) (sizes : list nat) (title : string)
  | Line (xs : list cell) (ys : list nat) (title : string)
  | BarH (ys : list cell) (widths : list Z) (title : string)
  | Choropleth (locations : list cell) (count : list nat) (title : string).

Inductive ui :=
  | Title (s : string)
  | Header (s : string)
  | Write (s : string)
  | Warning (s : string)
  | Selectbox (label : string) (options : list cell) (value : scalar)
  | Dataframe (df : DataFrame)
  | Table (a : scalar) (avg_a : list avg) (impact : list string)
          (b : scalar) (avg_b : list avg)
  | Pyplot (fig : figure)
  | PlotlyChart (fig : figure).

(** [ax.pie(sizes, labels=labels, ...)].  What matplotlib makes of no
    slice at all depends on its version (an empty chart, or a
    [ValueError]); the embedding stops there. *)
Definition ax_pie (labels : list cell) (sizes : list nat) (title : string)
    : result figure :=
  match sizes with
  | [] => Raise Unsupported
  | _ => Ok (Pie labels sizes title)
  end.

(** [st.selectbox(label, options, index=i)].  [pick] is the position the
    user chose in this run, if any; a position the list does not have falls
    back to the default.  An empty list yields [None]. *)
Definition selectbox (options : list cell) (index : nat) (pick : option nat) : scalar :=
  options !! (match pick with
              | Some i => if bool_decide (i < length options)%nat then i else index
              | None => index
              end).

(** Formatting inside an f-string; a number is one of an integer column
    here. *)
Definition fmt (v : scalar) : string :=
  match v with
  | None => "None"
  | Some NaN => "nan"
  | Some (Str s) => s
  | Some (Num z) => pretty z
  end.

(** Python truthiness of a selected value. *)
Definition truthy (v : scalar) : bool :=
  match v with
  | None | Some (Str "") | Some (Num 0%Z) => false
  | _ => true
  end.

(** [[c for c in l if c.strip()]]: only a [str] has [strip]. *)
Fixpoint keep_nonblank (l : list cell) : result (list cell) :=
  match l with
  | [] => Ok []
  | Str s :: l' =>
      rest ← keep_nonblank l';
      mret (if strip_is_empty s then rest else Str s :: rest)
  | _ :: _ => Raise AttributeError
  end.

(** ** Column names *)

Definition TYPE := "disaster_info.disaster_type".
Definition YEAR := "timeline.start_year".
Definition COUNTRY := "location_info.country".
Definition ISO := "location_info.iso".

(** ** The renderers *)

Definition show_df_table (df : DataFrame) : result (DataFrame * list ui) :=
  mret (df, [Dataframe df]).

(** *** Pie chart of disaster types (lines 62 to 83) *)

Definition pie_chart_disaster_type (df : DataFrame) : result (DataFrame * list ui) :=
  col ← get_col df TYPE;
  let disaster_counts := value_counts col in
  let top_10 := nlargest 10 disaster_counts in
  let others_count := series_sum (drop 10 disaster_counts) in
  let disaster_labels :=
    top_10.*1 ++ (if (0 <? others_count)%nat then [Str "Others"] else []) in
  let disaster_sizes :=
    top_10.*2 ++ (if (0 <? others_count)%nat then [others_count] else []) in
  fig ← ax_pie disaster_labels disaster_sizes "";
  mret (df, [Header (String (ascii_of_nat 10) "🥧 Disaster Type Distribution");
             Pyplot fig]).

(** The labels and sizes of a pie over the categories of [col]: the ten
    largest categories, each with its own count, and one more slice for
    all the others together when there are any. *)
Definition top10_plus_others (col : list cell)
    (labels : list cell) (sizes : list nat) : Prop :=
  ∃ top rest : counts,
    top ++ rest ≡ₚ category_counts col
    ∧ length top = length (category_counts col) `min` 10
    ∧ (∀ a b : cell * nat, a ∈ top → b ∈ rest → (b.2 ≤ a.2)%nat)
    ∧ labels = top.*1 ++ (if decide (rest = []) then [] else [Str "Others"])
    ∧ sizes = top.*2 ++ (if decide (rest = []) then [] else [series_sum rest]).

(** *** Yearly trend (lines 86 to 127) *)

(** Lines 88 to 92.  The first assignment is made on the caller's frame;
    [dropna] then rebinds the local name to a new frame, which receives the
    second assignment and is sorted.  Returns both frames. *)
Definition trend_clean `{NumberParser} (df : DataFrame) : result (DataFrame * DataFrame) :=
  ys ← get_col df YEAR;
  ys ← astype_Int64 (to_numeric ys);
  let df0 := set_col YEAR ys df in
  df ← dropna [YEAR] how_any df0;
  ys ← get_col df YEAR;
  ys ← mapM astype_int ys;
  let df := set_col YEAR ys df in
  df ← sort_values YEAR df;
  mret (df0, df).

(** Line 88 seen from one row, and the order of line 92. *)
Definition coerce_year `{NumberParser} (r : row) : row :=
  <[YEAR := whole (cell_at YEAR r)]> r.

Definition year_lt (a b : row) : bool :=
  cell_lt (cell_at YEAR a) (cell_at YEAR b).

(** What the three select boxes of lines 94 to 107 hold. *)
Record trend_choice := mkChoice {
  start_year : scalar;
  end_year : scalar;
  disaster_type : scalar
}.

Definition trend_widgets (df : DataFrame) (pick_start pick_end pick_type : option nat)
    : result (list ui * trend_choice) :=
  ys ← get_col df YEAR;
  start_years ← sorted (unique ys);
  let start_year := selectbox start_years 0 pick_start in
  unique_years ← sorted (unique ys);
  let end_year :=
    if bool_decide (0 < length unique_years)%nat
    then selectbox unique_years (length unique_years - 1) pick_end
    else None in
  ts ← get_col df TYPE;
  types ← sorted (unique ts);
  let disaster_type := selectbox types 0 pick_type in
  mret ([Selectbox "Select Start Year" start_years start_year]
        ++ (if bool_decide (0 < length unique_years)%nat
            then [Selectbox "Select End Year" unique_years end_year] else [])
        ++ [Selectbox "Select Disaster Type" types disaster_type],
        mkChoice start_year end_year disaster_type).

(** Lines 109 to 113. *)
Definition trend_filter (ch : trend_choice) (df : DataFrame) : DataFrame :=
  select_rows (λ r, py_ge (cell_at YEAR r) (start_year ch)
                    && py_le (cell_at YEAR r) (end_year ch)
                    && py_eq (cell_at TYPE r) (disaster_type ch)) df.

(** The two conditions a row of the trend chart is selected by: its year
    is a number within [[s, e]], and its type is the value [t] picked. *)
Definition year_within (s e : Z) (r : row) : Prop :=
  match cell_at YEAR r with
  | Num y => (s ≤ y ≤ e)%Z
  | _ => False
  end.

Definition of_type (t : scalar) (r : row) : Prop :=
  cell_at TYPE r ≠ NaN ∧ t = Some (cell_at TYPE r).

#[global] Instance year_within_dec s e r : Decision (year_within s e r).
Proof. unfold year_within. destruct (cell_at YEAR r); apply _. Defined.

#[global] Instance of_type_dec t r : Decision (of_type t r).
Proof. unfold of_type. apply _. Defined.

Definition NO_RECORDS := "⚠️ No Records found.".

Definition line_graph_disaster_trend `{NumberParser} (df : DataFrame)
    (pick_start pick_end pick_type : option nat) : result (DataFrame * list ui) :=
  '(df0, df) ← trend_clean df;
  '(widgets, ch) ← trend_widgets df pick_start pick_end pick_type;
  let df_filtered := trend_filter ch df in
  df_trend ← groupby_size YEAR df_filtered;
  match df_trend with
  | [] =>
      mret (df0, Header "📈 Disaster Trend Line Graph" :: widgets
                 ++ [Write NO_RECORDS])
  | _ =>
      (* line 122: how a disaster type that is a number prints depends on
         the dtype of its column *)
      if match disaster_type ch with Some (Num _) => true | _ => false end
      then Raise Unsupported
      else
        mret (df0,
              Header "📈 Disaster Trend Line Graph" :: widgets
              ++ [Pyplot (Line df_trend.*1 df_trend.*2
                            ("Trend of " +:+ fmt (disaster_type ch) +:+ " from "
                             +:+ fmt (start_year ch) +:+ " to "
                             +:+ fmt (end_year ch)))])
  end.

(** *** Comparison table (lines 130 to 187) *)

Definition metrics : list string :=
  [ "impact_info.total_deaths";
    "financial_info.reconstruction_cost_usd_adjusted";
    "financial_info.insured_damage_usd_adjusted";
    "financial_info.total_damage_usd_adjusted";
    "impact_info.injured_number";
    "impact_info.affected_number";
    "impact_info.homeless_number";
    "impact_info.total_affected" ].

Definition average_impact : list string :=
  [ "Total Deaths"; "Reconstruction Cost (USD Adjusted)";
    "Insured Damage (USD Adjusted)"; "Total Damage (USD Adjusted)";
    "Injured Number"; "Affected Number"; "Homeless Number"; "Total Affected" ].

(** Line 133. *)
Definition comparison_types (df : DataFrame) : result (list cell) :=
  ts ← get_col df TYPE;
  sorted (unique (series_dropna ts)).

(** Line 150: every metric column is read first, then all are assigned,
    on the caller's frame. *)
Definition coerce_metrics `{NumberParser} (df : DataFrame) : result DataFrame :=
  cols ← mapM (get_col df) metrics;
  cols ← mapM (λ col, numeric_cells (to_numeric col)) cols;
  mret (foldr (λ mc d, set_col mc.1 mc.2 d) df (zip metrics cols)).

(** Line 157. *)
Definition disaster_b_options (disaster_types : list cell) (disaster_a : scalar)
    : list cell :=
  filter (λ d, negb (py_eq d disaster_a)) disaster_types.

(** [df[df[TYPE] == d][metrics].mean(numeric_only=True)
      .reindex(metrics).fillna("nan")]. *)
Definition averages (d : scalar) (df : DataFrame) : result (list avg) :=
  let sub := filter (λ r, py_eq (cell_at TYPE r) d) (rows df) in
  mapM (λ m, mean_filled (cell_at m <$> sub)) metrics.

Definition NOT_ENOUGH := "Not enough disaster types available for comparison.".
Definition SELECT_DIFFERENT := "Please select different disasters for comparison.".

Definition disaster_impact_comparison_table `{NumberParser} (df : DataFrame)
    (pick_a pick_b : option nat) : result (DataFrame * list ui) :=
  let header := Header "⚖️ Disaster Average Impact Comparison" in
  disaster_types ← comparison_types df;
  if (length disaster_types <? 2)%nat then
    mret (df, [header; Warning NOT_ENOUGH])
  else
    df0 ← coerce_metrics df;
    df ← dropna metrics how_all df0;
    let disaster_a := selectbox disaster_types 0 pick_a in
    let options := disaster_b_options disaster_types disaster_a in
    let disaster_b :=
      match options with
      | [] => None
      | _ => selectbox options 0 pick_b
      end in
    let widgets :=
      Selectbox "Select Disaster A" disaster_types disaster_a
      :: match options with
         | [] => []
         | _ => [Selectbox "Select Disaster B" options disaster_b]
         end in
    if negb (truthy disaster_b) then
      mret (df0, header :: widgets ++ [Warning SELECT_DIFFERENT])
    else
      avg_a ← averages disaster_a df;
      avg_b ← averages disaster_b df;
      mret (df0, header :: widgets
                 ++ [Table disaster_a avg_a average_impact disaster_b avg_b]).

(** *** Country-wise table (lines 190 to 203) *)

Definition ALL_COUNTRIES := "All Countries".

Definition country_wise_data_page (df : DataFrame) (pick : option nat)
    : result (DataFrame * list ui) :=
  col ← get_col df COUNTRY;
  let country_list := unique (series_dropna col) in
  country_list ← keep_nonblank country_list;
  country_list ← sorted country_list;
  let country_list := Str ALL_COUNTRIES :: country_list in
  let selected_country := selectbox country_list 0 pick in
  let df_filtered :=
    if negb (bool_decide (selected_country = Some (Str ALL_COUNTRIES)))
    then select_rows (λ r, py_eq (cell_at COUNTRY r) selected_country) df
    else df in
  mret (df, [Selectbox "Select Country:" country_list selected_country;
             Dataframe df_filtered]).

(** *** Impact bar chart (lines 206 to 238) *)

(** The dict literal of the bar chart, in insertion order. *)
Definition impact_metrics : list (string * string) :=
  [ ("Total Deaths", "impact_info.total_deaths");
    ("Injured Number", "impact_info.injured_number");
    ("Affected Number", "impact_info.affected_number");
    ("Homeless Number", "impact_info.homeless_number");
    ("Total Affected", "impact_info.total_affected");
    ("Reconstruction Cost (USD)", "financial_info.reconstruction_cost_usd_adjusted");
    ("Insured Damage (USD)", "financial_info.insured_damage_usd_adjusted");
    ("Total Damage (USD)", "financial_info.total_damage_usd_adjusted") ].

(** [d[k]] on that dict. *)
Definition dict_get (d : list (string * string)) (k : scalar) : result string :=
  match k with
  | Some (Str l) =>
      match list_find (λ kv, kv.1 = l) d with
      | Some (_, kv) => Ok kv.2
      | None => Raise (KeyError l)
      end
  | _ => Raise (KeyError (fmt k))
  end.

(** Lines 220 and 221: the label picked and the column it names. *)
Definition bar_metric (pick : option nat) : scalar * result string :=
  let label := selectbox (Str <$> impact_metrics.*1) 0 pick in
  (label, dict_get impact_metrics label).

(** Lines 223 and 225: the coercion is written to the caller's frame,
    [df_filtered] is a new one.  Returns both. *)
Definition bar_filtered `{NumberParser} (selected_metric : string) (df : DataFrame)
    : result (DataFrame * DataFrame) :=
  col ← get_col df selected_metric;
  col ← numeric_cells (to_numeric col);
  let df := set_col selected_metric col df in
  df_filtered ← dropna [selected_metric] how_any df;
  mret (df, df_filtered).

Definition bar_chart_disaster_vs_impact `{NumberParser} (df : DataFrame)
    (pick : option nat) : result (DataFrame * list ui) :=
  let '(selected_metric_label, selected_metric) := bar_metric pick in
  selected_metric ← selected_metric;
  '(df, df_filtered) ← bar_filtered selected_metric df;
  df_grouped ← groupby_sum TYPE selected_metric df_filtered;
  (* sort_values(by=selected_metric, ascending=True); among equal totals
     pandas promises no order, the stable one is kept here *)
  let df_grouped := stable_sort (λ a b, (a.2 <? b.2)%Z) df_grouped in
  mret (df, [Header "☠️ Impact of Different Disaster";
             Selectbox "Select Impact Metric" (Str <$> impact_metrics.*1)
               selected_metric_label;
             Pyplot (BarH df_grouped.*1 df_grouped.*2
                       ("Total " +:+ fmt selected_metric_label
                        +:+ " by Disaster Type"))]).

(** *** Pie chart of one country (lines 241 to 267) *)

(** Lines 244 to 249: the select box and the frame of the chosen country. *)
Definition country_pie_filtered (df : DataFrame) (pick : option nat)
    : result (list cell * scalar * DataFrame) :=
  col ← get_col df COUNTRY;
  country_list ← sorted (unique (series_dropna col));
  country_list ← keep_nonblank country_list;
  let selected_country := selectbox country_list 0 pick in
  mret (country_list, selected_country,
        select_rows (λ r, py_eq (cell_at COUNTRY r) selected_country) df).

Definition NO_DATA (selected_country : scalar) : string :=
  "No disaster data available for " +:+ fmt selected_country +:+ ".".

Definition pie_chart_disaster_type_by_country (df : DataFrame) (pick : option nat)
    : result (DataFrame * list ui) :=
  let header := Header "🌍 Disaster Types by Country" in
  '(country_list, selected_country, df_filtered) ← country_pie_filtered df pick;
  let widget := Selectbox "Select a Country" country_list selected_country in
  match rows df_filtered with
  | [] => mret (df, [header; widget; Warning (NO_DATA selected_country)])
  | _ =>
      ts ← get_col df_filtered TYPE;
      let disaster_counts := value_counts ts in
      let top_disasters := take 10 disaster_counts in
      let others_sum := series_sum (drop 10 disaster_counts) in
      let top_disasters :=
        if (0 <? others_sum)%nat
        then top_disasters ++ [(Str "Others", others_sum)]
        else top_disasters in
      fig ← ax_pie top_disasters.*1 top_disasters.*2
              ("Disaster Types in " +:+ fmt selected_country);
      mret (df, [header; widget; Pyplot fig])
  end.

(** *** World map (lines 270 to 309) *)

Definition world_map_of_disasters `{NumberText} (df : DataFrame) (pick : option nat)
    : result (DataFrame * list ui) :=
  iso ← get_col df ISO;
  let df := set_col ISO (astype_str ISO <$> iso) df in
  ts ← get_col df TYPE;
  let df := set_col TYPE (astype_str TYPE <$> ts) df in
  ts ← get_col df TYPE;
  types ← sorted (unique ts);
  let disaster_type := selectbox types 0 pick in
  let df_filtered := select_rows (λ r, py_eq (cell_at TYPE r) disaster_type) df in
  df_map ← groupby_size ISO df_filtered;
  mret (df, [Header "🌍 Disaster Distribution by Country";
             Selectbox "Select Disaster Type" types disaster_type;
             PlotlyChart (Choropleth df_map.*1 df_map.*2
                            ("Global Distribution of " +:+ fmt disaster_type))]).

(** Line 150 seen from one row: the cells of the columns [cs] are replaced
    by the image under [f] of what the row held. *)
Definition coerce_row (f : cell → cell) (cs : list string) (r : row) : row :=
  foldr (λ c r', <[c := f (cell_at c r)]> r') r cs.

(** *** What an aggregation ranges over

    A row counts for the metric [m] when [pd.to_numeric] makes a number of
    its cell; [coerced_value] is that number. *)
Definition coerces `{NumberParser} (m : string) (r : row) : Prop :=
  whole (cell_at m r) ≠ NaN.

#[global] Instance coerces_dec `{NumberParser} m r : Decision (coerces m r).
Proof. unfold coerces. apply _. Defined.

Definition coerced_value `{NumberParser} (m : string) (r : row) : Z :=
  num_val (whole (cell_at m r)).

(** The sum of the metric over the rows [sel]. *)
Definition sum_over `{NumberParser} (m : string) (sel : list row) : Z :=
  sum_Z (coerced_value m <$> sel).


(** *** What a renderer leaves behind

    [df'] has the labels of [df] and, row by row, its cells, except that a
    cell of a column [c] in [cs] holds the image under [f c] of what it
    held. *)
Definition overwritten (cs : list string) (f : string → cell → cell)
    (df df' : DataFrame) : Prop :=
  columns df' = columns df
  ∧ ∀ c, cell_at c <$> rows df'
         = (λ r, if bool_decide (c ∈ cs) then f c (cell_at c r) else cell_at c r)
           <$> rows df.

(** *** Navigation (lines 32 to 55) *)

Inductive tab := DisasterData | DisasterImpact | CountryWise.

(** The positions picked in the widgets of the current run. *)
Record picks := mkPicks {
  pick_start : option nat;
  pick_end : option nat;
  pick_type : option nat;
  pick_metric : option nat;
  pick_a : option nat;
  pick_b : option nat;
  pick_country : option nat;
  pick_pie_country : option nat;
  pick_map_type : option nat
}.

(** One frame object is handed from renderer to renderer.  (The
    introductory [st.write] texts are left out.) *)
Definition sidebar `{NumberParser} `{NumberText} (df : DataFrame) (t : tab) (w : picks)
    : result (DataFrame * list ui) :=
  match t with
  | DisasterData =>
      '(df, o1) ← show_df_table df;
      '(df, o2) ← pie_chart_disaster_type df;
      '(df, o3) ← line_graph_disaster_trend df (pick_start w) (pick_end w) (pick_type w);
      mret (df, Title "📊 EM-DAT Disaster Data" :: o1 ++ o2 ++ o3)
  | DisasterImpact =>
      '(df, o1) ← bar_chart_disaster_vs_impact df (pick_metric w);
      '(df, o2) ← disaster_impact_comparison_table df (pick_a w) (pick_b w);
      mret (df, Title "💥 Disaster Impact" :: o1 ++ o2)
  | CountryWise =>
      '(df, o1) ← country_wise_data_page df (pick_country w);
      '(df, o2) ← pie_chart_disaster_type_by_country df (pick_pie_country w);
      '(df, o3) ← world_map_of_disasters df (pick_map_type w);
      mret (df, Title "🗺️ Country-Wise Disaster Info" :: o1 ++ o2 ++ o3)
  end.

(** ** A number reader and a number printer to run the model with

    The reader takes an optional minus sign, decimal digits and an
    optional fraction after a point; the number is whole when the fraction
    has no digit but 0.  The printer writes a number as in an integer
    column. *)

Definition digit (a : ascii) : option Z :=
  let n := nat_of_ascii a in
  if ((48 <=? n) && (n <=? 57))%nat then Some (Z.of_nat (n - 48)) else None.

(** The digits after the point: [Some true] when all are 0. *)
Fixpoint fraction (s : string) : option bool :=
  match s with
  | EmptyString => Some true
  | String a s' =>
      d ← digit a; zeros ← fraction s'; Some (bool_decide (d = 0%Z) && zeros)
  end.

(** [seen]: a digit has been read. *)
Fixpoint digits (seen : bool) (acc : Z) (s : string) : reading :=
  match s with
  | EmptyString => if seen then Whole acc else NotNumber
  | String "." s' =>
      match fraction s' with
      | Some zeros =>
          if seen || negb (bool_decide (s' = EmptyString))
          then (if zeros then Whole acc else NotWhole)
          else NotNumber
      | None => NotNumber
      end
  | String a s' =>
      match digit a with
      | Some d => digits true (10 * acc + d)%Z s'
      | None => NotNumber
      end
  end.

Definition negate (x : reading) : reading :=
  match x with Whole z => Whole (- z) | _ => x end.

Definition parse_decimal (s : string) : reading :=
  match s with
  | String "-" s' => negate (digits false 0 s')
  | _ => digits false 0 s
  end.

Definition decimal_parser : NumberParser := parse_decimal.

Definition integer_text : NumberText := λ _ z, pretty z.

(** ** Sample tables *)

Definition record (type year country iso deaths : cell) : row :=
  {[ TYPE := type; YEAR := year; COUNTRY := country; ISO := iso;
     "impact_info.total_deaths" := deaths ]}.

(** The labels [json_normalize] gives such records, and the other seven
    metrics, which these records lack. *)
Definition sample_columns : list string :=
  [TYPE; YEAR; COUNTRY; ISO] ++ metrics.

(** Years and deaths partly as text, one unreadable count, one missing
    ISO code. *)
Definition sample : DataFrame :=
  mkDF sample_columns
    [ record (Str "Flood") (Str "2000") (Str "France") (Str "FRA") (Str "12");
      record (Str "Storm") (Num 2000) (Str "India") (Str "IND") (Num 7);
      record (Str "Flood") (Num 2001) (Str "France") NaN (Str "n/a") ].

(** Three floods, in 2000, 2000 and 2001. *)
Definition three_floods : DataFrame :=
  mkDF sample_columns
    [ record (Str "Flood") (Num 2000) (Str "France") (Str "FRA") (Num 3);
      record (Str "Flood") (Num 2000) (Str "India") (Str "IND") (Num 5);
      record (Str "Flood") (Num 2001) (Str "France") (Str "FRA") NaN ].

(** A flood and a storm of the same year. *)
Definition flood_and_storm : DataFrame :=
  mkDF sample_columns
    [ record (Str "Flood") (Num 2000) (Str "France") (Str "FRA") (Num 3);
      record (Str "Storm") (Num 2000) (Str "India") (Str "IND") (Num 5) ].

(** Records without a readable year, country or death count. *)
Definition unrecorded : DataFrame :=
  mkDF sample_columns
    [ record (Str "Flood") (Str "unknown") NaN (Str "FRA") (Str "n/a");
      record (Str "Flood") NaN NaN (Str "IND") NaN ].

(** *** Tick labels of the bar chart (lines 312 and 313)

    [format_k] receives the position of a tick on the value axis, a
    [float].  The embedding covers the ticks that are whole numbers below
    [2 ^ 53]: there the float quotient [x / 1000] lies within a thousandth
    of the exact one, so that [int(x / 1000)] is the integer quotient. *)
Definition format_k (x : Z) : result string :=
  if in_range x then
    mret (if (1000 <=? x)%Z then pretty (x / 1000)%Z +:+ "k" else pretty x)
  else Raise Unsupported.

(** *** Navigation with every renderer on the loaded table

    What [sidebar] would show if each renderer were handed the table as it
    was loaded, instead of the object the renderers before it have written
    to. *)
Definition sidebar_fresh `{NumberParser} `{NumberText} (df : DataFrame) (t : tab) (w : picks)
    : result (list ui) :=
  match t with
  | DisasterData =>
      '(_, o1) ← show_df_table df;
      '(_, o2) ← pie_chart_disaster_type df;
      '(_, o3) ← line_graph_disaster_trend df (pick_start w) (pick_end w) (pick_type w);
      mret (Title "📊 EM-DAT Disaster Data" :: o1 ++ o2 ++ o3)
  | DisasterImpact =>
      '(_, o1) ← bar_chart_disaster_vs_impact df (pick_metric w);
      '(_, o2) ← disaster_impact_comparison_table df (pick_a w) (pick_b w);
      mret (Title "💥 Disaster Impact" :: o1 ++ o2)
  | CountryWise =>
      '(_, o1) ← country_wise_data_page df (pick_country w);
      '(_, o2) ← pie_chart_disaster_type_by_country df (pick_pie_country w);
      '(_, o3) ← world_map_of_disasters df (pick_map_type w);
      mret (Title "🗺️ Country-Wise Disaster Info" :: o1 ++ o2 ++ o3)
  end.

(** *** Vocabulary of the trend chart

    The start year of a record as line 88 reads it. *)
Definition year_of `{NumberParser} (r : row) : cell := whole (cell_at YEAR r).

(** A record the trend chart counts at the year [y] under the choice [ch]. *)
Definition counted_at `{NumberParser} (ch : trend_choice) (y : Z) (r : row) : Prop :=
  year_of r = Num y
  ∧ py_ge (Num y) (start_year ch)
  ∧ py_le (Num y) (end_year ch)
  ∧ py_eq (cell_at TYPE r) (disaster_type ch).

#[global] Instance counted_at_dec `{NumberParser} ch y r : Decision (counted_at ch y r).
Proof. unfold counted_at. apply _. Defined.

(** A list Python cannot order: it holds a [str] and something that is
    not a [str]. *)
Definition mixed (l : list cell) : Prop :=
  ∃ a b, a ∈ l ∧ b ∈ l ∧ is_str a ∧ ¬ is_str b.

(** The rows the select boxes and the mask of the trend chart work on,
    once lines 88 to 92 have run: the rows whose year reads as a number,
    with that number in the year cell, by ascending year. *)
Definition trend_rows `{NumberParser} (df : DataFrame) : list row :=
  stable_sort year_lt
    (filter (λ r, notna (cell_at YEAR r)) (coerce_year <$> rows df)).

(** Lines 274 and 275 seen from one row. *)
Definition stringify `{NumberText} (r : row) : row :=
  <[TYPE := astype_str TYPE (cell_at TYPE r)]>
    (<[ISO := astype_str ISO (cell_at ISO r)]> r).

(** A record the world map counts at the location [l] when the value
    [dt] is selected in its box: the record has a disaster type, which as
    text is the selected one, and an ISO code, which as text is [l].  A
    record without a type or without a code is counted nowhere. *)
Definition located_at `{NumberText} (dt : scalar) (l : cell) (r : row) : Prop :=
  dt = Some (astype_str TYPE (cell_at TYPE r)) ∧ cell_at TYPE r ≠ NaN
  ∧ astype_str ISO (cell_at ISO r) = l ∧ l ≠ NaN.

#[global] Instance located_at_dec `{NumberText} dt l r : Decision (located_at dt l r).
Proof. unfold located_at. apply _. Defined.

(** *** Columns the embedding follows

    A cell that [pd.to_numeric] reads as a whole number below [2 ^ 53] or
    as no number at all. *)
Definition readable `{NumberParser} (c : cell) : Prop := exact (read c).

#[global] Instance readable_dec `{NumberParser} c : Decision (readable c).
Proof. unfold readable. apply _. Defined.

(** The column [c] of [df] holds such cells only. *)
Definition readable_column `{NumberParser} (c : string) (df : DataFrame) : Prop :=
  Forall (λ r, readable (cell_at c r)) (rows df).


(** A cell that names a country for the two country select boxes: a text
    that is not blank (lines 192 and 245). *)
Definition named (c : cell) : Prop :=
  match c with
  | Str s => strip_is_empty s = false
  | _ => False
  end.

#[global] Instance named_dec c : Decision (named c).
Proof. destruct c; apply _. Defined.

(** ** More sample tables *)

(** A flood and a record without a disaster type. *)
Definition untyped : DataFrame :=
  mkDF sample_columns
    [ record (Str "Flood") (Num 2000) (Str "France") (Str "FRA") (Num 3);
      record NaN (Num 2001) (Str "India") (Str "IND") (Num 5) ].

(** A record whose disaster type is the empty text. *)
Definition blank_type : DataFrame :=
  mkDF sample_columns
    [ record (Str "") (Num 2000) (Str "France") (Str "FRA") (Num 3);
      record (Str "Flood") (Num 2001) (Str "India") (Str "IND") (Num 5) ].

(** A record whose country is a number. *)
Definition numbered_country : DataFrame :=
  mkDF sample_columns
    [ record (Str "Flood") (Num 2000) (Num 33) (Str "FRA") (Num 3) ].

(** Records that were never given a disaster type. *)
Definition no_type_column : DataFrame :=
  mkDF [YEAR; COUNTRY; ISO]
    [ {[ YEAR := Num 2000; COUNTRY := Str "France"; ISO := Str "FRA" ]} ].


(** * Properties *)

(** ** The result monad *)

Lemma bind_Ok {A B} (m : result A) (f : A → result B) (b : B) :
  m ≫= f = Ok b ↔ ∃ a, m = Ok a ∧ f a = Ok b.
Proof.
  destruct m as [a|e]; simpl; split.
  - intros Hf. exists a. done.
  - intros (a' & [= <-] & Hf). done.
  - intros [=].
  - intros (a' & [=] & _).
Qed.

(** ** Stable insertion sort *)

Section stable_sort_props.
Context {A : Type} (lt : A → A → bool).

Lemma insert_sorted_perm x l : insert_sorted lt x l ≡ₚ x :: l.
Proof.
  induction l as [|y l IH]; simpl; [done|].
  destruct (lt y x); [|done].
  rewrite IH. apply Permutation_swap.
Qed.

Lemma stable_sort_perm l : stable_sort lt l ≡ₚ l.
Proof.
  induction l as [|x l IH]; simpl; [done|].
  rewrite insert_sorted_perm. by rewrite IH.
Qed.

Lemma elem_of_stable_sort x l : x ∈ stable_sort lt l ↔ x ∈ l.
Proof. by rewrite stable_sort_perm. Qed.

Lemma insert_sorted_id x l : HdRel (before lt) x l → insert_sorted lt x l = x :: l.
Proof.
  destruct 1 as [|y l Hxy]; simpl; [done|].
  unfold before in Hxy. by rewrite Hxy.
Qed.

(** A list already in order is left as it is. *)
Lemma stable_sort_id l : Sorted (before lt) l → stable_sort lt l = l.
Proof.
  induction 1 as [|x l Hl IH Hx]; simpl; [done|].
  rewrite IH. by apply insert_sorted_id.
Qed.

Hypothesis lt_asym : ∀ x y, lt x y = true → lt y x = false.

Lemma insert_sorted_Sorted x l :
  Sorted (before lt) l → Sorted (before lt) (insert_sorted lt x l).
Proof.
  induction 1 as [|y l Hl IH Hy]; simpl.
  - by repeat constructor.
  - destruct (lt y x) eqn:Hyx.
    + constructor; [done|].
      destruct Hy as [|z l Hyz]; simpl.
      * constructor. by apply lt_asym.
      * destruct (lt z x); constructor; [done|]. by apply lt_asym.
    + constructor; [by constructor|]. by constructor.
Qed.

Lemma stable_sort_Sorted l : Sorted (before lt) (stable_sort lt l).
Proof.
  induction l as [|x l IH]; simpl; [constructor|].
  by apply insert_sorted_Sorted.
Qed.
End stable_sort_props.

Lemma Sorted_mono {A} (R1 R2 : relation A) (l : list A) :
  (∀ x y, R1 x y → R2 x y) → Sorted R1 l → Sorted R2 l.
Proof.
  intros HR. induction 1 as [|x l Hl IH Hx]; constructor; [done|].
  destruct Hx; constructor. by apply HR.
Qed.

(** ** [unique] and counting *)

Lemma elem_of_unique x l : x ∈ unique l ↔ x ∈ l.
Proof.
  induction l as [|y l IH]; simpl; [done|].
  rewrite !elem_of_cons, list_elem_of_filter, IH.
  destruct (decide (x = y)); tauto.
Qed.

Lemma NoDup_unique l : NoDup (unique l).
Proof.
  induction l as [|y l IH]; simpl; [constructor|].
  constructor.
  - rewrite list_elem_of_filter. tauto.
  - by apply NoDup_filter.
Qed.

Lemma count_occ_cell_pos x l : x ∈ l → 0 < count_occ_cell x l.
Proof.
  unfold count_occ_cell. induction 1 as [x l|x y l Hx IH].
  - rewrite filter_cons_True by done. simpl. lia.
  - rewrite filter_cons. destruct (decide (y = x)); simpl; lia.
Qed.

Lemma count_partition (x : cell) (u l : list cell) :
  x ∉ u →
  length (filter (λ y, y ∈ x :: u) l)
  = count_occ_cell x l + length (filter (λ y, y ∈ u) l).
Proof.
  intros Hx. unfold count_occ_cell.
  induction l as [|y l IH]; simpl; [done|].
  rewrite !filter_cons.
  destruct (decide (y = x)) as [->|Hne].
  - rewrite decide_True by apply list_elem_of_here.
    rewrite (decide_False (P := x ∈ u)) by done. simpl. lia.
  - destruct (decide (y ∈ u)) as [Hu|Hu].
    + rewrite decide_True by (by apply list_elem_of_further). simpl. lia.
    + rewrite decide_False; [done|].
      rewrite elem_of_cons. tauto.
Qed.

Lemma sum_counts_NoDup (u l : list cell) :
  NoDup u →
  sum_list ((λ v, count_occ_cell v l) <$> u) = length (filter (λ y, y ∈ u) l).
Proof.
  induction 1 as [|x u Hx Hu IH]; simpl.
  - induction l as [|y l IHl]; [done|].
    rewrite filter_cons_False; [done|]. apply not_elem_of_nil.
  - rewrite count_partition by done. by rewrite <- IH.
Qed.

Lemma filter_all {A} (P : A → Prop) `{!∀ x, Decision (P x)} (l : list A) :
  (∀ x, x ∈ l → P x) → filter P l = l.
Proof.
  induction l as [|y l IH]; intros HP; [done|].
  rewrite filter_cons_True by apply HP, list_elem_of_here.
  f_equal. apply IH. intros x Hx. by apply HP, list_elem_of_further.
Qed.

Lemma filter_none {A} (P : A → Prop) `{!∀ x, Decision (P x)} (l : list A) :
  (∀ x, x ∈ l → ¬ P x) → filter P l = [].
Proof.
  induction l as [|y l IH]; intros HP; [done|].
  rewrite filter_cons_False by apply HP, list_elem_of_here.
  apply IH. intros x Hx. by apply HP, list_elem_of_further.
Qed.

(** Every record is counted once. *)
Lemma sum_counts_unique (l : list cell) :
  sum_list ((λ v, count_occ_cell v l) <$> unique l) = length l.
Proof.
  rewrite sum_counts_NoDup by apply NoDup_unique.
  f_equal. apply filter_all. intros x Hx. by apply elem_of_unique.
Qed.

(** ** Counting categories *)

Lemma count_gt_asym a b : count_gt a b = true → count_gt b a = false.
Proof.
  unfold count_gt. rewrite Nat.ltb_lt, Nat.ltb_ge. lia.
Qed.

Lemma value_counts_perm col : value_counts col ≡ₚ category_counts col.
Proof. apply stable_sort_perm. Qed.

Lemma category_counts_sum col :
  series_sum (category_counts col) = length (series_dropna col).
Proof.
  unfold series_sum, category_counts.
  rewrite <- list_fmap_compose. apply sum_counts_unique.
Qed.

Lemma category_counts_pos col a : a ∈ category_counts col → 0 < a.2.
Proof.
  unfold category_counts. rewrite list_elem_of_fmap.
  intros (v & -> & Hv). simpl.
  by apply count_occ_cell_pos, elem_of_unique.
Qed.

(** Descending order of count. *)
Lemma value_counts_descending col :
  StronglySorted (λ a b, b.2 ≤ a.2) (value_counts col).
Proof.
  apply Sorted_StronglySorted.
  { intros a b c. lia. }
  eapply Sorted_mono; [|apply (stable_sort_Sorted count_gt count_gt_asym)].
  intros a b. unfold before, count_gt. rewrite Nat.ltb_ge. lia.
Qed.

(** On a series that is already in descending order, [nlargest] is a
    prefix. *)
Lemma nlargest_value_counts n col :
  nlargest n (value_counts col) = take n (value_counts col).
Proof.
  unfold nlargest. f_equal. apply stable_sort_id.
  apply (stable_sort_Sorted count_gt count_gt_asym).
Qed.

Lemma series_sum_app s1 s2 : series_sum (s1 ++ s2) = series_sum s1 + series_sum s2.
Proof. unfold series_sum. by rewrite fmap_app, sum_list_with_app. Qed.

Lemma series_sum_perm s1 s2 : s1 ≡ₚ s2 → series_sum s1 = series_sum s2.
Proof. unfold series_sum. by intros ->. Qed.

Lemma series_sum_pos (s : counts) :
  (∀ a, a ∈ s → 0 < a.2) → s ≠ [] → 0 < series_sum s.
Proof.
  destruct s as [|a s]; [done|]. intros Hpos _.
  specialize (Hpos a (list_elem_of_here _ _)).
  unfold series_sum. simpl. lia.
Qed.

(** Lines 67 to 71 and 257 to 261, on the counts of any column. *)
Lemma bucketing_top10_plus_others col :
  let disaster_counts := value_counts col in
  let top := take 10 disaster_counts in
  let others := series_sum (drop 10 disaster_counts) in
  top10_plus_others col
    (top.*1 ++ (if (0 <? others)%nat then [Str "Others"] else []))
    (top.*2 ++ (if (0 <? others)%nat then [others] else [])).
Proof.
  cbv zeta. set (vc := value_counts col).
  assert (Hperm : vc ≡ₚ category_counts col) by apply value_counts_perm.
  exists (take 10 vc), (drop 10 vc).
  assert (Hothers : (0 <? series_sum (drop 10 vc))
                    = negb (bool_decide (drop 10 vc = []))).
  { case_bool_decide as Hd; simpl.
    - by rewrite Hd.
    - apply Nat.ltb_lt, series_sum_pos; [|done].
      intros a Ha. apply (category_counts_pos col).
      rewrite <- Hperm. by eapply subseteq_drop. }
  split_and!.
  - by rewrite take_drop.
  - rewrite length_take, Hperm. lia.
  - intros a b Ha Hb.
    pose proof (value_counts_descending col) as Hs. fold vc in Hs.
    rewrite <- (take_drop 10 vc) in Hs.
    apply (StronglySorted_app_1_elem_of _ _ _ a b Hs Ha Hb).
  - rewrite Hothers. by case_bool_decide; rewrite ?decide_True, ?decide_False by done.
  - rewrite Hothers. by case_bool_decide; rewrite ?decide_True, ?decide_False by done.
Qed.

(** What follows for any such pie: at most eleven slices, one size per
    label, every record with a type in exactly one slice, and the extra
    slice exactly when there are more than ten categories. *)
Lemma top10_plus_others_facts col labels sizes :
  top10_plus_others col labels sizes →
  length labels ≤ 11
  ∧ length sizes = length labels
  ∧ sum_list sizes = length (series_dropna col)
  ∧ (length labels = 11 ↔ 10 < length (unique (series_dropna col))).
Proof.
  intros (top & rest & Hperm & Hlen & _ & -> & ->).
  assert (Hn : length top + length rest = length (unique (series_dropna col))).
  { rewrite <- length_app, Hperm. unfold category_counts. by rewrite length_fmap. }
  assert (Hc : length (category_counts col) = length (unique (series_dropna col))).
  { unfold category_counts. by rewrite length_fmap. }
  rewrite !length_app, !length_fmap.
  split_and!.
  - destruct (decide (rest = [])); simpl; lia.
  - by destruct (decide (rest = [])).
  - rewrite <- category_counts_sum, <- (series_sum_perm _ _ Hperm), series_sum_app.
    rewrite sum_list_with_app. unfold series_sum at 1. f_equal.
    destruct (decide (rest = [])) as [->|]; simpl; [done|].
    unfold series_sum. lia.
  - destruct (decide (rest = [])) as [->|Hr]; simpl in *; [lia|].
    destruct rest; [done|]. simpl in *. lia.
Qed.

(** ** Reading columns *)

Lemma get_col_Ok df c :
  c ∈ columns df → get_col df c = Ok (cell_at c <$> rows df).
Proof. intros Hc. unfold get_col. by rewrite bool_decide_eq_true_2. Qed.

Lemma get_col_Ok_inv df c col :
  get_col df c = Ok col → c ∈ columns df ∧ col = cell_at c <$> rows df.
Proof.
  unfold get_col. case_bool_decide; [|done]. by intros [= <-].
Qed.

Lemma match_nonempty {A B} (l : list A) (b1 b2 : B) :
  l ≠ [] → match l with [] => b1 | _ :: _ => b2 end = b2.
Proof. by destruct l. Qed.

Ltac run := cbn [mbind mret result_bind result_ret].

(** ** [sorted] *)

Lemma existsb_none {A} (f : A → bool) (l : list A) :
  (∀ x, x ∈ l → f x = false) → existsb f l = false.
Proof.
  induction l as [|x l IH]; [done|]. intros Hf. cbn [existsb].
  rewrite (Hf x (list_elem_of_here _ _)), IH; [done|].
  intros y Hy. by apply Hf, list_elem_of_further.
Qed.

Lemma forallb_all {A} (f : A → bool) (l : list A) :
  (∀ x, x ∈ l → f x = true) → forallb f l = true.
Proof.
  induction l as [|x l IH]; [done|]. intros Hf. cbn [forallb].
  rewrite (Hf x (list_elem_of_here _ _)), IH; [done|].
  intros y Hy. by apply Hf, list_elem_of_further.
Qed.

Lemma sorted_Ok_perm l s : sorted l = Ok s → s ≡ₚ l.
Proof.
  unfold sorted. destruct l as [|x l]; [by intros [= <-]|].
  destruct (forallb _ _); [|done]. destruct (_ && _); [done|].
  intros Heq. injection Heq as <-. apply (stable_sort_perm cell_lt (x :: l)).
Qed.

Lemma sorted_Ok_elem_of l s x : sorted l = Ok s → x ∈ s ↔ x ∈ l.
Proof. intros Hs. by rewrite (sorted_Ok_perm _ _ Hs). Qed.

Lemma sorted_short l : length l < 2 → sorted l = Ok l.
Proof.
  destruct l as [|x [|y l]]; simpl; [done| |lia]. by destruct x.
Qed.

(** A list of one kind, [str] or numbers, sorts without raising. *)
Lemma sorted_one_kind l :
  Forall (λ c, is_str c) l ∨ Forall (λ c, is_num c) l →
  sorted l = Ok (stable_sort cell_lt l).
Proof.
  intros Hkind. destruct l as [|x l]; [done|]. unfold sorted.
  assert (Hna : existsb isna (x :: l) = false).
  { apply existsb_none. intros y Hy.
    destruct Hkind as [Hk|Hk]; rewrite Forall_forall in Hk;
      specialize (Hk y Hy); by destruct y. }
  rewrite Hna. cbn [andb].
  rewrite forallb_all; [done|]. intros y Hy.
  destruct Hkind as [Hk|Hk]; rewrite Forall_forall in Hk;
    pose proof (Hk x (list_elem_of_here _ _));
    pose proof (Hk y (list_elem_of_further _ _ _ Hy)); by destruct x, y.
Qed.

Lemma sorted_strings l :
  Forall (λ c, is_str c) l → ∃ s, sorted l = Ok s.
Proof. intros Hl. eexists. apply sorted_one_kind. by left. Qed.

Lemma sorted_numbers l :
  Forall (λ c, is_num c) l → ∃ s, sorted l = Ok s.
Proof. intros Hl. eexists. apply sorted_one_kind. by right. Qed.

(** ** Widgets *)

Lemma selectbox_elem_of options index pick v :
  selectbox options index pick = Some v → v ∈ options.
Proof. unfold selectbox. apply list_elem_of_lookup_2. Qed.

Lemma selectbox_Some options index pick :
  index < length options → is_Some (selectbox options index pick).
Proof.
  intros Hi. unfold selectbox. apply lookup_lt_is_Some.
  destruct pick as [i|]; [|done]. by case_bool_decide.
Qed.

(** ** The filter of the trend chart *)

Lemma py_ge_spec c (s : Z) : py_ge c (Some (Num s)) ↔ ∃ y, c = Num y ∧ (s ≤ y)%Z.
Proof.
  destruct c as [|t|y]; simpl.
  - split; [done|]. by intros (? & [=] & _).
  - split; [done|]. by intros (? & [=] & _).
  - rewrite Is_true_true, Z.leb_le. split; [by exists y|]. by intros (? & [= <-] & ?).
Qed.

Lemma py_le_spec c (e : Z) : py_le c (Some (Num e)) ↔ ∃ y, c = Num y ∧ (y ≤ e)%Z.
Proof.
  destruct c as [|t|y]; simpl.
  - split; [done|]. by intros (? & [=] & _).
  - split; [done|]. by intros (? & [=] & _).
  - rewrite Is_true_true, Z.leb_le. split; [by exists y|]. by intros (? & [= <-] & ?).
Qed.

Lemma py_eq_spec c (v : scalar) : py_eq c v ↔ c ≠ NaN ∧ v = Some c.
Proof.
  destruct c as [|s|z], v as [[|s'|z']|]; simpl;
    rewrite ?bool_decide_spec; split; try done;
    try (by intros [_ [=]]); try (by intros [[] _]);
    try (by intros [= ->]); try (by intros [_ [= ->]]).
Qed.

(** ** The comparison table's select boxes *)

Lemma elem_of_series_dropna c l : c ∈ series_dropna l ↔ c ≠ NaN ∧ c ∈ l.
Proof.
  unfold series_dropna. rewrite list_elem_of_filter.
  destruct c; simpl; split; intros [H1 H2]; try done.
Qed.

Lemma comparison_types_notna df types d :
  comparison_types df = Ok types → d ∈ types → d ≠ NaN.
Proof.
  unfold comparison_types. intros Hb Hd.
  apply bind_Ok in Hb as (ts & _ & Hs).
  rewrite (sorted_Ok_elem_of _ _ _ Hs), elem_of_unique, elem_of_series_dropna in Hd.
  by destruct Hd.
Qed.

(** Line 157: the value picked as A is not offered again. *)
Lemma disaster_b_options_spec types (a : scalar) d :
  d ∈ disaster_b_options types a ↔ d ∈ types ∧ (d = NaN ∨ a ≠ Some d).
Proof.
  unfold disaster_b_options. rewrite list_elem_of_filter.
  rewrite negb_True, py_eq_spec.
  destruct (decide (d = NaN)); destruct (decide (a = Some d)); tauto.
Qed.

Lemma elem_of_if_nonempty {A B} (l : list A) (x w : B) :
  w ∈ match l with [] => [] | _ :: _ => [x] end → w = x ∧ l ≠ [].
Proof.
  destruct l; [by intros ?%elem_of_nil|].
  by intros ->%list_elem_of_singleton.
Qed.

Lemma selectbox_if_nonempty options pick b :
  match options with [] => None | _ :: _ => selectbox options 0 pick end = Some b →
  b ∈ options.
Proof. destruct options; [done|]. apply selectbox_elem_of. Qed.

(** ** Country lists *)

Lemma keep_nonblank_Ok_strings l k :
  keep_nonblank l = Ok k → Forall (λ c, is_str c) k.
Proof.
  revert k. induction l as [|c l IH]; intros k; simpl.
  - intros [= <-]. constructor.
  - destruct c as [|s|z]; [done| |done].
    intros (rest & Hrest & Hk)%bind_Ok.
    destruct (strip_is_empty s); injection Hk as <-; [by apply IH|].
    constructor; [done|by apply IH].
Qed.

Lemma keep_nonblank_strings l :
  Forall (λ c, is_str c) l → ∃ k, keep_nonblank l = Ok k.
Proof.
  induction 1 as [|c l Hc Hl [k IH]]; simpl; [by eexists|].
  destruct c as [|s|z]; [done| |done].
  rewrite IH. run. by eexists.
Qed.

(** ** The slices handed to [ax.pie] *)

Lemma ax_pie_Ok labels sizes title :
  sizes ≠ [] → ax_pie labels sizes title = Ok (Pie labels sizes title).
Proof. by destruct sizes. Qed.

Lemma ax_pie_Ok_inv labels sizes title fig :
  ax_pie labels sizes title = Ok fig → fig = Pie labels sizes title ∧ sizes ≠ [].
Proof. destruct sizes; [done|]. by intros [= <-]. Qed.

Lemma value_counts_nonempty col c :
  c ∈ col → c ≠ NaN → value_counts col ≠ [].
Proof.
  intros Hc Hna Hnil.
  assert (Hin : c ∈ unique (series_dropna col))
    by (by rewrite elem_of_unique, elem_of_series_dropna).
  assert (Hlen : length (value_counts col) = length (unique (series_dropna col))).
  { rewrite (Permutation_length (value_counts_perm col)).
    unfold category_counts. by rewrite length_fmap. }
  rewrite Hnil in Hlen. destruct (unique (series_dropna col)); [|done].
  by apply elem_of_nil in Hin.
Qed.

(** The sizes are one per category for at most ten categories, so there
    is a slice as soon as there is a category. *)
Lemma top10_sizes_nonempty (vc : counts) (extra : list nat) :
  vc ≠ [] → (take 10 vc).*2 ++ extra ≠ [].
Proof. by destruct vc. Qed.

Lemma pie_bucketing_facts col :
  let vc := value_counts col in
  let others := series_sum (drop 10 vc) in
  let labels := (take 10 vc).*1 ++ (if 0 <? others then [Str "Others"] else []) in
  let sizes := (take 10 vc).*2 ++ (if 0 <? others then [others] else []) in
  top10_plus_others col labels sizes
  ∧ length labels ≤ 11
  ∧ length sizes = length labels
  ∧ sum_list sizes = series_sum (value_counts col)
  ∧ sum_list sizes = length (series_dropna col)
  ∧ (length labels = 11 ↔ 10 < length (unique (series_dropna col))).
Proof.
  cbv zeta.
  pose proof (bucketing_top10_plus_others col) as Hb. cbv zeta in Hb.
  destruct (top10_plus_others_facts _ _ _ Hb) as (H1 & H2 & H3 & H4).
  split_and!; try done.
  rewrite H3, (series_sum_perm _ _ (value_counts_perm _)).
  by rewrite category_counts_sum.
Qed.

(** The per-country chart adds its "Others" row to the counts before it
    takes labels and sizes apart; the outcome is the same. *)
Lemma country_pie_slices (vc : counts) :
  let others := series_sum (drop 10 vc) in
  let top := if 0 <? others then take 10 vc ++ [(Str "Others", others)]
             else take 10 vc in
  top.*1 = (take 10 vc).*1 ++ (if 0 <? others then [Str "Others"] else [])
  ∧ top.*2 = (take 10 vc).*2 ++ (if 0 <? others then [others] else []).
Proof.
  cbv zeta. destruct (0 <? series_sum (drop 10 vc));
    by rewrite ?fmap_app, ?app_nil_r.
Qed.

Lemma country_pie_filtered_total df pick :
  COUNTRY ∈ columns df →
  Forall (λ r, cell_at COUNTRY r = NaN ∨ is_str (cell_at COUNTRY r)) (rows df) →
  ∃ country_list selected_country df_filtered,
    country_pie_filtered df pick
    = Ok (country_list, selected_country, df_filtered)
    ∧ columns df_filtered = columns df.
Proof.
  intros Hc Hstr. unfold country_pie_filtered.
  rewrite (get_col_Ok _ _ Hc). run.
  assert (Hs : Forall (λ c, is_str c)
                 (unique (series_dropna (cell_at COUNTRY <$> rows df)))).
  { apply Forall_forall. intros c.
    rewrite elem_of_unique, elem_of_series_dropna, list_elem_of_fmap.
    intros [Hna (r & -> & Hr)]. rewrite Forall_forall in Hstr.
    by destruct (Hstr r Hr). }
  destruct (sorted_strings _ Hs) as [s Hsort]. rewrite Hsort. run.
  assert (Hs' : Forall (λ c, is_str c) s).
  { apply Forall_forall. intros c Hin. rewrite Forall_forall in Hs.
    apply Hs. by rewrite <- (sorted_Ok_elem_of _ _ _ Hsort). }
  destruct (keep_nonblank_strings _ Hs') as [k Hk]. rewrite Hk. run.
  by eexists _, _, _.
Qed.

(** C1. Both pie charts hand [ax.pie] the ten largest disaster-type
    categories and, only when there are more than ten categories, one
    slice "Others" holding all the rest: at most eleven labels, one size
    per label, and the sizes add up to the number of records that have a
    disaster type (the sum of all category counts).  The first chart is
    drawn so for the whole table as soon as a record has a disaster type.
    The second is drawn so for the records of the selected country: in
    every run that draws it, and it is drawn whenever the columns exist,
    the country cells are texts or missing and a record of the selected
    country has a disaster type. *)
Theorem pie_bucketing_top10_plus_others (df : DataFrame) :
  (TYPE ∈ columns df →
   (∃ r, r ∈ rows df ∧ cell_at TYPE r ≠ NaN) →
   ∃ labels sizes,
     pie_chart_disaster_type df
     = Ok (df, [Header (String (ascii_of_nat 10) "🥧 Disaster Type Distribution");
                Pyplot (Pie labels sizes "")])
     ∧ let col := cell_at TYPE <$> rows df in
       top10_plus_others col labels sizes
       ∧ length labels ≤ 11
       ∧ length sizes = length labels
       ∧ sum_list sizes = series_sum (value_counts col)
       ∧ sum_list sizes = length (series_dropna col)
       ∧ (length labels = 11 ↔ 10 < length (unique (series_dropna col))))
  ∧ (∀ pick df' out labels sizes title,
       pie_chart_disaster_type_by_country df pick = Ok (df', out) →
       Pyplot (Pie labels sizes title) ∈ out →
       ∃ country_list selected_country df_filtered,
         country_pie_filtered df pick
         = Ok (country_list, selected_country, df_filtered)
         ∧ let col := cell_at TYPE <$> rows df_filtered in
           top10_plus_others col labels sizes
           ∧ length labels ≤ 11
           ∧ length sizes = length labels
           ∧ sum_list sizes = series_sum (value_counts col)
           ∧ sum_list sizes = length (series_dropna col)
           ∧ (length labels = 11 ↔ 10 < length (unique (series_dropna col))))
  ∧ (∀ pick,
       TYPE ∈ columns df → COUNTRY ∈ columns df →
       Forall (λ r, cell_at COUNTRY r = NaN ∨ is_str (cell_at COUNTRY r))
         (rows df) →
       ∃ country_list selected_country,
         let selected :=
           filter (λ r, py_eq (cell_at COUNTRY r) selected_country) (rows df) in
         let col := cell_at TYPE <$> selected in
         country_pie_filtered df pick
         = Ok (country_list, selected_country, mkDF (columns df) selected)
         ∧ ((∃ r, r ∈ selected ∧ cell_at TYPE r ≠ NaN) →
            ∃ labels sizes,
              pie_chart_disaster_type_by_country df pick
              = Ok (df, [Header "🌍 Disaster Types by Country";
                         Selectbox "Select a Country" country_list
                           selected_country;
                         Pyplot (Pie labels sizes
                                   ("Disaster Types in "
                                    +:+ fmt selected_country))])
              ∧ top10_plus_others col labels sizes
              ∧ length labels ≤ 11
              ∧ length sizes = length labels
              ∧ sum_list sizes = series_sum (value_counts col)
              ∧ sum_list sizes = length (series_dropna col)
              ∧ (length labels = 11
                 ↔ 10 < length (unique (series_dropna col))))).
Proof.
  split_and!.
  - intros Hty (r & Hr & Hna). unfold pie_chart_disaster_type.
    rewrite (get_col_Ok _ _ Hty). run.
    rewrite nlargest_value_counts.
    rewrite ax_pie_Ok.
    2:{ apply top10_sizes_nonempty.
        apply (value_counts_nonempty _ (cell_at TYPE r)); [|done].
        by apply list_elem_of_fmap_2. }
    run. eexists _, _. split; [reflexivity|].
    apply pie_bucketing_facts.
  - intros pick df' out labels sizes title.
    unfold pie_chart_disaster_type_by_country.
    destruct (country_pie_filtered df pick) as [[[cl sel] dff]|e]; [|done]. run.
    destruct (decide (rows dff = [])) as [Hrows|Hrows].
    { rewrite Hrows. intros [= <- <-]. rewrite !elem_of_cons, elem_of_nil.
      intros [[=]|[[=]|[[=]|[]]]]. }
    rewrite (match_nonempty _ _ _ Hrows).
    destruct (get_col dff TYPE) as [ts|e] eqn:Hts; [|done]. run.
    apply get_col_Ok_inv in Hts as [_ ->].
    set (col := cell_at TYPE <$> rows dff).
    destruct (country_pie_slices (value_counts col)) as [Hl Hs].
    cbv zeta in Hl, Hs. rewrite Hl, Hs.
    destruct (ax_pie _ _ _) as [fig|e] eqn:Hfig; [|done]. run.
    apply ax_pie_Ok_inv in Hfig as [-> _].
    intros [= <- <-]. rewrite !elem_of_cons, elem_of_nil.
    intros [[=]|[[=]|[Heq|[]]]]. exists cl, sel, dff. split; [done|].
    injection Heq as -> -> _. apply pie_bucketing_facts.
  - intros pick Hty Hc Hstr.
    destruct (country_pie_filtered_total df pick Hc Hstr)
      as (cl & sel & dff & Hf & Hcols).
    assert (Hdff : dff = mkDF (columns df)
                           (filter (λ r, py_eq (cell_at COUNTRY r) sel) (rows df))).
    { unfold country_pie_filtered in Hf.
      apply bind_Ok in Hf as (col & _ & Hf).
      apply bind_Ok in Hf as (s1 & _ & Hf).
      apply bind_Ok in Hf as (s2 & _ & Hf). by injection Hf as _ <- <-. }
    subst dff. exists cl, sel. cbv zeta. split; [done|].
    intros (r & Hr & Hna).
    unfold pie_chart_disaster_type_by_country. rewrite Hf. run. cbn [rows].
    rewrite match_nonempty by (intros Hnil; rewrite Hnil in Hr;
                               by apply elem_of_nil in Hr).
    rewrite (get_col_Ok (mkDF _ _) TYPE Hty). run. cbn [rows].
    set (col := cell_at TYPE
                  <$> filter (λ r, py_eq (cell_at COUNTRY r) sel) (rows df)).
    destruct (country_pie_slices (value_counts col)) as [Hl Hs].
    cbv zeta in Hl, Hs. rewrite Hl, Hs.
    rewrite ax_pie_Ok.
    2:{ apply top10_sizes_nonempty.
        apply (value_counts_nonempty _ (cell_at TYPE r)); [|done].
        by apply list_elem_of_fmap_2. }
    run. eexists _, _. split; [reflexivity|]. apply pie_bucketing_facts.
Qed.

(** C3 (as amended). The mask of lines 109 to 113 keeps a row exactly when its start
    year lies in the selected range, both ends included, and its disaster
    type is the selected one; the rows kept stay in order, each as often as
    it occurs.  (The year test alone does not decide: a row of another
    type is dropped even when its year is in range.) *)
Theorem trend_filter_year_range_and_type (df : DataFrame) (s e : Z) (t : scalar) :
  let ch := mkChoice (Some (Num s)) (Some (Num e)) t in
  rows (trend_filter ch df)
  = filter (λ r, year_within s e r ∧ of_type t r) (rows df)
  ∧ ∀ r, r ∈ rows (trend_filter ch df)
         ↔ r ∈ rows df
           ∧ (∃ y, cell_at YEAR r = Num y ∧ (s ≤ y ≤ e)%Z)
           ∧ cell_at TYPE r ≠ NaN ∧ t = Some (cell_at TYPE r).
Proof.
  intros ch. subst ch. unfold trend_filter, select_rows.
  cbn [rows start_year end_year disaster_type].
  assert (Hiff : ∀ r,
    py_ge (cell_at YEAR r) (Some (Num s)) && py_le (cell_at YEAR r) (Some (Num e))
      && py_eq (cell_at TYPE r) t
    ↔ (∃ y, cell_at YEAR r = Num y ∧ (s ≤ y ≤ e)%Z)
      ∧ cell_at TYPE r ≠ NaN ∧ t = Some (cell_at TYPE r)).
  { intros r. rewrite !andb_True, py_ge_spec, py_le_spec, py_eq_spec.
    split.
    - intros [[(y & Hy & Hs) (y' & Hy' & He)] Ht].
      rewrite Hy in Hy'. injection Hy' as <-. split; [|done]. exists y. split; [done|lia].
    - intros [(y & Hy & Hs & He) Ht]. split; [|done]. split; by exists y. }
  split.
  - apply list_filter_iff. intros r. rewrite (Hiff r).
    unfold year_within, of_type. split.
    + intros [(y & -> & Hy) Ht]. done.
    + intros [Hy Ht]. split; [|done].
      destruct (cell_at YEAR r) as [| |y]; [done|done|]. by exists y.
  - intros r. rewrite list_elem_of_filter, (Hiff r). tauto.
Qed.

(** C5. Whatever the table and the picks, the list offered in "Select
    Disaster B" does not contain the value selected as disaster A, the
    value selected as B differs from it, and a comparison is only ever
    tabulated for two different disaster types. *)
Theorem comparison_never_offers_a_as_b `{NumberParser}
    (df : DataFrame) (pick_a pick_b : option nat) df' out :
  disaster_impact_comparison_table df pick_a pick_b = Ok (df', out) →
  ∀ types a, Selectbox "Select Disaster A" types a ∈ out →
    (∃ d, a = Some d ∧ d ∈ types)
    ∧ (∀ options b, Selectbox "Select Disaster B" options b ∈ out →
         (∀ d, a = Some d → d ∉ options) ∧ b ≠ a)
    ∧ (∀ a' avg_a impact b avg_b,
         Table a' avg_a impact b avg_b ∈ out → a' = a ∧ b ≠ a).
Proof.
  unfold disaster_impact_comparison_table. intros Hrun.
  apply bind_Ok in Hrun as (dts & Hdts & Hrun).
  destruct (length dts <? 2) eqn:Hlen.
  { injection Hrun as <- <-. intros types a.
    rewrite !elem_of_cons, elem_of_nil. intros [[=]|[[=]|[]]]. }
  apply Nat.ltb_ge in Hlen.
  apply bind_Ok in Hrun as (df0 & _ & Hrun).
  apply bind_Ok in Hrun as (df1 & _ & Hrun).
  destruct (selectbox_Some dts 0 pick_a) as [da Hda]; [lia|].
  rewrite Hda in Hrun.
  assert (Hin : da ∈ dts) by (by eapply selectbox_elem_of).
  assert (Hna : da ≠ NaN) by (by eapply comparison_types_notna).
  assert (Hopts : da ∉ disaster_b_options dts (Some da)).
  { intros [Hd Hne]%disaster_b_options_spec. by destruct Hne. }
  remember (disaster_b_options dts (Some da)) as options eqn:Hoptions.
  clear Hoptions.
  remember (match options with
            | [] => None
            | _ :: _ => selectbox options 0 pick_b
            end) as db eqn:Hdb.
  assert (Hb : db ≠ Some da).
  { intros Heq. rewrite Heq in Hdb. symmetry in Hdb.
    by apply selectbox_if_nonempty in Hdb. }
  clear Hdb.
  assert (Hw : ∀ rest,
    (∀ types a, Selectbox "Select Disaster A" types a ∉ rest) →
    ∀ types a,
      Selectbox "Select Disaster A" types a
      ∈ Header "⚖️ Disaster Average Impact Comparison"
        :: (Selectbox "Select Disaster A" dts (Some da)
            :: match options with
               | [] => []
               | _ :: _ => [Selectbox "Select Disaster B" options db]
               end) ++ rest →
      types = dts ∧ a = Some da).
  { intros rest Hrest types a.
    rewrite elem_of_cons, elem_of_app, elem_of_cons.
    intros [[=]|[[[= <- <-]|[[=] _]%elem_of_if_nonempty]|Hr]]; [done|].
    destruct (Hrest _ _ Hr). }
  assert (HB : ∀ rest,
    (∀ options' b, Selectbox "Select Disaster B" options' b ∉ rest) →
    ∀ options' b,
      Selectbox "Select Disaster B" options' b
      ∈ Header "⚖️ Disaster Average Impact Comparison"
        :: (Selectbox "Select Disaster A" dts (Some da)
            :: match options with
               | [] => []
               | _ :: _ => [Selectbox "Select Disaster B" options db]
               end) ++ rest →
      options' = options ∧ b = db).
  { intros rest Hrest options' b.
    rewrite elem_of_cons, elem_of_app, elem_of_cons.
    intros [[=]|[[[=]|[[= <- <-] _]%elem_of_if_nonempty]|Hr]]; [done|].
    destruct (Hrest _ _ Hr). }
  assert (HT : ∀ rest a' avg_a impact b avg_b,
      Table a' avg_a impact b avg_b
      ∈ Header "⚖️ Disaster Average Impact Comparison"
        :: (Selectbox "Select Disaster A" dts (Some da)
            :: match options with
               | [] => []
               | _ :: _ => [Selectbox "Select Disaster B" options db]
               end) ++ rest →
      Table a' avg_a impact b avg_b ∈ rest).
  { intros rest a' avg_a impact b avg_b.
    rewrite elem_of_cons, elem_of_app, elem_of_cons.
    by intros [[=]|[[[=]|[[=] _]%elem_of_if_nonempty]|Hr]]. }
  destruct (negb (truthy db));
    [|apply bind_Ok in Hrun as (avg_a0 & _ & Hrun);
      apply bind_Ok in Hrun as (avg_b0 & _ & Hrun)];
    injection Hrun as <- <-; intros types a Ha.
  - assert (types = dts ∧ a = Some da) as [-> ->].
    { eapply Hw; [|exact Ha].
      by intros t a' [=]%list_elem_of_singleton. }
    split_and!; [by exists da| |].
    + intros options' b [-> ->]%HB.
      * split; [|done]. by intros d [= <-].
      * by intros o b' [=]%list_elem_of_singleton.
    + intros a' avg_a impact b avg_b [=]%HT%list_elem_of_singleton.
  - assert (types = dts ∧ a = Some da) as [-> ->].
    { eapply Hw; [|exact Ha].
      by intros t a' [=]%list_elem_of_singleton. }
    split_and!; [by exists da| |].
    + intros options' b [-> ->]%HB.
      * split; [|done]. by intros d [= <-].
      * by intros o b' [=]%list_elem_of_singleton.
    + by intros a' avg_a impact b avg_b [= -> _ _ -> _]%HT%list_elem_of_singleton.
Qed.

(** C8. When the table has fewer than two distinct disaster types (missing
    values aside), the comparison renderer shows its warning and returns:
    no column is coerced, no select box is shown, nothing is averaged or
    tabulated. *)
Theorem comparison_guards_fewer_than_two `{NumberParser}
    (df : DataFrame) (pick_a pick_b : option nat) :
  TYPE ∈ columns df →
  length (unique (series_dropna (cell_at TYPE <$> rows df))) < 2 →
  disaster_impact_comparison_table df pick_a pick_b
  = Ok (df, [Header "⚖️ Disaster Average Impact Comparison";
             Warning "Not enough disaster types available for comparison."]).
Proof.
  intros Hty Hlen. unfold disaster_impact_comparison_table, comparison_types.
  rewrite (get_col_Ok _ _ Hty). run.
  rewrite (sorted_short _ Hlen). run.
  by rewrite (proj2 (Nat.ltb_lt _ _) Hlen).
Qed.


(** C9. The country page shows the table itself when "All Countries" is
    selected (which it is until the user picks something else), and when a
    country is selected it shows, in order, exactly the rows whose country
    cell equals the selection.  The page renders whenever the country
    column exists and holds nothing but strings and missing values. *)
Theorem country_filter_identity_or_exact (df : DataFrame) (pick : option nat) :
  (∀ df' out, country_wise_data_page df pick = Ok (df', out) →
     ∃ options selected shown,
       out = [Selectbox "Select Country:" options selected; Dataframe shown]
       ∧ (pick = None → selected = Some (Str "All Countries"))
       ∧ (selected = Some (Str "All Countries") → shown = df)
       ∧ (∀ c, selected = Some c → c ≠ Str "All Countries" →
            columns shown = columns df
            ∧ rows shown = filter (λ r, cell_at COUNTRY r = c) (rows df)))
  ∧ (COUNTRY ∈ columns df →
     Forall (λ r, cell_at COUNTRY r = NaN ∨ is_str (cell_at COUNTRY r)) (rows df) →
     ∃ out, country_wise_data_page df pick = Ok (df, out)).
Proof.
  split.
  - intros df' out. unfold country_wise_data_page.
    intros (col & Hcol & Hrun)%bind_Ok.
    apply bind_Ok in Hrun as (cl & Hcl & Hrun).
    apply bind_Ok in Hrun as (cl' & Hcl' & Hrun).
    injection Hrun as <- <-.
    eexists _, _, _. split; [reflexivity|].
    split_and!.
    + by intros ->.
    + intros ->. by rewrite bool_decide_eq_true_2.
    + intros c Hsel Hc. rewrite Hsel.
      rewrite bool_decide_eq_false_2 by (intros [= Heq]; by apply Hc).
      simpl. split; [done|].
      assert (Hnn : c ≠ NaN).
      { apply selectbox_elem_of in Hsel.
        apply elem_of_cons in Hsel as [->|Hsel]; [done|].
        rewrite (sorted_Ok_elem_of _ _ _ Hcl') in Hsel.
        apply keep_nonblank_Ok_strings in Hcl.
        rewrite Forall_forall in Hcl. specialize (Hcl _ Hsel). by destruct c. }
      apply list_filter_iff. intros r. rewrite py_eq_spec.
      split; [by intros [_ [= ->]]|]. intros ->. done.
  - intros Hc Hstr. unfold country_wise_data_page.
    rewrite (get_col_Ok _ _ Hc). run.
    assert (Hs : Forall (λ c, is_str c)
                   (unique (series_dropna (cell_at COUNTRY <$> rows df)))).
    { apply Forall_forall. intros c.
      rewrite elem_of_unique, elem_of_series_dropna, list_elem_of_fmap.
      intros [Hna (r & -> & Hr)]. rewrite Forall_forall in Hstr.
      by destruct (Hstr r Hr). }
    destruct (keep_nonblank_strings _ Hs) as [k Hk]. rewrite Hk. run.
    destruct (sorted_strings k) as [s Hsort]; [by eapply keep_nonblank_Ok_strings|].
    rewrite Hsort. run. by eexists.
Qed.

(** ** Writing columns *)

Lemma cell_at_insert_eq c v (r : row) : cell_at c (<[c := v]> r) = v.
Proof. unfold cell_at. by rewrite lookup_insert_eq. Qed.

Lemma cell_at_insert_ne c c' v (r : row) :
  c ≠ c' → cell_at c' (<[c := v]> r) = cell_at c' r.
Proof. intros Hne. unfold cell_at. by rewrite lookup_insert_ne. Qed.

Lemma cell_at_insert c c' v (r : row) :
  cell_at c' (<[c := v]> r) = if bool_decide (c' = c) then v else cell_at c' r.
Proof.
  case_bool_decide as Hc; [subst; apply cell_at_insert_eq|].
  by apply cell_at_insert_ne.
Qed.

(** Assigning a column computed row by row. *)
Lemma set_col_rows c (f : row → cell) (g : row → row) cols (rs : list row) :
  c ∈ cols →
  set_col c (f <$> rs) (mkDF cols (g <$> rs))
  = mkDF cols ((λ r, <[c := f r]> (g r)) <$> rs).
Proof.
  intros Hc. unfold set_col. simpl. rewrite bool_decide_eq_true_2 by done.
  f_equal. rewrite zip_with_fmap_l, zip_with_fmap_r. apply zip_with_diag.
Qed.

Lemma set_col_own c (f : cell → cell) df :
  c ∈ columns df →
  set_col c (f <$> (cell_at c <$> rows df)) df
  = mkDF (columns df) ((λ r, <[c := f (cell_at c r)]> r) <$> rows df).
Proof.
  intros Hc. destruct df as [cols rs]. simpl in *.
  rewrite <- list_fmap_compose.
  rewrite <- (list_fmap_id rs) at 2.
  by rewrite (set_col_rows c (f ∘ cell_at c) id cols rs Hc).
Qed.

Lemma overwritten_one c (f : cell → cell) df :
  c ∈ columns df →
  overwritten [c] (λ _, f) df (set_col c (f <$> (cell_at c <$> rows df)) df).
Proof.
  intros Hc. rewrite (set_col_own _ _ _ Hc). split; [done|].
  intros c'. simpl. rewrite <- list_fmap_compose.
  apply list_fmap_ext. intros _ r _. simpl.
  rewrite cell_at_insert.
  rewrite (bool_decide_ext (c' ∈ [c]) (c' = c)) by apply list_elem_of_singleton.
  by case_bool_decide; subst.
Qed.

Lemma cell_at_coerce_row f cs c r :
  cell_at c (coerce_row f cs r)
  = if bool_decide (c ∈ cs) then f (cell_at c r) else cell_at c r.
Proof.
  induction cs as [|c' cs IH]; simpl; [done|].
  rewrite cell_at_insert, IH.
  destruct (decide (c = c')) as [->|Hne].
  - rewrite bool_decide_eq_true_2 by done.
    by rewrite bool_decide_eq_true_2 by apply list_elem_of_here.
  - rewrite (bool_decide_eq_false_2 (c = c')) by done.
    rewrite (bool_decide_ext (c ∈ c' :: cs) (c ∈ cs)); [done|].
    rewrite elem_of_cons. tauto.
Qed.

Lemma mapM_get_col df cs :
  Forall (λ c, c ∈ columns df) cs →
  mapM (get_col df) cs = Ok ((λ c, cell_at c <$> rows df) <$> cs).
Proof.
  induction 1 as [|c cs Hc Hcs IH]; [done|].
  simpl. rewrite (get_col_Ok _ _ Hc). run.
  by rewrite IH.
Qed.

Lemma mapM_get_col_inv df cs cols :
  mapM (get_col df) cs = Ok cols →
  Forall (λ c, c ∈ columns df) cs ∧ cols = (λ c, cell_at c <$> rows df) <$> cs.
Proof.
  revert cols. induction cs as [|c cs IH]; intros cols; simpl.
  - by intros [= <-].
  - intros (col & Hcol & Hm)%bind_Ok.
    apply bind_Ok in Hm as (cols' & Hcols' & [= <-]).
    apply get_col_Ok_inv in Hcol as [Hc ->].
    destruct (IH _ Hcols') as [Hcs ->]. split; [by constructor|done].
Qed.

Lemma coerce_foldr (f : cell → cell) df cs :
  Forall (λ c, c ∈ columns df) cs →
  foldr (λ mc d, set_col mc.1 (f <$> mc.2) d) df
        (zip cs ((λ c, cell_at c <$> rows df) <$> cs))
  = mkDF (columns df) (coerce_row f cs <$> rows df).
Proof.
  rewrite zip_with_fmap_r, zip_with_diag.
  induction 1 as [|c cs Hc Hcs IH].
  - destruct df. simpl. by rewrite list_fmap_id.
  - rewrite fmap_cons. cbn [foldr fst snd]. rewrite IH.
    rewrite <- list_fmap_compose.
    by rewrite (set_col_rows c (f ∘ cell_at c) (coerce_row f cs) _ _ Hc).
Qed.

(** Line 150 and line 223 assign a numeric column: the cells are those
    [whole] gives, as long as every cell is one the embedding follows. *)
Lemma numeric_cells_Ok `{NumberParser} col :
  Forall readable col → numeric_cells (to_numeric col) = Ok (whole <$> col).
Proof.
  intros Hr. unfold numeric_cells, to_numeric.
  rewrite forallb_all.
  - by rewrite <- list_fmap_compose.
  - intros x (c & -> & Hc)%list_elem_of_fmap. rewrite Forall_forall in Hr.
    apply Is_true_true. exact (Hr c Hc).
Qed.

Lemma numeric_cells_Ok_inv `{NumberParser} col cs :
  numeric_cells (to_numeric col) = Ok cs →
  Forall readable col ∧ cs = whole <$> col.
Proof.
  unfold numeric_cells, to_numeric.
  destruct (forallb exact (read <$> col)) eqn:Hall; [|done].
  intros [= <-]. split; [|by rewrite <- list_fmap_compose].
  apply Forall_forall. intros c Hc. unfold readable.
  apply Is_true_true. rewrite forallb_forall in Hall.
  apply Hall, list_elem_of_In. by apply list_elem_of_fmap_2.
Qed.

Lemma numeric_cells_Raise `{NumberParser} col e :
  numeric_cells (to_numeric col) = Raise e →
  e = Unsupported ∧ ¬ Forall readable col.
Proof.
  intros Hrun. split.
  - unfold numeric_cells in Hrun. destruct (forallb _ _); [done|].
    by injection Hrun.
  - intros Hr. by rewrite (numeric_cells_Ok _ Hr) in Hrun.
Qed.

Lemma mapM_numeric_cells `{NumberParser} (cols : list (list cell)) :
  Forall (Forall readable) cols →
  mapM (λ col, numeric_cells (to_numeric col)) cols = Ok ((λ col : list cell, whole <$> col) <$> cols).
Proof.
  induction 1 as [|col cols Hc Hcs IH]; [done|].
  simpl. rewrite (numeric_cells_Ok _ Hc). run. by rewrite IH.
Qed.

Lemma mapM_numeric_cells_inv `{NumberParser} (cols cols' : list (list cell)) :
  mapM (λ col, numeric_cells (to_numeric col)) cols = Ok cols' →
  Forall (Forall readable) cols ∧ cols' = (λ col : list cell, whole <$> col) <$> cols.
Proof.
  revert cols'. induction cols as [|col cols IH]; intros cols'; simpl.
  - by intros [= <-].
  - intros (cs & Hcs & Hm)%bind_Ok.
    apply bind_Ok in Hm as (css & Hcss & [= <-]).
    apply numeric_cells_Ok_inv in Hcs as [Hr ->].
    destruct (IH _ Hcss) as [Hrs ->]. split; [by constructor|done].
Qed.

Lemma readable_column_fmap `{NumberParser} c df :
  Forall readable (cell_at c <$> rows df) ↔ readable_column c df.
Proof. unfold readable_column. by rewrite Forall_fmap. Qed.

Lemma readable_columns `{NumberParser} df cs :
  Forall (Forall readable) ((λ c, cell_at c <$> rows df) <$> cs)
  ↔ Forall (λ c, readable_column c df) cs.
Proof.
  rewrite Forall_fmap. apply Forall_proper; [|done]. intros c. simpl.
  unfold readable_column. by rewrite Forall_fmap.
Qed.

Lemma coerce_foldr_whole `{NumberParser} df cs :
  Forall (λ c, c ∈ columns df) cs →
  foldr (λ mc d, set_col mc.1 mc.2 d) df
        (zip cs ((λ col : list cell, whole <$> col) <$> ((λ c, cell_at c <$> rows df) <$> cs)))
  = mkDF (columns df) (coerce_row whole cs <$> rows df).
Proof.
  intros Hcs. rewrite <- (coerce_foldr whole df cs Hcs).
  rewrite <- list_fmap_compose, !zip_with_fmap_r, !zip_with_diag.
  clear Hcs. induction cs as [|c cs IH]; [done|].
  rewrite !fmap_cons. cbn [foldr fst snd]. by rewrite IH.
Qed.

Lemma coerce_metrics_Ok `{NumberParser} df df0 :
  coerce_metrics df = Ok df0 →
  Forall (λ c, c ∈ columns df) metrics
  ∧ Forall (λ c, readable_column c df) metrics
  ∧ df0 = mkDF (columns df) (coerce_row whole metrics <$> rows df).
Proof.
  unfold coerce_metrics. intros (cols & Hcols & Hrun)%bind_Ok.
  apply mapM_get_col_inv in Hcols as [Hm ->].
  apply bind_Ok in Hrun as (cols' & Hcols' & [= <-]).
  apply mapM_numeric_cells_inv in Hcols' as [Hr ->].
  split_and!; [done|by apply readable_columns|].
  exact (coerce_foldr_whole df metrics Hm).
Qed.

Lemma coerce_metrics_total `{NumberParser} df :
  Forall (λ c, c ∈ columns df) metrics →
  Forall (λ c, readable_column c df) metrics →
  coerce_metrics df = Ok (mkDF (columns df) (coerce_row whole metrics <$> rows df)).
Proof.
  intros Hm Hr. unfold coerce_metrics.
  rewrite (mapM_get_col _ _ Hm). run.
  rewrite mapM_numeric_cells by (by apply readable_columns). run.
  by rewrite (coerce_foldr_whole df metrics Hm).
Qed.

Lemma overwritten_coerce_row f cs df :
  overwritten cs (λ _, f) df (mkDF (columns df) (coerce_row f cs <$> rows df)).
Proof.
  split; [done|]. intros c. simpl. rewrite <- list_fmap_compose.
  apply list_fmap_ext. intros _ r _. simpl. apply cell_at_coerce_row.
Qed.

(** The select box of the bar chart always holds one of the eight labels,
    and the dict has a column for it. *)
Lemma bar_metric_Ok pick :
  ∃ label m, bar_metric pick = (Some (Str label), Ok m)
             ∧ (label, m) ∈ impact_metrics ∧ m ∈ metrics ∧ m ≠ TYPE.
Proof.
  assert (Hi : ∀ i, i < 8 →
    ∃ label m, (Str <$> impact_metrics.*1) !! i = Some (Str label)
               ∧ dict_get impact_metrics (Some (Str label)) = Ok m
               ∧ (label, m) ∈ impact_metrics ∧ m ∈ metrics ∧ m ≠ TYPE).
  { intros i Hlt.
    do 8 (destruct i as [|i];
          [eexists _, _; split_and!;
           [reflexivity|reflexivity|set_solver|set_solver|done]|]).
    lia. }
  unfold bar_metric, selectbox.
  destruct pick as [i|]; [case_bool_decide as Hlt|].
  - destruct (Hi i Hlt) as (label & m & -> & -> & ?). by exists label, m.
  - destruct (Hi 0 ltac:(lia)) as (label & m & -> & -> & ?). by exists label, m.
  - destruct (Hi 0 ltac:(lia)) as (label & m & -> & -> & ?). by exists label, m.
Qed.

Lemma bar_filtered_Ok `{NumberParser} m df dfc dff :
  bar_filtered m df = Ok (dfc, dff) →
  m ∈ columns df
  ∧ readable_column m df
  ∧ dfc = mkDF (columns df) ((λ r, <[m := whole (cell_at m r)]> r) <$> rows df)
  ∧ dff = select_rows (λ r, notna (cell_at m r)) dfc.
Proof.
  unfold bar_filtered. intros (col & Hcol & Hrun)%bind_Ok.
  apply get_col_Ok_inv in Hcol as [Hm ->].
  apply bind_Ok in Hrun as (col & Hcol & Hrun).
  apply numeric_cells_Ok_inv in Hcol as [Hr ->].
  rewrite (set_col_own _ _ _ Hm) in Hrun.
  apply bind_Ok in Hrun as (dff' & Hdrop & [= <- <-]).
  split_and!; [done|by apply readable_column_fmap|done|].
  unfold dropna in Hdrop. apply bind_Ok in Hdrop as (? & _ & [= <-]).
  unfold select_rows. f_equal. apply list_filter_iff. intros r. simpl.
  by rewrite andb_true_r.
Qed.

Lemma astype_Int64_Ok_inv `{NumberParser} col cs :
  astype_Int64 (to_numeric col) = Ok cs →
  Forall readable col ∧ cs = whole <$> col.
Proof.
  unfold astype_Int64. destruct (existsb _ _); [done|].
  apply numeric_cells_Ok_inv.
Qed.

Lemma astype_Int64_Ok `{NumberParser} col :
  Forall readable col → astype_Int64 (to_numeric col) = Ok (whole <$> col).
Proof.
  intros Hr. unfold astype_Int64. rewrite existsb_none.
  - by apply numeric_cells_Ok.
  - intros x (c & -> & Hc)%list_elem_of_fmap. rewrite Forall_forall in Hr.
    specialize (Hr c Hc). unfold readable in Hr. by destruct (read c).
Qed.

Lemma trend_clean_frame `{NumberParser} df df0 dfl :
  trend_clean df = Ok (df0, dfl) →
  YEAR ∈ columns df
  ∧ readable_column YEAR df
  ∧ df0 = set_col YEAR (whole <$> (cell_at YEAR <$> rows df)) df.
Proof.
  unfold trend_clean. intros (ys & Hys & Hrun)%bind_Ok.
  apply get_col_Ok_inv in Hys as [Hy ->].
  apply bind_Ok in Hrun as (ys & Hys & Hrun).
  apply astype_Int64_Ok_inv in Hys as [Hr ->].
  split_and!; [done|by apply readable_column_fmap|].
  apply bind_Ok in Hrun as (d1 & _ & Hrun).
  apply bind_Ok in Hrun as (ys1 & _ & Hrun).
  apply bind_Ok in Hrun as (ys2 & _ & Hrun).
  apply bind_Ok in Hrun as (d2 & _ & Hrun).
  by injection Hrun as <- _.
Qed.

(** C2 (as amended). Four renderers return the frame exactly as they got
    it: the table view, both pie charts and the country page.  The other
    four assign to columns of the frame they were handed.  What they leave
    behind has the same labels and the same rows, with every cell as it
    was, except in the columns they coerce.  The trend chart leaves in the
    start year what [pd.to_numeric] read there; the bar chart does so in
    the column of the metric selected in its box, and in no other; the
    comparison table returns the frame untouched when it stops at its
    guard (fewer than two disaster types) and otherwise leaves all eight
    metric columns coerced; the world map leaves in the ISO code and the
    disaster type the result of [astype(str)]. *)
Theorem renderers_write_only_coerced_columns `{NumberParser} `{NumberText}
    (df : DataFrame) :
  (∀ df' out, show_df_table df = Ok (df', out) → df' = df)
  ∧ (∀ df' out, pie_chart_disaster_type df = Ok (df', out) → df' = df)
  ∧ (∀ pick df' out,
       country_wise_data_page df pick = Ok (df', out) → df' = df)
  ∧ (∀ pick df' out,
       pie_chart_disaster_type_by_country df pick = Ok (df', out) → df' = df)
  ∧ (∀ ps pe pt df' out,
       line_graph_disaster_trend df ps pe pt = Ok (df', out) →
       overwritten [YEAR] (λ _, whole) df df')
  ∧ (∀ pick df' out,
       bar_chart_disaster_vs_impact df pick = Ok (df', out) →
       ∃ label m,
         bar_metric pick = (Some (Str label), Ok m)
         ∧ (label, m) ∈ impact_metrics
         ∧ Selectbox "Select Impact Metric" (Str <$> impact_metrics.*1)
             (Some (Str label)) ∈ out
         ∧ overwritten [m] (λ _, whole) df df')
  ∧ (∀ pa pb df' out,
       disaster_impact_comparison_table df pa pb = Ok (df', out) →
       ∃ types,
         comparison_types df = Ok types
         ∧ (length types < 2 → df' = df)
         ∧ (2 ≤ length types → overwritten metrics (λ _, whole) df df'))
  ∧ (∀ pick df' out,
       world_map_of_disasters df pick = Ok (df', out) →
       overwritten [ISO; TYPE] astype_str df df').
Proof.
  split_and!.
  - by intros df' out [= <- _].
  - intros df' out. unfold pie_chart_disaster_type.
    intros (col & _ & Hrun)%bind_Ok.
    apply bind_Ok in Hrun as (fig & _ & Hrun). by injection Hrun as <- _.
  - intros pick df' out. unfold country_wise_data_page.
    intros (col & _ & Hrun)%bind_Ok.
    apply bind_Ok in Hrun as (cl & _ & Hrun).
    apply bind_Ok in Hrun as (cl' & _ & Hrun).
    by injection Hrun as <- _.
  - intros pick df' out. unfold pie_chart_disaster_type_by_country.
    intros ([[cl sel] dff] & _ & Hrun)%bind_Ok.
    destruct (rows dff); [by injection Hrun as <- _|].
    apply bind_Ok in Hrun as (ts & _ & Hrun).
    apply bind_Ok in Hrun as (fig & _ & Hrun).
    by injection Hrun as <- _.
  - intros ps pe pt df' out. unfold line_graph_disaster_trend.
    intros ([df0 dfl] & Hclean & Hrun)%bind_Ok.
    apply bind_Ok in Hrun as ([w ch] & _ & Hrun).
    apply bind_Ok in Hrun as (tr & _ & Hrun).
    apply trend_clean_frame in Hclean as (Hy & _ & ->).
    assert (df' = set_col YEAR (whole <$> (cell_at YEAR <$> rows df)) df) as ->.
    { destruct tr; [by injection Hrun as <- _|].
      destruct (match disaster_type ch with Some (Num _) => true | _ => false end);
        [done|]. by injection Hrun as <- _. }
    by apply overwritten_one.
  - intros pick df' out. unfold bar_chart_disaster_vs_impact.
    destruct (bar_metric_Ok pick) as (label & m & Hbar & Hin & _).
    rewrite Hbar. run.
    intros ([dfc dff] & Hf & Hrun)%bind_Ok.
    apply bind_Ok in Hrun as (g & _ & Hrun).
    injection Hrun as <- <-.
    apply bar_filtered_Ok in Hf as (Hm & _ & -> & _).
    exists label, m. split_and!; [done|done|by apply list_elem_of_further, list_elem_of_here|].
    rewrite <- (set_col_own _ _ _ Hm). by apply overwritten_one.
  - intros pa pb df' out. unfold disaster_impact_comparison_table.
    intros (dts & Hdts & Hrun)%bind_Ok. exists dts. split; [done|].
    destruct (length dts <? 2) eqn:Hlen.
    { apply Nat.ltb_lt in Hlen. split; [|lia]. by injection Hrun as <- _. }
    apply Nat.ltb_ge in Hlen. split; [lia|]. intros _.
    apply bind_Ok in Hrun as (df0 & Hco & Hrun).
    apply bind_Ok in Hrun as (df1 & _ & Hrun).
    apply coerce_metrics_Ok in Hco as (_ & _ & ->).
    destruct (negb _).
    + injection Hrun as <- _. apply overwritten_coerce_row.
    + apply bind_Ok in Hrun as (avg_a & _ & Hrun).
      apply bind_Ok in Hrun as (avg_b & _ & Hrun).
      injection Hrun as <- _. apply overwritten_coerce_row.
  - intros pick df' out. unfold world_map_of_disasters.
    intros (iso & Hiso & Hrun)%bind_Ok.
    apply get_col_Ok_inv in Hiso as [Hi ->].
    rewrite (set_col_own _ _ _ Hi) in Hrun.
    apply bind_Ok in Hrun as (ts & Hts & Hrun).
    apply get_col_Ok_inv in Hts as [Ht ->].
    rewrite (set_col_own _ _ _ Ht) in Hrun.
    apply bind_Ok in Hrun as (ts & _ & Hrun).
    apply bind_Ok in Hrun as (types & _ & Hrun).
    apply bind_Ok in Hrun as (dm & _ & Hrun).
    injection Hrun as <- _. split; [done|].
    intros c. cbn [rows]. rewrite <- !list_fmap_compose.
    apply list_fmap_ext. intros _ r _. cbn [compose].
    rewrite !cell_at_insert.
    rewrite (bool_decide_ext (c ∈ [ISO; TYPE]) (c = ISO ∨ c = TYPE))
      by (rewrite !elem_of_cons, elem_of_nil; tauto).
    destruct (decide (c = TYPE)) as [->|H1].
    + rewrite (bool_decide_eq_true_2 (TYPE = TYPE)) by done.
      rewrite (bool_decide_eq_true_2 (TYPE = ISO ∨ TYPE = TYPE)) by (by right).
      by rewrite (bool_decide_eq_false_2 (TYPE = ISO)).
    + rewrite (bool_decide_eq_false_2 (c = TYPE)) by done.
      destruct (decide (c = ISO)) as [->|H2].
      * rewrite (bool_decide_eq_true_2 (ISO = ISO)) by done.
        by rewrite (bool_decide_eq_true_2 (ISO = ISO ∨ ISO = TYPE)) by (by left).
      * rewrite (bool_decide_eq_false_2 (c = ISO)) by done.
        by rewrite (bool_decide_eq_false_2 (c = ISO ∨ c = TYPE)) by tauto.
Qed.

(** ** Aggregation *)

Lemma whole_cases `{NumberParser} c :
  whole c = NaN ∨ ∃ z, whole c = Num z.
Proof.
  unfold whole. destruct (read c) as [|z|]; simpl;
    [by left|right; by exists z|by left].
Qed.

(** ** Running a list of steps *)


Lemma mapM_Ok_inv {A B} (f : A → result B) (l : list A) (l' : list B) :
  mapM f l = Ok l' → Forall2 (λ x y, f x = Ok y) l l'.
Proof.
  revert l'. induction l as [|x l IH]; intros l'; simpl.
  - intros [= <-]. constructor.
  - intros (y & Hy & Hm)%bind_Ok.
    apply bind_Ok in Hm as (k & Hk & [= <-]). constructor; [done|by apply IH].
Qed.

Lemma Forall2_fmap_eq {A B} (f : A → result B) (g : A → B) (l : list A) l' :
  (∀ x y, x ∈ l → f x = Ok y → y = g x) →
  Forall2 (λ x y, f x = Ok y) l l' → l' = g <$> l.
Proof.
  intros Hg. induction 1 as [|x y l l' Hxy Hl IH]; [done|].
  rewrite fmap_cons. f_equal.
  - by apply Hg; [apply list_elem_of_here|].
  - apply IH. intros ? ? ?. by apply Hg, list_elem_of_further.
Qed.

(** ** Sums that stay exact *)

Lemma sum_Z_abs_nonneg (l : list Z) : (0 ≤ sum_Z (Z.abs <$> l))%Z.
Proof.
  induction l as [|x l IH]; [done|].
  rewrite fmap_cons. unfold sum_Z in *. cbn [foldr]. lia.
Qed.



Lemma column_sum_Ok_inv l t : column_sum l = Ok t → bounded l ∧ t = sum_Z l.
Proof.
  unfold column_sum. destruct (bounded l); [|done]. by intros [= <-].
Qed.

Lemma elem_of_group_keys g l : g ∈ group_keys l ↔ g ≠ NaN ∧ g ∈ l.
Proof.
  unfold group_keys.
  rewrite elem_of_app, !elem_of_stable_sort, !list_elem_of_filter.
  rewrite elem_of_unique, elem_of_series_dropna.
  destruct g; simpl; tauto.
Qed.

Lemma NoDup_group_keys l : NoDup (group_keys l).
Proof.
  unfold group_keys. apply NoDup_app. split_and!.
  - rewrite stable_sort_perm. apply NoDup_filter, NoDup_unique.
  - intros g. rewrite !elem_of_stable_sort, !list_elem_of_filter.
    intros [Hn _] [Hs _]. by destruct g.
  - rewrite stable_sort_perm. apply NoDup_filter, NoDup_unique.
Qed.

(** The rows of one disaster type that enter the bar chart's sum. *)
Lemma bar_group_values `{NumberParser} m g (rs : list row) :
  m ≠ TYPE →
  (λ r, num_val (cell_at m r))
    <$> filter (λ r, cell_at TYPE r = g)
          (filter (λ r : row, notna (cell_at m r))
             ((λ r, <[m := whole (cell_at m r)]> r) <$> rs))
  = coerced_value m <$> filter (λ r, cell_at TYPE r = g ∧ coerces m r) rs.
Proof.
  intros Hm.
  induction rs as [|r rs IH]; [done|].
  rewrite fmap_cons, !filter_cons.
  rewrite cell_at_insert_eq.
  destruct (whole_cases (cell_at m r)) as [Hv|[z Hv]].
  - rewrite (decide_False (P := Is_true (notna (whole (cell_at m r)))))
      by (rewrite Hv; by intros []).
    rewrite decide_False by (by intros [_ Hc]).
    exact IH.
  - rewrite (decide_True (P := Is_true (notna (whole (cell_at m r)))))
      by (by rewrite Hv).
    rewrite filter_cons, cell_at_insert_ne by done.
    destruct (decide (cell_at TYPE r = g)) as [Hg|Hg].
    + rewrite decide_True by (split; [done|]; unfold coerces; by rewrite Hv).
      rewrite !fmap_cons.
      rewrite cell_at_insert_eq. unfold coerced_value at 1.
      f_equal. exact IH.
    + rewrite decide_False by (by intros [? _]). exact IH.
Qed.

Lemma bar_group_keys `{NumberParser} m g (rs : list row) :
  m ≠ TYPE →
  g ∈ cell_at TYPE
        <$> filter (λ r : row, notna (cell_at m r))
              ((λ r, <[m := whole (cell_at m r)]> r) <$> rs)
  ↔ ∃ r, r ∈ rs ∧ cell_at TYPE r = g ∧ coerces m r.
Proof.
  intros Hm. rewrite list_elem_of_fmap. split.
  - intros (r' & -> & Hr'). apply list_elem_of_filter in Hr' as [Hn Hr'].
    apply list_elem_of_fmap in Hr' as (r & -> & Hr).
    rewrite cell_at_insert_eq in Hn. rewrite cell_at_insert_ne by done.
    exists r. split_and!; [done|done|].
    unfold coerces. by destruct (whole (cell_at m r)).
  - intros (r & Hr & <- & Hc).
    exists (<[m := whole (cell_at m r)]> r).
    rewrite cell_at_insert_ne by done. split; [done|].
    apply list_elem_of_filter. split.
    + rewrite cell_at_insert_eq. unfold coerces in Hc.
      by destruct (whole (cell_at m r)).
    + apply list_elem_of_fmap. by exists r.
Qed.

Lemma value_lt_asym (a b : cell * Z) :
  (a.2 <? b.2)%Z = true → (b.2 <? a.2)%Z = false.
Proof. rewrite Z.ltb_lt, Z.ltb_ge. lia. Qed.

(** Everything the bar chart does, step by step. *)
Lemma bar_chart_run `{NumberParser} df pick df' out :
  bar_chart_disaster_vs_impact df pick = Ok (df', out) →
  ∃ label m dff grouped,
    bar_metric pick = (Some (Str label), Ok m)
    ∧ (label, m) ∈ impact_metrics ∧ m ≠ TYPE
    ∧ bar_filtered m df = Ok (df', dff)
    ∧ groupby_sum TYPE m dff = Ok grouped
    ∧ out = [Header "☠️ Impact of Different Disaster";
             Selectbox "Select Impact Metric" (Str <$> impact_metrics.*1)
               (Some (Str label));
             let df_grouped := stable_sort (λ a b, (a.2 <? b.2)%Z) grouped in
             Pyplot (BarH df_grouped.*1 df_grouped.*2
                       ("Total " +:+ label +:+ " by Disaster Type"))].
Proof.
  unfold bar_chart_disaster_vs_impact.
  destruct (bar_metric_Ok pick) as (label & m & Hbar & Hin & _ & Hne).
  rewrite Hbar. run.
  intros ([dfc dff] & Hf & Hrun)%bind_Ok.
  apply bind_Ok in Hrun as (grouped & Hg & Hrun).
  injection Hrun as <- <-.
  by exists label, m, dff, grouped.
Qed.


Lemma groupby_sum_Ok_inv k v df grouped :
  groupby_sum k v df = Ok grouped →
  k ∈ columns df ∧ v ∈ columns df
  ∧ grouped
    = (λ g, (g, sum_Z ((λ r, num_val (cell_at v r))
                         <$> filter (λ r, cell_at k r = g) (rows df))))
      <$> group_keys (cell_at k <$> rows df).
Proof.
  unfold groupby_sum. intros (keys & Hkeys & Hrun)%bind_Ok.
  apply get_col_Ok_inv in Hkeys as [Hk ->].
  apply bind_Ok in Hrun as (vals & Hvals & Hrun).
  apply get_col_Ok_inv in Hvals as [Hv _].
  split_and!; [done|done|].
  apply mapM_Ok_inv in Hrun. eapply Forall2_fmap_eq; [|exact Hrun].
  intros g y _ (t & Ht & [= <-])%bind_Ok.
  by apply column_sum_Ok_inv in Ht as [_ ->].
Qed.

Lemma groupby_sum_bar `{NumberParser} m df dfc dff grouped :
  m ≠ TYPE →
  bar_filtered m df = Ok (dfc, dff) →
  groupby_sum TYPE m dff = Ok grouped →
  NoDup grouped.*1
  ∧ (∀ g, g ∈ grouped.*1
          ↔ g ≠ NaN ∧ ∃ r, r ∈ rows df ∧ cell_at TYPE r = g ∧ coerces m r)
  ∧ (∀ g w, (g, w) ∈ grouped →
       w = sum_over m (filter (λ r, cell_at TYPE r = g ∧ coerces m r) (rows df))).
Proof.
  intros Hne (Hm & _ & -> & ->)%bar_filtered_Ok.
  intros (_ & _ & ->)%groupby_sum_Ok_inv.
  cbn [select_rows rows].
  rewrite <- list_fmap_compose.
  split_and!.
  - rewrite (list_fmap_ext _ id (group_keys _)) by done.
    rewrite list_fmap_id. apply NoDup_group_keys.
  - intros g. rewrite (list_fmap_ext _ id (group_keys _)) by done.
    rewrite list_fmap_id, elem_of_group_keys.
    by rewrite (bar_group_keys m g (rows df) Hne).
  - intros g w (k & [= -> ->] & _)%list_elem_of_fmap.
    unfold sum_over. f_equal. by apply bar_group_values.
Qed.

Lemma TYPE_not_metric : TYPE ∉ metrics.
Proof.
  unfold metrics. rewrite !not_elem_of_cons. split_and!; try done.
  apply not_elem_of_nil.
Qed.






Lemma dropna_Ok cs h df :
  Forall (λ c, c ∈ columns df) cs → ∃ df', dropna cs h df = Ok df'.
Proof.
  intros Hcs. unfold dropna. rewrite (mapM_get_col _ _ Hcs). run. by eexists.
Qed.

Lemma bar_filtered_total `{NumberParser} m df :
  m ∈ columns df → readable_column m df →
  ∃ dff,
    bar_filtered m df
    = Ok (mkDF (columns df) ((λ r, <[m := whole (cell_at m r)]> r) <$> rows df),
          dff)
    ∧ columns dff = columns df.
Proof.
  intros Hm Hr. unfold bar_filtered. rewrite (get_col_Ok _ _ Hm). run.
  rewrite numeric_cells_Ok by (by apply readable_column_fmap). run.
  rewrite (set_col_own _ _ _ Hm).
  destruct (dropna_Ok [m] how_any
              (mkDF (columns df)
                 ((λ r, <[m := whole (cell_at m r)]> r) <$> rows df)))
    as [dff Hdff]; [by repeat constructor|].
  rewrite Hdff. run. eexists. split; [done|].
  unfold dropna in Hdff. by apply bind_Ok in Hdff as (? & _ & [= <-]).
Qed.



(** C10. The bars of the impact chart, one per disaster type with its
    total of the selected metric, are handed to [barh] in ascending order
    of that total.  (A run that returns has added up whole numbers below
    [2 ^ 53], which pandas adds exactly: see [column_sum].) *)
Theorem bar_chart_ascending_totals `{NumberParser}
    (df : DataFrame) (pick : option nat) df' out ys widths title :
  bar_chart_disaster_vs_impact df pick = Ok (df', out) →
  Pyplot (BarH ys widths title) ∈ out →
  StronglySorted Z.le widths
  ∧ ∃ label m groups,
      (label, m) ∈ impact_metrics
      ∧ ys = groups.*1 ∧ widths = groups.*2 ∧ NoDup ys
      ∧ ∀ g w, (g, w) ∈ groups →
          w = sum_over m
                (filter (λ r, cell_at TYPE r = g ∧ coerces m r) (rows df)).
Proof.
  intros Hrun Hbar.
  apply bar_chart_run in Hrun
    as (label & m & dff & grouped & _ & Hin & Hne & Hf & Hg & ->).
  destruct (groupby_sum_bar _ _ _ _ _ Hne Hf Hg) as (Hnd & _ & Hsum).
  cbv zeta in Hbar. rewrite !elem_of_cons, elem_of_nil in Hbar.
  destruct Hbar as [[=]|[[=]|[Hbar|[]]]]. injection Hbar as -> -> _.
  split.
  - apply Sorted_StronglySorted; [apply _|].
    apply (Sorted_fmap snd (before (λ a b : cell * Z, (a.2 <? b.2)%Z)) Z.le).
    + intros a b. unfold before. rewrite Z.ltb_ge. done.
    + apply stable_sort_Sorted, value_lt_asym.
  - exists label, m, (stable_sort (λ a b : cell * Z, (a.2 <? b.2)%Z) grouped).
    split_and!; [done|done|done| |].
    + by rewrite (stable_sort_perm _ grouped).
    + intros g w Hgw. apply Hsum. by apply elem_of_stable_sort in Hgw.
Qed.

(** ** Empty selections *)

Lemma groupby_size_empty c df :
  c ∈ columns df → rows df = [] → groupby_size c df = Ok [].
Proof.
  intros Hc Hr. unfold groupby_size. rewrite (get_col_Ok _ _ Hc), Hr. done.
Qed.

Lemma trend_widgets_columns df ps pe pt w ch :
  trend_widgets df ps pe pt = Ok (w, ch) → YEAR ∈ columns df ∧ TYPE ∈ columns df.
Proof.
  unfold trend_widgets. intros (ys & Hys & Hrun)%bind_Ok.
  apply bind_Ok in Hrun as (s1 & _ & Hrun).
  apply bind_Ok in Hrun as (s2 & _ & Hrun).
  apply bind_Ok in Hrun as (ts & Hts & _).
  apply get_col_Ok_inv in Hys as [? _]. apply get_col_Ok_inv in Hts as [? _].
  done.
Qed.

(** C7 (as amended). When the rows selected for the trend chart are none,
    the renderer writes "No Records found." in place of the chart and
    returns; when the selected country has no rows, the country pie
    renderer shows "No disaster data available for ..." and returns.  (The
    other renderers have no such message.) *)
Theorem empty_selection_warns `{NumberParser} (df : DataFrame) :
  (∀ ps pe pt df0 df_clean widgets ch,
     trend_clean df = Ok (df0, df_clean) →
     trend_widgets df_clean ps pe pt = Ok (widgets, ch) →
     rows (trend_filter ch df_clean) = [] →
     line_graph_disaster_trend df ps pe pt
     = Ok (df0, Header "📈 Disaster Trend Line Graph" :: widgets
                ++ [Write "⚠️ No Records found."]))
  ∧ (∀ pick country_list selected_country df_filtered,
       country_pie_filtered df pick
       = Ok (country_list, selected_country, df_filtered) →
       rows df_filtered = [] →
       pie_chart_disaster_type_by_country df pick
       = Ok (df, [Header "🌍 Disaster Types by Country";
                  Selectbox "Select a Country" country_list selected_country;
                  Warning ("No disaster data available for "
                           +:+ fmt selected_country +:+ ".")])).
Proof.
  split.
  - intros ps pe pt df0 dfc w ch Hclean Hw Hempty.
    unfold line_graph_disaster_trend. rewrite Hclean. run. rewrite Hw. run.
    apply trend_widgets_columns in Hw as [Hy _].
    by rewrite (groupby_size_empty YEAR (trend_filter ch dfc) Hy Hempty).
  - intros pick cl sel dff Hf Hempty.
    unfold pie_chart_disaster_type_by_country. rewrite Hf. run.
    by rewrite Hempty.
Qed.

(** ** Cleaning the start year (lines 88 to 92) row by row *)

Lemma mapM_astype_int (l : list cell) :
  Forall (λ c, is_num c) l → mapM astype_int l = Ok l.
Proof.
  induction 1 as [|c l Hc Hl IH]; [done|].
  destruct c as [| |z]; [done|done|].
  cbn [mapM]. cbn [astype_int]. run. rewrite IH. done.
Qed.

Lemma insert_cell_at_id c (r : row) :
  is_Some (r !! c) → <[c := cell_at c r]> r = r.
Proof.
  intros [v Hv]. apply insert_id. unfold cell_at. by rewrite Hv.
Qed.

(** The frame the select boxes and the filter work on: the rows whose
    year is a number, with that number in the year cell, by ascending
    year. *)
Lemma trend_clean_Ok `{NumberParser} df :
  YEAR ∈ columns df → readable_column YEAR df →
  trend_clean df
  = Ok (mkDF (columns df) (coerce_year <$> rows df),
        mkDF (columns df)
          (stable_sort year_lt
             (filter (λ r, notna (cell_at YEAR r)) (coerce_year <$> rows df)))).
Proof.
  intros Hy Hread. unfold trend_clean.
  rewrite (get_col_Ok _ _ Hy). run.
  rewrite astype_Int64_Ok by (by apply readable_column_fmap). run.
  rewrite (set_col_own _ _ _ Hy).
  fold (coerce_year).
  set (df0 := mkDF (columns df) (coerce_year <$> rows df)).
  unfold dropna. cbn [mapM]. rewrite (get_col_Ok df0 YEAR Hy). run.
  set (kept := filter (λ r : row, notna (cell_at YEAR r)) (coerce_year <$> rows df)).
  assert (Hsel : select_rows (λ r, forallb (λ c, notna (cell_at c r)) [YEAR]) df0
                 = mkDF (columns df) kept).
  { unfold select_rows. cbn [columns rows df0]. f_equal.
    apply list_filter_iff. intros r. cbn [forallb]. by rewrite andb_true_r. }
  rewrite Hsel.
  assert (Hnum : Forall (λ c, is_num c) (cell_at YEAR <$> kept)).
  { apply Forall_fmap, Forall_forall. intros r [Hn Hr]%list_elem_of_filter.
    apply list_elem_of_fmap in Hr as (r0 & -> & _).
    unfold coerce_year in Hn |- *. unfold compose.
    rewrite cell_at_insert_eq in Hn.
    rewrite cell_at_insert_eq.
    by destruct (whole_cases (cell_at YEAR r0)) as [Hv|[z Hv]];
      rewrite Hv in Hn |- *. }
  rewrite (get_col_Ok (mkDF (columns df) kept) YEAR Hy). run. cbn [rows].
  rewrite (mapM_astype_int _ Hnum). run.
  assert (Hsame : set_col YEAR (cell_at YEAR <$> kept) (mkDF (columns df) kept)
                  = mkDF (columns df) kept).
  { rewrite <- (list_fmap_id kept) at 2.
    rewrite (set_col_rows YEAR (cell_at YEAR) id _ _ Hy). f_equal.
    rewrite <- (list_fmap_id kept) at 2. apply list_fmap_ext.
    intros _ r Hr%list_elem_of_lookup_2. cbn [id].
    apply insert_cell_at_id.
    apply list_elem_of_filter in Hr as [_ Hr].
    apply list_elem_of_fmap in Hr as (r0 & -> & _).
    unfold coerce_year. rewrite lookup_insert_eq. by eexists. }
  rewrite Hsame. unfold sort_values.
  rewrite (get_col_Ok (mkDF (columns df) kept) YEAR Hy). run. cbn [rows columns].
  destruct (sorted_numbers (series_dropna (cell_at YEAR <$> kept))) as [s ->].
  { apply Forall_forall. intros c [_ Hc]%elem_of_series_dropna.
    rewrite Forall_forall in Hnum. by apply Hnum. }
  run. do 3 f_equal.
  assert (Hnn : ∀ r, r ∈ kept → notna (cell_at YEAR r)).
  { intros r Hr. by apply list_elem_of_filter in Hr as [? _]. }
  rewrite (filter_all _ kept Hnn).
  rewrite (filter_none _ kept); [by rewrite app_nil_r|].
  intros r Hr. specialize (Hnn r Hr).
  unfold notna in Hnn. destruct (isna (cell_at YEAR r)); simpl in *; [done|].
  by intros [].
Qed.

Lemma cell_at_coerce_year_YEAR `{NumberParser} r :
  cell_at YEAR (coerce_year r) = whole (cell_at YEAR r).
Proof. apply cell_at_insert_eq. Qed.

Lemma cell_at_coerce_year_TYPE `{NumberParser} r :
  cell_at TYPE (coerce_year r) = cell_at TYPE r.
Proof. by apply cell_at_insert_ne. Qed.

(** C4. Three records of disaster type "Flood" with start years 2000,
    2000 and 2001, whatever else they hold: the select boxes stand at the
    full range 2000 to 2001 and at "Flood", and the trend chart plots the
    counts 2 for 2000 and 1 for 2001. *)
Theorem flood_trend_example `{NumberParser} (cols : list string) (r1 r2 r3 : row) :
  YEAR ∈ cols → TYPE ∈ cols →
  cell_at TYPE r1 = Str "Flood" → cell_at YEAR r1 = Num 2000 →
  cell_at TYPE r2 = Str "Flood" → cell_at YEAR r2 = Num 2000 →
  cell_at TYPE r3 = Str "Flood" → cell_at YEAR r3 = Num 2001 →
  ∃ df',
    line_graph_disaster_trend (mkDF cols [r1; r2; r3]) None None None
    = Ok (df',
          [Header "📈 Disaster Trend Line Graph";
           Selectbox "Select Start Year" [Num 2000; Num 2001] (Some (Num 2000));
           Selectbox "Select End Year" [Num 2000; Num 2001] (Some (Num 2001));
           Selectbox "Select Disaster Type" [Str "Flood"] (Some (Str "Flood"));
           Pyplot (Line [Num 2000; Num 2001] [2; 1]
                     "Trend of Flood from 2000 to 2001")]).
Proof.
  intros Hy Ht Ht1 Hy1 Ht2 Hy2 Ht3 Hy3.
  unfold line_graph_disaster_trend.
  rewrite (trend_clean_Ok (mkDF cols [r1; r2; r3]) Hy).
  2:{ unfold readable_column. cbn [rows].
      repeat constructor; by rewrite ?Hy1, ?Hy2, ?Hy3. }
  run.
  cbn [rows columns fmap list_fmap].
  rewrite <- (cell_at_coerce_year_TYPE r1) in Ht1.
  rewrite <- (cell_at_coerce_year_TYPE r2) in Ht2.
  rewrite <- (cell_at_coerce_year_TYPE r3) in Ht3.
  assert (Hs1 : cell_at YEAR (coerce_year r1) = Num 2000)
    by (by rewrite cell_at_coerce_year_YEAR, Hy1).
  assert (Hs2 : cell_at YEAR (coerce_year r2) = Num 2000)
    by (by rewrite cell_at_coerce_year_YEAR, Hy2).
  assert (Hs3 : cell_at YEAR (coerce_year r3) = Num 2001)
    by (by rewrite cell_at_coerce_year_YEAR, Hy3).
  clear Hy1 Hy2 Hy3.
  set (s1 := coerce_year r1) in *. set (s2 := coerce_year r2) in *.
  set (s3 := coerce_year r3) in *. clearbody s1 s2 s3.
  rewrite (filter_all (λ r : row, notna (cell_at YEAR r)) [s1; s2; s3]).
  2:{ intros r. rewrite !elem_of_cons, elem_of_nil.
      intros [->|[->|[->|[]]]]; cbn beta;
        by rewrite ?Hs1, ?Hs2, ?Hs3, ?Ht1, ?Ht2, ?Ht3. }
  rewrite (stable_sort_id year_lt [s1; s2; s3]).
  2:{ repeat constructor; unfold before, year_lt;
        by rewrite ?Hs1, ?Hs2, ?Hs3, ?Ht1, ?Ht2, ?Ht3. }
  unfold trend_widgets.
  rewrite (get_col_Ok (mkDF cols [s1; s2; s3]) YEAR Hy). run.
  rewrite (get_col_Ok (mkDF cols [s1; s2; s3]) TYPE Ht).
  cbn [rows fmap list_fmap]. rewrite Hs1, Hs2, Hs3, Ht1, Ht2, Ht3.
  change (sorted (unique [Num 2000; Num 2000; Num 2001]))
    with (Ok [Num 2000; Num 2001]). run.
  change (sorted (unique [Str "Flood"; Str "Flood"; Str "Flood"]))
    with (Ok [Str "Flood"]). run.
  cbn [length bool_decide decide_rel].
  rewrite bool_decide_eq_true_2 by (simpl; lia).
  cbn [selectbox length Nat.sub lookup list_lookup].
  unfold trend_filter, select_rows, groupby_size.
  cbn [start_year end_year disaster_type columns rows].
  rewrite (filter_all _ [s1; s2; s3]).
  2:{ intros r. rewrite !elem_of_cons, elem_of_nil.
      intros [->|[->|[->|[]]]]; cbn beta;
        by rewrite ?Hs1, ?Hs2, ?Hs3, ?Ht1, ?Ht2, ?Ht3. }
  rewrite (get_col_Ok (mkDF cols [s1; s2; s3]) YEAR Hy). run.
  cbn [rows fmap list_fmap]. rewrite ?Hs1, ?Hs2, ?Hs3, ?Ht1, ?Ht2, ?Ht3.
  eexists. reflexivity.
Qed.

(** * Further properties of the renderers *)

(** ** Writes that change nothing *)

Lemma whole_idem `{NumberParser} c : whole (whole c) = whole c.
Proof. by destruct (whole_cases c) as [->|[z ->]]. Qed.

Lemma readable_whole `{NumberParser} c : readable c → readable (whole c).
Proof. unfold readable, whole. by destruct (read c). Qed.

Lemma astype_str_idem `{NumberText} c v :
  astype_str c (astype_str c v) = astype_str c v.
Proof. by destruct v. Qed.

(** Assigning to a column what it already holds leaves the frame as it
    is. *)
Lemma set_col_fixed c (f : cell → cell) df :
  c ∈ columns df →
  (∀ r, r ∈ rows df → ∃ v, r !! c = Some v ∧ f v = v) →
  set_col c (f <$> (cell_at c <$> rows df)) df = df.
Proof.
  intros Hc Hfix. rewrite (set_col_own _ _ _ Hc).
  destruct df as [cols rs]. cbn [columns rows] in *. f_equal.
  rewrite <- (list_fmap_id rs) at 2. apply list_fmap_ext.
  intros _ r Hr%list_elem_of_lookup_2. cbn [id].
  destruct (Hfix r Hr) as (v & Hv & Hf).
  apply insert_id. unfold cell_at. rewrite Hv. simpl. by rewrite Hf.
Qed.

Lemma coerce_row_lookup f cs c (r : row) :
  coerce_row f cs r !! c
  = if bool_decide (c ∈ cs) then Some (f (cell_at c r)) else r !! c.
Proof.
  induction cs as [|c' cs IH]; cbn [coerce_row foldr]; [done|].
  fold (coerce_row f cs r).
  destruct (decide (c' = c)) as [->|Hne].
  - rewrite lookup_insert_eq.
    by rewrite bool_decide_eq_true_2 by apply list_elem_of_here.
  - rewrite lookup_insert_ne by done. rewrite IH.
    rewrite (bool_decide_ext (c ∈ c' :: cs) (c ∈ cs)); [done|].
    rewrite elem_of_cons. split; [|by right]. by intros [->|?].
Qed.

(** Coercing twice is coercing once, also when a column among [cs] had
    been coerced on its own before. *)
Lemma coerce_row_absorb (f : cell → cell) cs (g : row → row) (r : row) :
  (∀ v, f (f v) = f v) →
  (∀ c, c ∈ cs → cell_at c (g r) = cell_at c r ∨ cell_at c (g r) = f (cell_at c r)) →
  (∀ c, c ∉ cs → g r !! c = r !! c) →
  coerce_row f cs (g r) = coerce_row f cs r.
Proof.
  intros Hidem Hin Hout. apply map_eq. intros c.
  rewrite !coerce_row_lookup. case_bool_decide as Hc; [|by apply Hout].
  f_equal. destruct (Hin c Hc) as [->| ->]; [done|]. apply Hidem.
Qed.

Lemma coerce_year_idem `{NumberParser} r : coerce_year (coerce_year r) = coerce_year r.
Proof.
  unfold coerce_year. rewrite cell_at_insert_eq, whole_idem.
  apply insert_insert_eq.
Qed.

Lemma readable_coerce_year `{NumberParser} df :
  readable_column YEAR df →
  readable_column YEAR (mkDF (columns df) (coerce_year <$> rows df)).
Proof.
  unfold readable_column. cbn [rows]. rewrite Forall_fmap.
  intros Hall. eapply Forall_impl; [exact Hall|]. intros r Hr. cbn [compose].
  unfold coerce_year. rewrite cell_at_insert_eq. by apply readable_whole.
Qed.

Lemma readable_coerce_row `{NumberParser} cs c df :
  readable_column c df →
  readable_column c (mkDF (columns df) (coerce_row whole cs <$> rows df)).
Proof.
  unfold readable_column. cbn [rows]. rewrite Forall_fmap.
  intros Hall. eapply Forall_impl; [exact Hall|]. intros r Hr. cbn [compose].
  rewrite cell_at_coerce_row. case_bool_decide; [|done].
  by apply readable_whole.
Qed.

Lemma coerce_row_idem `{NumberParser} r :
  coerce_row whole metrics (coerce_row whole metrics r)
  = coerce_row whole metrics r.
Proof.
  apply (coerce_row_absorb whole metrics (coerce_row whole metrics)).
  - apply whole_idem.
  - intros c Hc. right. by rewrite cell_at_coerce_row, bool_decide_eq_true_2.
  - intros c Hc. by rewrite coerce_row_lookup, bool_decide_eq_false_2.
Qed.

Lemma comparison_types_coerced `{NumberParser} (g : row → row) df :
  (∀ r, cell_at TYPE (g r) = cell_at TYPE r) →
  comparison_types (mkDF (columns df) (g <$> rows df)) = comparison_types df.
Proof.
  intros Hg. unfold comparison_types, get_col. cbn [columns rows].
  rewrite <- list_fmap_compose.
  by rewrite (list_fmap_ext (cell_at TYPE ∘ g) (cell_at TYPE) (rows df))
    by (intros; apply Hg).
Qed.

(** The frame the trend chart leaves behind. *)
Lemma trend_frame `{NumberParser} df ps pe pt df' out :
  line_graph_disaster_trend df ps pe pt = Ok (df', out) →
  YEAR ∈ columns df ∧ readable_column YEAR df
  ∧ df' = mkDF (columns df) (coerce_year <$> rows df).
Proof.
  unfold line_graph_disaster_trend.
  intros ([df0 dfc] & Hclean & Hrun)%bind_Ok.
  apply bind_Ok in Hrun as ([w ch] & _ & Hrun).
  apply bind_Ok in Hrun as (tr & _ & Hrun).
  apply trend_clean_frame in Hclean as (Hy & Hread & ->).
  split_and!; [done|done|].
  rewrite (set_col_own _ _ _ Hy) in Hrun.
  destruct tr; [by injection Hrun as <- _|].
  destruct (match disaster_type ch with Some (Num _) => true | _ => false end);
    [done|]. by injection Hrun as <- _.
Qed.

(** X1. Rendering a second time is safe.  Each of the four renderers that
    write to the frame they are handed (trend chart, bar chart, comparison
    table, world map), when handed the frame it left behind with the same
    picks, leaves that frame untouched and shows exactly the same output:
    the in-place coercions of lines 88, 150, 223, 274 and 275 are
    idempotent. *)
Theorem rendering_again_changes_nothing `{NumberParser} `{NumberText}
    (df df' : DataFrame) out :
  (∀ ps pe pt,
     line_graph_disaster_trend df ps pe pt = Ok (df', out) →
     line_graph_disaster_trend df' ps pe pt = Ok (df', out))
  ∧ (∀ pick,
       bar_chart_disaster_vs_impact df pick = Ok (df', out) →
       bar_chart_disaster_vs_impact df' pick = Ok (df', out))
  ∧ (∀ pa pb,
       disaster_impact_comparison_table df pa pb = Ok (df', out) →
       disaster_impact_comparison_table df' pa pb = Ok (df', out))
  ∧ (∀ pick,
       world_map_of_disasters df pick = Ok (df', out) →
       world_map_of_disasters df' pick = Ok (df', out)).
Proof.
  split_and!.
  - intros ps pe pt Hrun.
    assert (Hy : YEAR ∈ columns df ∧ readable_column YEAR df
                 ∧ df' = mkDF (columns df) (coerce_year <$> rows df)).
    { by eapply trend_frame. }
    destruct Hy as (Hy & Hread & ->).
    unfold line_graph_disaster_trend in *.
    rewrite (trend_clean_Ok df Hy Hread) in Hrun.
    rewrite (trend_clean_Ok (mkDF _ _) Hy (readable_coerce_year _ Hread)).
    cbn [columns rows].
    rewrite <- list_fmap_compose.
    rewrite (list_fmap_ext (coerce_year ∘ coerce_year) coerce_year (rows df))
      by (intros; apply coerce_year_idem).
    exact Hrun.
  - intros pick. unfold bar_chart_disaster_vs_impact.
    destruct (bar_metric pick) as [label [m|e]]; [|done]. run.
    intros Hrun.
    assert (Hf : ∃ dff, bar_filtered m df = Ok (df', dff)).
    { apply bind_Ok in Hrun as ([dfc dff] & Hf & Hrun).
      apply bind_Ok in Hrun as (g & _ & [= <- _]). by exists dff. }
    destruct Hf as [dff Hf]. rewrite Hf in Hrun.
    assert (Hf' : bar_filtered m df' = Ok (df', dff)); [|by rewrite Hf'].
    pose proof Hf as (Hm & Hread & -> & _)%bar_filtered_Ok.
    unfold bar_filtered in Hf |- *.
    rewrite (get_col_Ok _ _ Hm) in Hf. cbn [mbind result_bind] in Hf.
    rewrite numeric_cells_Ok in Hf by (by apply readable_column_fmap).
    cbn [mbind result_bind] in Hf.
    rewrite (set_col_own _ _ _ Hm) in Hf.
    rewrite (get_col_Ok (mkDF _ _) m Hm). run.
    rewrite numeric_cells_Ok.
    2:{ cbn [rows]. rewrite <- list_fmap_compose. apply Forall_fmap.
        eapply Forall_impl; [exact Hread|]. intros r Hr. cbn [compose].
        rewrite cell_at_insert_eq. by apply readable_whole. }
    run.
    rewrite set_col_fixed; [exact Hf|exact Hm|].
    cbn [rows]. intros r' (r & -> & _)%list_elem_of_fmap.
    exists (whole (cell_at m r)).
    by rewrite lookup_insert_eq, whole_idem.
  - intros pa pb. unfold disaster_impact_comparison_table.
    intros Hrun.
    destruct (comparison_types df) as [types|e] eqn:Htypes; [|done].
    cbn [mbind result_bind] in Hrun.
    destruct (length types <? 2) eqn:Hlen.
    { injection Hrun as <- <-. rewrite Htypes. run. by rewrite Hlen. }
    destruct (coerce_metrics df) as [df0|e] eqn:Hco; [|done].
    cbn [mbind result_bind] in Hrun.
    assert (df' = df0) as ->.
    { apply bind_Ok in Hrun as (df1 & _ & Hrun).
      destruct (negb _); [by injection Hrun as <- _|].
      apply bind_Ok in Hrun as (avg_a & _ & Hrun).
      apply bind_Ok in Hrun as (avg_b & _ & Hrun).
      by injection Hrun as <- _. }
    pose proof Hco as (Hms & Hread & ->)%coerce_metrics_Ok.
    rewrite (comparison_types_coerced (coerce_row whole metrics) df).
    2:{ intros r. rewrite cell_at_coerce_row, bool_decide_eq_false_2; [done|].
        apply TYPE_not_metric. }
    rewrite Htypes. run. rewrite Hlen.
    rewrite (coerce_metrics_total (mkDF _ _) Hms).
    2:{ eapply Forall_impl; [exact Hread|]. intros c Hc.
        by apply readable_coerce_row. }
    run. cbn [columns rows].
    rewrite <- list_fmap_compose.
    rewrite (list_fmap_ext (coerce_row whole metrics
                              ∘ coerce_row whole metrics)
               (coerce_row whole metrics) (rows df))
      by (intros; apply coerce_row_idem).
    exact Hrun.
  - intros pick. unfold world_map_of_disasters. intros Hrun.
    destruct (get_col df ISO) as [iso|e] eqn:Hiso; [|done].
    cbn [mbind result_bind] in Hrun.
    apply get_col_Ok_inv in Hiso as [Hi ->].
    rewrite (set_col_own _ _ _ Hi) in Hrun.
    destruct (get_col (mkDF _ _) TYPE) as [ts|e] eqn:Hts in Hrun; [|done].
    cbn [mbind result_bind] in Hrun.
    apply get_col_Ok_inv in Hts as [Ht ->].
    rewrite (set_col_own _ _ _ Ht) in Hrun. cbn [columns rows] in Hrun, Ht.
    assert (df' = mkDF (columns df)
              ((λ r : row, <[TYPE := astype_str TYPE (cell_at TYPE r)]> r)
                 <$> ((λ r : row, <[ISO := astype_str ISO (cell_at ISO r)]> r)
                        <$> rows df))) as ->.
    { apply bind_Ok in Hrun as (ts & _ & Hrun).
      apply bind_Ok in Hrun as (types & _ & Hrun).
      apply bind_Ok in Hrun as (dm & _ & Hrun). by injection Hrun as <- _. }
    rewrite (get_col_Ok (mkDF _ _) ISO Hi). run.
    rewrite set_col_fixed; [|exact Hi|].
    2:{ cbn [rows]. intros r2 (r1 & -> & (r & -> & _)%list_elem_of_fmap)%list_elem_of_fmap.
        exists (astype_str ISO (cell_at ISO r)).
        rewrite lookup_insert_ne by done.
        by rewrite lookup_insert_eq, astype_str_idem. }
    rewrite (get_col_Ok (mkDF _ _) TYPE Ht). run.
    rewrite set_col_fixed; [exact Hrun|exact Ht|].
    cbn [rows]. intros r2 (r1 & -> & _)%list_elem_of_fmap.
    exists (astype_str TYPE (cell_at TYPE r1)).
    by rewrite lookup_insert_eq, astype_str_idem.
Qed.

(** ** One frame object through a whole page *)

Lemma pie_chart_frame df df' out :
  pie_chart_disaster_type df = Ok (df', out) → df' = df.
Proof.
  unfold pie_chart_disaster_type. intros (col & _ & Hrun)%bind_Ok.
  apply bind_Ok in Hrun as (fig & _ & Hrun). by injection Hrun as <- _.
Qed.

Lemma country_page_frame df pick df' out :
  country_wise_data_page df pick = Ok (df', out) → df' = df.
Proof.
  unfold country_wise_data_page. intros (col & _ & Hrun)%bind_Ok.
  apply bind_Ok in Hrun as (cl & _ & Hrun).
  apply bind_Ok in Hrun as (cl' & _ & Hrun).
  by injection Hrun as <- _.
Qed.

Lemma country_pie_frame df pick df' out :
  pie_chart_disaster_type_by_country df pick = Ok (df', out) → df' = df.
Proof.
  unfold pie_chart_disaster_type_by_country.
  intros ([[cl sel] dff] & _ & Hrun)%bind_Ok.
  destruct (rows dff); [by injection Hrun as <- _|].
  apply bind_Ok in Hrun as (ts & _ & Hrun).
  apply bind_Ok in Hrun as (fig & _ & Hrun). by injection Hrun as <- _.
Qed.

Lemma mapM_get_col_Raise df df1 cs e :
  columns df1 = columns df →
  mapM (get_col df) cs = Raise e → mapM (get_col df1) cs = Raise e.
Proof.
  intros Hcols. induction cs as [|c cs IH]; [intros Hnil; discriminate Hnil|].
  cbn [mapM].
  destruct (get_col df c) as [l|e1] eqn:H1, (get_col df1 c) as [l1|e2] eqn:H2;
    unfold get_col in H1, H2; rewrite Hcols in H2;
    destruct (bool_decide (c ∈ columns df)); try discriminate; run.
  - destruct (mapM (get_col df) cs) as [k|e'] eqn:Hk; [discriminate|].
    intros [= ->]. by rewrite IH.
  - congruence.
Qed.

Lemma impact_metric_is_metric label m :
  (label, m) ∈ impact_metrics → m ∈ metrics.
Proof.
  unfold impact_metrics. rewrite !elem_of_cons, elem_of_nil.
  intros Hm. apply (bool_decide_unpack _).
  by repeat destruct Hm as [[= _ ->]|Hm]; try done; vm_compute.
Qed.

Lemma mapM_Raise_inv {A B} (f : A → result B) (l : list A) e :
  mapM f l = Raise e → ∃ x, x ∈ l ∧ f x = Raise e.
Proof.
  induction l as [|x l IH]; [intros Hnil; discriminate Hnil|].
  cbn [mapM]. destruct (f x) as [y|e1] eqn:Hx; run.
  - destruct (mapM f l) as [k|e2]; run; [intros Hk; discriminate Hk|].
    intros [= ->]. destruct (IH eq_refl) as (x' & Hin & Hx').
    exists x'. split; [by apply list_elem_of_further|done].
  - intros [= ->]. exists x. split; [apply list_elem_of_here|done].
Qed.

(** Line 150 stops the embedding, on a frame that has the eight metric
    columns, exactly when a metric cell is not [readable]; it raises no
    exception of Python there. *)
Lemma coerce_metrics_Unsupported `{NumberParser} df :
  Forall (λ c, c ∈ columns df) metrics →
  ¬ Forall (λ c, readable_column c df) metrics →
  coerce_metrics df = Raise Unsupported.
Proof.
  intros Hall Hnot.
  destruct (coerce_metrics df) as [df0|e] eqn:Hco.
  { by apply coerce_metrics_Ok in Hco as (_ & ? & _). }
  unfold coerce_metrics in Hco. rewrite (mapM_get_col _ _ Hall) in Hco.
  cbn [mbind result_bind] in Hco.
  destruct (mapM _ _) as [cols|e'] eqn:Hcols in Hco; [done|].
  injection Hco as ->.
  apply mapM_Raise_inv in Hcols as (col & _ & Hcol).
  by apply numeric_cells_Raise in Hcol as [-> _].
Qed.

Lemma coerce_metrics_after_bar `{NumberParser} m df :
  m ∈ metrics → readable_column m df →
  coerce_metrics
    (mkDF (columns df) ((λ r : row, <[m := whole (cell_at m r)]> r) <$> rows df))
  = coerce_metrics df.
Proof.
  intros Hm Hread.
  set (g := λ r : row, <[m := whole (cell_at m r)]> r).
  assert (Hsame : ∀ c, readable_column c (mkDF (columns df) (g <$> rows df))
                       ↔ readable_column c df).
  { intros c. unfold readable_column. cbn [rows]. rewrite Forall_fmap.
    destruct (decide (c = m)) as [->|Hne].
    - split; [done|]. intros _. eapply Forall_impl; [exact Hread|].
      intros r Hr. cbn [compose]. unfold g. rewrite cell_at_insert_eq.
      by apply readable_whole.
    - apply Forall_proper; [|done]. intros r. cbn [compose]. unfold g.
      by rewrite cell_at_insert_ne. }
  destruct (decide (Forall (λ c, c ∈ columns df) metrics)) as [Hall|Hnot].
  - destruct (decide (Forall (λ c, readable_column c df) metrics)) as [Hr|Hr].
    + rewrite (coerce_metrics_total df Hall Hr).
      rewrite (coerce_metrics_total (mkDF _ _) Hall).
      2:{ eapply Forall_impl; [exact Hr|]. intros c Hc. by apply Hsame. }
      cbn [columns rows].
      f_equal. f_equal. rewrite <- list_fmap_compose.
      apply list_fmap_ext. intros _ r _. cbn [compose].
      apply (coerce_row_absorb whole metrics g).
      * apply whole_idem.
      * intros c Hc. unfold g. rewrite cell_at_insert.
        case_bool_decide; subst; tauto.
      * intros c Hc. apply lookup_insert_ne. by intros ->.
    + rewrite (coerce_metrics_Unsupported df Hall Hr).
      apply (coerce_metrics_Unsupported (mkDF _ _) Hall).
      intros Hr'. apply Hr. eapply Forall_impl; [exact Hr'|].
      intros c Hc. by apply Hsame.
  - destruct (coerce_metrics df) as [df0|e] eqn:Hco.
    { by apply coerce_metrics_Ok in Hco as [? _]. }
    unfold coerce_metrics in Hco |- *.
    destruct (mapM (get_col df) metrics) as [cols|e'] eqn:Hcols.
    { by apply mapM_get_col_inv in Hcols as [? _]. }
    injection Hco as ->.
    by rewrite (mapM_get_col_Raise df (mkDF _ _) metrics e eq_refl Hcols).
Qed.

Lemma comparison_after_bar `{NumberParser} m df pa pb :
  m ∈ metrics → readable_column m df →
  snd <$> disaster_impact_comparison_table
            (mkDF (columns df)
               ((λ r : row, <[m := whole (cell_at m r)]> r) <$> rows df))
            pa pb
  = snd <$> disaster_impact_comparison_table df pa pb.
Proof.
  intros Hm Hread. unfold disaster_impact_comparison_table.
  rewrite (comparison_types_coerced
             (λ r : row, <[m := whole (cell_at m r)]> r) df).
  2:{ intros r. apply cell_at_insert_ne. intros ->. by apply TYPE_not_metric. }
  destruct (comparison_types df) as [types|e]; [|done]. run.
  destruct (length types <? 2); [done|].
  rewrite (coerce_metrics_after_bar m df Hm Hread). done.
Qed.

(** X2. The renderers of a page are handed one and the same frame object,
    and some of them write to it; yet every renderer shows exactly what it
    would show on the table as loaded, and the page raises exactly the
    exception the first failing renderer would raise on the table as
    loaded.  (On the impact page the comparison table reads the metric
    the bar chart has already coerced; coercing again changes nothing.) *)
Theorem sidebar_shows_as_on_loaded_table `{NumberParser} `{NumberText}
    (df : DataFrame) (t : tab) (w : picks) :
  snd <$> sidebar df t w = sidebar_fresh df t w.
Proof.
  destruct t; unfold sidebar, sidebar_fresh.
  - unfold show_df_table. run.
    destruct (pie_chart_disaster_type df) as [[d o2]|e] eqn:Hp; [|done].
    apply pie_chart_frame in Hp as ->. run.
    by destruct (line_graph_disaster_trend df _ _ _) as [[d o3]|e].
  - destruct (bar_chart_disaster_vs_impact df (pick_metric w))
      as [[d o1]|e] eqn:Hbar; [|done]. run.
    apply bar_chart_run in Hbar as (label & m & dff & g & _ & Hm & _ & Hf & _).
    apply bar_filtered_Ok in Hf as (_ & Hread & -> & _).
    pose proof (comparison_after_bar m df (pick_a w) (pick_b w)
                  (impact_metric_is_metric _ _ Hm) Hread) as Hcmp.
    destruct (disaster_impact_comparison_table (mkDF _ _) _ _) as [[d1 o2]|e1],
      (disaster_impact_comparison_table df _ _) as [[d2 o2']|e2];
      cbn in Hcmp; try discriminate Hcmp; by injection Hcmp as ->.
  - destruct (country_wise_data_page df (pick_country w))
      as [[d o1]|e] eqn:Hc; [|done].
    apply country_page_frame in Hc as ->. run.
    destruct (pie_chart_disaster_type_by_country df (pick_pie_country w))
      as [[d o2]|e] eqn:Hp; [|done].
    apply country_pie_frame in Hp as ->. run.
    by destruct (world_map_of_disasters df _) as [[d o3]|e].
Qed.

(** ** Ascending order of what [sorted] returns *)

Lemma ascii_compare_Lt_trans a b c :
  Ascii.compare a b = Lt → Ascii.compare b c = Lt → Ascii.compare a c = Lt.
Proof. unfold Ascii.compare. rewrite !N.compare_lt_iff. lia. Qed.

Lemma string_compare_Lt_trans s t u :
  String.compare s t = Lt → String.compare t u = Lt → String.compare s u = Lt.
Proof.
  revert t u. induction s as [|a s IH]; intros [|b t] [|c u]; simpl; try done.
  destruct (Ascii.compare a b) eqn:Hab; try done.
  - apply Ascii.compare_eq_iff in Hab as ->.
    destruct (Ascii.compare b c); try done. apply IH.
  - intros _. destruct (Ascii.compare b c) eqn:Hbc; try done.
    + apply Ascii.compare_eq_iff in Hbc as <-. by rewrite Hab.
    + by rewrite (ascii_compare_Lt_trans a b c).
Qed.

Lemma cell_lt_trans a b c :
  cell_lt a b = true → cell_lt b c = true → cell_lt a c = true.
Proof.
  destruct a as [|s|x], b as [|t|y], c as [|u|z]; simpl; try done.
  - unfold String.ltb.
    destruct (String.compare s t) eqn:Hst; try done.
    destruct (String.compare t u) eqn:Htu; try done.
    by rewrite (string_compare_Lt_trans s t u).
  - rewrite !Z.ltb_lt. lia.
Qed.

Lemma cell_lt_asym a b : cell_lt a b = true → cell_lt b a = false.
Proof.
  destruct a as [|s|x], b as [|t|y]; simpl; try done.
  - unfold String.ltb. rewrite (String.compare_antisym t s).
    by destruct (String.compare s t).
  - rewrite Z.ltb_lt, Z.ltb_ge. lia.
Qed.

(** Two different values of one kind are ordered one way or the other. *)
Lemma cell_lt_total a b :
  is_str a && is_str b || is_num a && is_num b →
  a ≠ b → cell_lt b a = false → cell_lt a b = true.
Proof.
  destruct a as [|s|x], b as [|t|y]; simpl; try done.
  - intros _ Hne. unfold String.ltb. rewrite (String.compare_antisym t s).
    destruct (String.compare s t) eqn:Hst; try done.
    apply String.compare_eq_iff in Hst. by subst.
  - intros _ Hne. rewrite Z.ltb_lt, Z.ltb_ge.
    assert (x ≠ y) by congruence. lia.
Qed.

#[local] Instance cell_lt_transitive : Transitive (λ a b, cell_lt a b = true).
Proof. intros a b c. apply cell_lt_trans. Qed.

(** Distinct values of one kind come out of the sort strictly ascending. *)
Lemma stable_sort_strict (l : list cell) :
  NoDup l →
  Forall (λ c, is_str c) l ∨ Forall (λ c, is_num c) l →
  StronglySorted (λ a b, cell_lt a b = true) (stable_sort cell_lt l).
Proof.
  intros Hnd Hkind. apply Sorted_StronglySorted; [apply _|].
  assert (Hnd' : NoDup (stable_sort cell_lt l)) by by rewrite stable_sort_perm.
  assert (Hkind' : ∀ a b, a ∈ stable_sort cell_lt l → b ∈ stable_sort cell_lt l →
                          is_str a && is_str b || is_num a && is_num b).
  { intros a b Ha%elem_of_stable_sort Hb%elem_of_stable_sort.
    destruct Hkind as [Hk|Hk]; rewrite Forall_forall in Hk;
      pose proof (Hk a Ha); pose proof (Hk b Hb);
      destruct a, b; simpl in *; done. }
  pose proof (stable_sort_Sorted cell_lt cell_lt_asym l) as Hs.
  induction Hs as [|x s Hs IH Hx]; constructor.
  - apply IH.
    + by apply NoDup_cons in Hnd' as [_ ?].
    + intros a b Ha Hb. apply Hkind'; by apply list_elem_of_further.
  - destruct Hx as [|y s Hxy]; constructor.
    apply cell_lt_total; [| |exact Hxy].
    + apply Hkind'; [apply list_elem_of_here|].
      apply list_elem_of_further, list_elem_of_here.
    + apply NoDup_cons in Hnd' as [Hx _]. intros ->. apply Hx, list_elem_of_here.
Qed.

Lemma numbers_fmap_Num (l : list cell) :
  Forall (λ c, is_num c) l → l = Num <$> (num_val <$> l).
Proof.
  induction 1 as [|c l Hc _ IH]; [done|].
  rewrite !fmap_cons, <- IH. by destruct c.
Qed.

Lemma StronglySorted_Num (zs : list Z) :
  StronglySorted (λ a b, cell_lt a b = true) (Num <$> zs) → StronglySorted Z.lt zs.
Proof.
  induction zs as [|z zs IH]; [constructor|].
  rewrite fmap_cons, !StronglySorted_cons, Forall_fmap.
  intros [Hz Hs]. split; [|by apply IH].
  eapply Forall_impl; [exact Hz|]. intros y. cbn. by rewrite Z.ltb_lt.
Qed.

(** Distinct numbers, sorted: the strictly ascending list of them. *)
Lemma sorted_numbers_ascending (l : list cell) :
  Forall (λ c, is_num c) l → NoDup l →
  ∃ zs, sorted l = Ok (Num <$> zs)
        ∧ stable_sort cell_lt l = Num <$> zs
        ∧ StronglySorted Z.lt zs
        ∧ ∀ z, z ∈ zs ↔ Num z ∈ l.
Proof.
  intros Hnum Hnd.
  assert (Hnum' : Forall (λ c, is_num c) (stable_sort cell_lt l))
    by by rewrite stable_sort_perm.
  exists (num_val <$> stable_sort cell_lt l).
  rewrite <- (numbers_fmap_Num _ Hnum'). split_and!.
  - apply sorted_one_kind. by right.
  - done.
  - apply StronglySorted_Num. rewrite <- (numbers_fmap_Num _ Hnum').
    apply stable_sort_strict; [done|by right].
  - intros z. rewrite <- (elem_of_stable_sort cell_lt (Num z) l).
    rewrite (numbers_fmap_Num _ Hnum') at 2.
    split; [apply list_elem_of_fmap_2|].
    intros (z' & [= ->] & Hz)%list_elem_of_fmap. done.
Qed.

(** What [sorted] returns when it returns. *)
Lemma sorted_Ok_eq l s : sorted l = Ok s → s = stable_sort cell_lt l.
Proof.
  destruct l as [|x l]; [by intros [= <-]|]. unfold sorted.
  destruct (forallb _ _); [|done]. destruct (_ && _); [done|].
  by intros [= <-].
Qed.

(** [sorted] raises exactly on a list holding a [str] and something that
    is not a [str]. *)
Lemma sorted_mixed l : mixed l → sorted l = Raise TypeError.
Proof.
  intros (a & b & Ha & Hb & Hsa & Hsb).
  destruct l as [|x l]; [by apply elem_of_nil in Ha|].
  unfold sorted.
  destruct (forallb (comparable x) l) eqn:Hall; [|done].
  apply Is_true_true_2, forallb_True in Hall. rewrite Forall_forall in Hall.
  apply elem_of_cons in Ha as [->|Ha]; apply elem_of_cons in Hb as [->|Hb].
  - done.
  - specialize (Hall b Hb). by destruct x, b.
  - specialize (Hall a Ha). by destruct x, a.
  - specialize (Hall a Ha) as Hxa. specialize (Hall b Hb) as Hxb.
    by destruct x, a, b.
Qed.

Lemma not_comparable_mixed x l :
  forallb (comparable x) l = false → mixed (x :: l).
Proof.
  induction l as [|y l IH]; [done|]. cbn [forallb].
  destruct (comparable x y) eqn:Hxy; cbn [andb].
  - intros (a & b & Ha & Hb & Hsa & Hsb)%IH. exists a, b.
    split_and!; [|  |done|done].
    + apply elem_of_cons in Ha as [->|Ha]; [apply list_elem_of_here|].
      by do 2 apply list_elem_of_further.
    + apply elem_of_cons in Hb as [->|Hb]; [apply list_elem_of_here|].
      by do 2 apply list_elem_of_further.
  - intros _.
    assert (Hx : x ∈ x :: y :: l) by apply list_elem_of_here.
    assert (Hy : y ∈ x :: y :: l)
      by apply list_elem_of_further, list_elem_of_here.
    destruct x as [|s|z], y as [|t|w]; try done.
    + exists (Str t), NaN. split_and!; [done|done|done|by intros []].
    + exists (Str s), NaN. split_and!; [done|done|done|by intros []].
    + exists (Str s), (Num w). split_and!; [done|done|done|by intros []].
    + exists (Str t), (Num z). split_and!; [done|done|done|by intros []].
Qed.

(** The exception of [sorted] is [TypeError], and it is raised exactly on
    a list that is [mixed]. *)
Lemma sorted_TypeError l : sorted l = Raise TypeError ↔ mixed l.
Proof.
  split; [|apply sorted_mixed].
  destruct l as [|x l]; [done|]. unfold sorted.
  destruct (forallb (comparable x) l) eqn:Hall.
  - by destruct (_ && _).
  - intros _. by apply not_comparable_mixed.
Qed.


Lemma mixed_unique l : mixed (unique l) ↔ mixed l.
Proof.
  unfold mixed. by setoid_rewrite elem_of_unique.
Qed.

(** ** The trend chart in terms of the table as loaded *)

Lemma notna_ne c : notna c ↔ c ≠ NaN.
Proof. destruct c; simpl; split; try done; by intros []. Qed.

Lemma filter_fmap {A B} (f : A → B) (P : B → Prop) `{!∀ x, Decision (P x)}
    (l : list A) :
  filter P (f <$> l) = f <$> filter (λ x, P (f x)) l.
Proof.
  induction l as [|x l IH]; [done|].
  rewrite fmap_cons, !filter_cons, IH. by destruct (decide (P (f x))).
Qed.

Lemma length_filter_iff {A} (P Q : A → Prop) `{!∀ x, Decision (P x)}
    `{!∀ x, Decision (Q x)} (l : list A) :
  (∀ x, x ∈ l → P x ↔ Q x) → length (filter P l) = length (filter Q l).
Proof.
  induction l as [|x l IH]; [done|]. intros HPQ.
  rewrite !filter_cons.
  pose proof (HPQ x (list_elem_of_here _ _)) as Hx.
  assert (IH' : length (filter P l) = length (filter Q l)).
  { apply IH. intros y Hy. apply HPQ. by apply list_elem_of_further. }
  destruct (decide (P x)), (decide (Q x)); simpl; rewrite ?IH'; tauto.
Qed.

Lemma elem_of_trend_rows `{NumberParser} df r' :
  r' ∈ trend_rows df
  ↔ ∃ r, r ∈ rows df ∧ r' = coerce_year r ∧ year_of r ≠ NaN.
Proof.
  unfold trend_rows. rewrite elem_of_stable_sort, list_elem_of_filter.
  rewrite list_elem_of_fmap, notna_ne. split.
  - intros (Hn & r & -> & Hr). exists r.
    by rewrite cell_at_coerce_year_YEAR in Hn.
  - intros (r & Hr & -> & Hn). rewrite cell_at_coerce_year_YEAR. split; [done|].
    by exists r.
Qed.

Lemma length_filter_trend_rows `{NumberParser} (P : row → Prop)
    `{!∀ r, Decision (P r)} df :
  length (filter P (trend_rows df))
  = length (filter (λ r, P (coerce_year r) ∧ year_of r ≠ NaN) (rows df)).
Proof.
  unfold trend_rows. rewrite (stable_sort_perm year_lt).
  rewrite list_filter_filter, filter_fmap, length_fmap.
  apply length_filter_iff. intros r _.
  by rewrite notna_ne, cell_at_coerce_year_YEAR.
Qed.

Lemma trend_rows_year `{NumberParser} df r' :
  r' ∈ trend_rows df → is_num (cell_at YEAR r').
Proof.
  intros (r & _ & -> & Hn)%elem_of_trend_rows.
  rewrite cell_at_coerce_year_YEAR. unfold year_of in Hn.
  by destruct (whole_cases (cell_at YEAR r)) as [Hv|[z Hv]]; rewrite Hv in *.
Qed.

(** The mask of lines 109 to 113 on a cleaned row. *)
Lemma trend_mask_counted `{NumberParser} ch y r :
  cell_at YEAR (coerce_year r) = Num y
  ∧ py_ge (cell_at YEAR (coerce_year r)) (start_year ch)
    && py_le (cell_at YEAR (coerce_year r)) (end_year ch)
    && py_eq (cell_at TYPE (coerce_year r)) (disaster_type ch)
  ↔ counted_at ch y r.
Proof.
  rewrite cell_at_coerce_year_YEAR, cell_at_coerce_year_TYPE.
  unfold counted_at, year_of. rewrite !andb_True.
  split; [intros (Hy & Hm)|intros (Hy & Hm)]; rewrite Hy in *; tauto.
Qed.

Lemma trend_clean_rows `{NumberParser} df :
  YEAR ∈ columns df → readable_column YEAR df →
  trend_clean df
  = Ok (mkDF (columns df) (coerce_year <$> rows df),
        mkDF (columns df) (trend_rows df)).
Proof. apply trend_clean_Ok. Qed.

(** The groups of line 115. *)
Lemma trend_groups `{NumberParser} df ch :
  let col := cell_at YEAR
               <$> rows (trend_filter ch (mkDF (columns df) (trend_rows df))) in
  ∃ plotted : list Z,
    StronglySorted Z.lt plotted
    ∧ (∀ y, y ∈ plotted ↔ ∃ r, r ∈ rows df ∧ counted_at ch y r)
    ∧ (λ k, (k, count_occ_cell k col)) <$> group_keys col
      = (λ y, (Num y, length (filter (counted_at ch y) (rows df)))) <$> plotted.
Proof.
  intros col.
  assert (Hin : ∀ c, c ∈ col ↔ ∃ y r, c = Num y ∧ r ∈ rows df ∧ counted_at ch y r).
  { intros c. unfold col, trend_filter, select_rows. cbn [rows].
    rewrite list_elem_of_fmap. split.
    - intros (r' & -> & [Hm Hr]%list_elem_of_filter).
      pose proof (trend_rows_year _ _ Hr) as Hnum.
      apply elem_of_trend_rows in Hr as (r & Hr & -> & _).
      destruct (cell_at YEAR (coerce_year r)) as [| |y] eqn:Hy; try done.
      exists y, r. split_and!; [done|done|].
      apply trend_mask_counted. by rewrite Hy.
    - intros (y & r & -> & Hr & Hc).
      apply trend_mask_counted in Hc as [Hy Hm].
      exists (coerce_year r). split; [done|].
      apply list_elem_of_filter. split; [done|].
      apply elem_of_trend_rows. exists r. split_and!; [done|done|].
      rewrite cell_at_coerce_year_YEAR in Hy. unfold year_of. by rewrite Hy. }
  assert (Hnum : Forall (λ c, is_num c) col).
  { apply Forall_forall. intros c (y & r & -> & _)%Hin. done. }
  set (ks := unique (series_dropna col)).
  assert (Hks : Forall (λ c, is_num c) ks).
  { apply Forall_forall. intros c Hc. unfold ks in Hc.
    rewrite elem_of_unique, elem_of_series_dropna in Hc. destruct Hc as [_ Hc].
    rewrite Forall_forall in Hnum. by apply Hnum. }
  assert (Hkeys : group_keys col = stable_sort cell_lt ks).
  { unfold group_keys. fold ks.
    rewrite (filter_all _ ks), (filter_none _ ks); [by rewrite app_nil_r| |].
    - rewrite Forall_forall in Hks. intros c Hc. specialize (Hks c Hc).
      destruct c; simpl in *; tauto.
    - rewrite Forall_forall in Hks. intros c Hc. exact (Hks c Hc). }
  destruct (sorted_numbers_ascending ks Hks (NoDup_unique _))
    as (zs & _ & Hzs & Hsorted & Hmem).
  exists zs. split_and!; [done| |].
  - intros y. rewrite Hmem. unfold ks.
    rewrite elem_of_unique, elem_of_series_dropna, Hin. split.
    + intros (_ & y' & r & [= <-] & Hr & Hc). by exists r.
    + intros (r & Hr & Hc). split; [done|]. by exists y, r.
  - rewrite Hkeys, Hzs, <- list_fmap_compose. apply list_fmap_ext.
    intros _ y _. cbn [compose]. f_equal.
    unfold count_occ_cell, col, trend_filter, select_rows. cbn [rows].
    rewrite filter_fmap, length_fmap, list_filter_filter.
    rewrite length_filter_trend_rows. apply length_filter_iff.
    intros r _. rewrite trend_mask_counted. split; [tauto|].
    intros Hc. split; [done|]. destruct Hc as [Hy _]. by rewrite Hy.
Qed.

Lemma trend_widgets_Ok df ps pe pt w ch :
  trend_widgets df ps pe pt = Ok (w, ch) →
  let years := stable_sort cell_lt (unique (cell_at YEAR <$> rows df)) in
  let types := stable_sort cell_lt (unique (cell_at TYPE <$> rows df)) in
  ch = mkChoice (selectbox years 0 ps)
         (if bool_decide (0 < length years)
          then selectbox years (length years - 1) pe else None)
         (selectbox types 0 pt)
  ∧ w = [Selectbox "Select Start Year" years (start_year ch)]
        ++ (if bool_decide (0 < length years)
            then [Selectbox "Select End Year" years (end_year ch)] else [])
        ++ [Selectbox "Select Disaster Type" types (disaster_type ch)].
Proof.
  unfold trend_widgets. intros (ys & Hys & Hrun)%bind_Ok.
  apply bind_Ok in Hrun as (s1 & Hs1 & Hrun).
  apply bind_Ok in Hrun as (s2 & Hs2 & Hrun).
  apply bind_Ok in Hrun as (ts & Hts & Hrun).
  apply bind_Ok in Hrun as (types & Htypes & Hrun).
  apply get_col_Ok_inv in Hys as [_ ->]. apply get_col_Ok_inv in Hts as [_ ->].
  apply sorted_Ok_eq in Hs1 as ->. apply sorted_Ok_eq in Hs2 as ->.
  apply sorted_Ok_eq in Htypes as ->.
  cbv zeta. by injection Hrun as <- <-.
Qed.

(** A run of the renderer, step by step. *)
Lemma trend_run `{NumberParser} df ps pe pt df' out :
  line_graph_disaster_trend df ps pe pt = Ok (df', out) →
  ∃ w ch plotted,
    trend_widgets (mkDF (columns df) (trend_rows df)) ps pe pt = Ok (w, ch)
    ∧ StronglySorted Z.lt plotted
    ∧ (∀ y, y ∈ plotted ↔ ∃ r, r ∈ rows df ∧ counted_at ch y r)
    ∧ out = Header "📈 Disaster Trend Line Graph" :: w
            ++ [match plotted with
                | [] => Write NO_RECORDS
                | _ => Pyplot (Line (Num <$> plotted)
                                 ((λ y, length (filter (counted_at ch y) (rows df)))
                                    <$> plotted)
                                 ("Trend of " +:+ fmt (disaster_type ch)
                                  +:+ " from " +:+ fmt (start_year ch)
                                  +:+ " to " +:+ fmt (end_year ch)))
                end].
Proof.
  intros Hrun. unfold line_graph_disaster_trend in Hrun.
  apply bind_Ok in Hrun as ([df0 dfc] & Hclean & Hrun).
  pose proof Hclean as (Hy & Hread & _)%trend_clean_frame.
  rewrite (trend_clean_rows df Hy Hread) in Hclean. injection Hclean as <- <-.
  apply bind_Ok in Hrun as ([w ch] & Hw & Hrun).
  apply bind_Ok in Hrun as (tr & Htr & Hrun).
  unfold groupby_size in Htr.
  apply bind_Ok in Htr as (col & Hcol & Htr).
  apply get_col_Ok_inv in Hcol as [_ ->].
  destruct (trend_groups df ch) as (plotted & Hsorted & Hmem & Heq).
  cbv zeta in Heq. cbn [mret result_ret] in Htr. rewrite Heq in Htr.
  injection Htr as <-.
  exists w, ch, plotted. split_and!; [done|done|done|].
  destruct plotted as [|y plotted]; [by injection Hrun as _ <-|].
  rewrite match_nonempty in Hrun by done.
  destruct (match disaster_type ch with Some (Num _) => true | _ => false end);
    [done|].
  remember ((λ y, (Num y, length (filter (counted_at ch y) (rows df))))
              <$> y :: plotted) as tr eqn:Htr.
  injection Hrun as _ <-. subst tr.
  by rewrite <- !list_fmap_compose.
Qed.

Lemma trend_years `{NumberParser} df :
  ∃ years : list Z,
    sorted (unique (cell_at YEAR <$> trend_rows df)) = Ok (Num <$> years)
    ∧ stable_sort cell_lt (unique (cell_at YEAR <$> trend_rows df)) = Num <$> years
    ∧ StronglySorted Z.lt years
    ∧ ∀ y, y ∈ years ↔ ∃ r, r ∈ rows df ∧ year_of r = Num y.
Proof.
  destruct (sorted_numbers_ascending (unique (cell_at YEAR <$> trend_rows df)))
    as (zs & Hsorted & Hzs & Hasc & Hmem).
  { apply Forall_forall. intros c Hc. rewrite elem_of_unique in Hc.
    apply list_elem_of_fmap in Hc as (r' & -> & Hr). by eapply trend_rows_year. }
  { apply NoDup_unique. }
  exists zs. split_and!; [done|done|done|].
  intros y. rewrite Hmem, elem_of_unique, list_elem_of_fmap. split.
  - intros (r' & Hy & (r & Hr & -> & _)%elem_of_trend_rows).
    exists r. by rewrite cell_at_coerce_year_YEAR in Hy.
  - intros (r & Hr & Hy). exists (coerce_year r).
    rewrite cell_at_coerce_year_YEAR. split; [done|].
    apply elem_of_trend_rows. exists r. split_and!; [done|done|].
    by rewrite Hy.
Qed.

Lemma nothing_counted_without_start `{NumberParser} ch y r :
  start_year ch = None ∨ end_year ch = None → ¬ counted_at ch y r.
Proof.
  unfold counted_at. intros [Hn|Hn]; rewrite Hn; simpl; tauto.
Qed.

(** X3. The year boxes of the trend chart.  Both offer the same list: every
    start year that reads as a number, once, in strictly ascending order,
    whether the record held it as a number or as text.  Unless the user
    picks otherwise the start box stands at the earliest of them and the end
    box at the latest.  When no record has a readable year, the start box
    is empty, the end box is not shown at all, both values are [None] and
    the renderer writes that no records were found. *)
Theorem trend_year_boxes `{NumberParser}
    (df : DataFrame) (ps pe pt : option nat) df' out :
  line_graph_disaster_trend df ps pe pt = Ok (df', out) →
  ∃ (years : list Z) (ch : trend_choice) types chart,
    out = Header "📈 Disaster Trend Line Graph"
          :: Selectbox "Select Start Year" (Num <$> years) (start_year ch)
          :: match years with
             | [] => []
             | _ => [Selectbox "Select End Year" (Num <$> years) (end_year ch)]
             end
          ++ [Selectbox "Select Disaster Type" types (disaster_type ch); chart]
    ∧ StronglySorted Z.lt years
    ∧ (∀ y, y ∈ years ↔ ∃ r, r ∈ rows df ∧ year_of r = Num y)
    ∧ (ps = None → start_year ch = Num <$> head years)
    ∧ (pe = None → end_year ch = Num <$> last years)
    ∧ (∀ c, start_year ch = Some c ∨ end_year ch = Some c →
            ∃ y, c = Num y ∧ y ∈ years)
    ∧ (years = [] →
       start_year ch = None ∧ end_year ch = None ∧ chart = Write NO_RECORDS).
Proof.
  intros Hrun.
  apply trend_run in Hrun as (w & ch & plotted & Hw & _ & Hplotted & ->).
  apply trend_widgets_Ok in Hw as [Hch ->]. cbn [rows] in Hch |- *.
  destruct (trend_years df) as (years & _ & Hyears & Hasc & Hmem).
  rewrite Hyears in Hch |- *. rewrite length_fmap in Hch |- *.
  assert (Hs : start_year ch = selectbox (Num <$> years) 0 ps) by by rewrite Hch.
  assert (He : end_year ch
               = match years with
                 | [] => None
                 | _ => selectbox (Num <$> years) (length years - 1) pe
                 end).
  { rewrite Hch. cbn [end_year]. by destruct years. }
  clear Hch.
  eexists years, ch, _, _. split_and!; [|done|done| | | |].
  - cbn [app]. f_equal. f_equal. destruct years; cbn; reflexivity.
  - intros ->. rewrite Hs. unfold selectbox.
    by rewrite list_lookup_fmap, head_lookup.
  - intros ->. rewrite He. destruct years as [|y years]; [done|].
    unfold selectbox. rewrite list_lookup_fmap, last_lookup.
    by rewrite Nat.sub_1_r.
  - intros c [Hc|Hc].
    + rewrite Hs in Hc. apply selectbox_elem_of in Hc.
      apply list_elem_of_fmap in Hc as (y & -> & Hy). by exists y.
    + rewrite He in Hc. destruct years as [|y0 years]; [done|].
      apply selectbox_elem_of in Hc.
      apply list_elem_of_fmap in Hc as (y & -> & Hy). by exists y.
  - intros ->. rewrite Hs, He. split_and!; [done|done|].
    destruct plotted as [|y plotted]; [done|].
    destruct (proj1 (Hplotted y) (list_elem_of_here _ _)) as (r & _ & Hc).
    exfalso. eapply nothing_counted_without_start; [|exact Hc].
    left. by rewrite Hs.
Qed.

(** X4. What the trend chart plots, in terms of the table as loaded.  A
    record is counted at year [y] when its start year reads as the number
    [y], [y] lies between the selected start and end year (both included)
    and its disaster type is the selected one.  The chart has one point
    for every year at which some record is counted, by strictly ascending
    year, and the height of the point is the number of records counted
    there; a year without such a record gets no point (not a zero).  When
    no record is counted at all, for instance because the start year
    selected lies after the end year, "No Records found." is written in
    place of the chart. *)
Theorem trend_chart_counts `{NumberParser}
    (df : DataFrame) (ps pe pt : option nat) df' out :
  line_graph_disaster_trend df ps pe pt = Ok (df', out) →
  ∃ (ch : trend_choice) (plotted : list Z),
    (∃ o, Selectbox "Select Start Year" o (start_year ch) ∈ out)
    ∧ (∃ o, Selectbox "Select Disaster Type" o (disaster_type ch) ∈ out)
    ∧ (plotted ≠ [] → ∃ o, Selectbox "Select End Year" o (end_year ch) ∈ out)
    ∧ StronglySorted Z.lt plotted
    ∧ (∀ y, y ∈ plotted ↔ ∃ r, r ∈ rows df ∧ counted_at ch y r)
    ∧ (∀ s e, start_year ch = Some (Num s) → end_year ch = Some (Num e) →
              (e < s)%Z → plotted = [])
    ∧ last out
      = Some match plotted with
             | [] => Write NO_RECORDS
             | _ => Pyplot (Line (Num <$> plotted)
                              ((λ y, length (filter (counted_at ch y) (rows df)))
                                 <$> plotted)
                              ("Trend of " +:+ fmt (disaster_type ch)
                               +:+ " from " +:+ fmt (start_year ch)
                               +:+ " to " +:+ fmt (end_year ch)))
             end.
Proof.
  intros Hrun.
  apply trend_run in Hrun as (w & ch & plotted & Hw & Hasc & Hplotted & ->).
  apply trend_widgets_Ok in Hw as [Hch ->]. cbn [rows] in Hch |- *.
  exists ch, plotted. split_and!; [| | |done|done| |].
  - eexists. apply list_elem_of_further, list_elem_of_here.
  - eexists. apply list_elem_of_further. rewrite !elem_of_app. left.
    do 2 right. apply list_elem_of_here.
  - intros Hne. case_bool_decide as Hlen.
    + eexists. do 2 apply list_elem_of_further. apply list_elem_of_here.
    + destruct plotted as [|y plotted]; [done|].
      destruct (proj1 (Hplotted y) (list_elem_of_here _ _)) as (r & _ & Hc).
      exfalso. eapply nothing_counted_without_start; [|exact Hc].
      right. by rewrite Hch.
  - intros s e Hs He Hlt. destruct plotted as [|y plotted]; [done|].
    destruct (proj1 (Hplotted y) (list_elem_of_here _ _))
      as (r & _ & _ & Hge & Hle & _).
    rewrite Hs in Hge. rewrite He in Hle. cbn in Hge, Hle.
    apply Is_true_true_1, Z.leb_le in Hge, Hle. lia.
  - rewrite last_cons, last_snoc. done.
Qed.








(** ** The select boxes of the comparison table *)

Lemma sorted_Ok_not_mixed l s : sorted l = Ok s → ¬ mixed l.
Proof. intros Hs Hmix. by rewrite (sorted_mixed l Hmix) in Hs. Qed.

(** A list Python can sort and that holds no missing value is of one
    kind. *)
Lemma not_mixed_kind l :
  ¬ mixed l → (∀ c, c ∈ l → c ≠ NaN) →
  Forall (λ c, is_str c) l ∨ Forall (λ c, is_num c) l.
Proof.
  intros Hmix Hna.
  destruct (decide (Exists (λ c, is_str c) l)) as [Hex|Hex].
  - left. apply Exists_exists in Hex as (a & Ha & Hsa).
    apply Forall_forall. intros c Hc.
    destruct (is_str c) eqn:Hsc; [done|]. exfalso. apply Hmix.
    exists a, c. split_and!; [done|done|done|]. rewrite Hsc. by intros [].
  - right. apply Forall_forall. intros c Hc.
    pose proof (Hna c Hc).
    destruct c as [|s|z]; [done| |done].
    exfalso. apply Hex, Exists_exists. by exists (Str s).
Qed.

Lemma comparison_types_facts df types :
  comparison_types df = Ok types →
  NoDup types
  ∧ StronglySorted (λ x y, cell_lt x y = true) types
  ∧ ∀ t, t ∈ types ↔ t ≠ NaN ∧ ∃ r, r ∈ rows df ∧ cell_at TYPE r = t.
Proof.
  unfold comparison_types. intros (ts & Hts & Hs)%bind_Ok.
  apply get_col_Ok_inv in Hts as [_ ->].
  pose proof (sorted_Ok_not_mixed _ _ Hs) as Hmix.
  apply sorted_Ok_eq in Hs as ->. split_and!.
  - rewrite stable_sort_perm. apply NoDup_unique.
  - apply stable_sort_strict; [apply NoDup_unique|].
    apply not_mixed_kind; [done|].
    intros c Hc. rewrite elem_of_unique, elem_of_series_dropna in Hc. tauto.
  - intros t.
    rewrite elem_of_stable_sort, elem_of_unique, elem_of_series_dropna.
    rewrite list_elem_of_fmap. split.
    + intros (Hn & r & -> & Hr). split; [done|]. by exists r.
    + intros (Hn & r & Hr & <-). split; [done|]. by exists r.
Qed.

Lemma disaster_b_options_filter types d :
  d ≠ NaN → (∀ t, t ∈ types → t ≠ NaN) →
  disaster_b_options types (Some d) = filter (λ t, t ≠ d) types.
Proof.
  intros Hd. unfold disaster_b_options.
  induction types as [|t types IH]; [done|]. intros Hna.
  rewrite !filter_cons, IH
    by (intros t' Ht'; by apply Hna, list_elem_of_further).
  pose proof (Hna t (list_elem_of_here _ _)) as Ht.
  assert (Heq : py_eq t (Some d) = bool_decide (t = d))
    by (by destruct t, d).
  rewrite Heq. clear Heq.
  destruct (decide (t = d)) as [->|Hne].
  - rewrite bool_decide_eq_true_2 by done. cbn. by repeat case_decide.
  - rewrite bool_decide_eq_false_2 by done. cbn. by repeat case_decide.
Qed.

Lemma length_filter_ne (d : cell) (l : list cell) :
  NoDup l → d ∈ l → length (filter (λ t, t ≠ d) l) + 1 = length l.
Proof.
  induction 1 as [|t l Ht Hnd IH]; [by intros ?%elem_of_nil|].
  rewrite filter_cons. intros [->|Hd]%elem_of_cons.
  - rewrite decide_False by (intros Hdd; by apply Hdd).
    rewrite (filter_all _ l); [simpl; lia|]. by intros t' Ht' ->.
  - rewrite decide_True by (by intros ->). simpl. rewrite <- (IH Hd). lia.
Qed.

(** A run of the renderer past its guard. *)
Lemma comparison_run `{NumberParser} df pa pb df' out types a :
  disaster_impact_comparison_table df pa pb = Ok (df', out) →
  Selectbox "Select Disaster A" types a ∈ out →
  comparison_types df = Ok types
  ∧ ∃ d d' final,
      a = Some d ∧ selectbox types 0 pa = Some d
      ∧ selectbox (filter (λ t, t ≠ d) types) 0 pb = Some d'
      ∧ d ∈ types ∧ d' ∈ filter (λ t, t ≠ d) types
      ∧ length (filter (λ t, t ≠ d) types) + 1 = length types
      ∧ out = [Header "⚖️ Disaster Average Impact Comparison";
               Selectbox "Select Disaster A" types (Some d);
               Selectbox "Select Disaster B" (filter (λ t, t ≠ d) types) (Some d');
               final]
      ∧ (truthy (Some d') = false ∧ final = Warning SELECT_DIFFERENT
         ∨ truthy (Some d') = true
           ∧ ∃ avg_a avg_b,
               final = Table (Some d) avg_a average_impact (Some d') avg_b).
Proof.
  unfold disaster_impact_comparison_table. intros Hrun Hbox.
  apply bind_Ok in Hrun as (dts & Hdts & Hrun).
  destruct (length dts <? 2) eqn:Hlen.
  { injection Hrun as <- <-. revert Hbox.
    rewrite !elem_of_cons, elem_of_nil. intros [[=]|[[=]|[]]]. }
  apply Nat.ltb_ge in Hlen.
  apply bind_Ok in Hrun as (df0 & _ & Hrun).
  apply bind_Ok in Hrun as (df1 & _ & Hrun).
  destruct (comparison_types_facts _ _ Hdts) as (Hnd & _ & Hmem).
  destruct (selectbox_Some dts 0 pa) as [d Hd]; [lia|].
  rewrite Hd in Hrun.
  assert (Hin : d ∈ dts) by (by eapply selectbox_elem_of).
  assert (Hna : d ≠ NaN) by (apply Hmem in Hin; tauto).
  rewrite (disaster_b_options_filter dts d Hna) in Hrun
    by (intros t Ht; apply Hmem in Ht; tauto).
  pose proof (length_filter_ne d dts Hnd Hin) as Hlen'.
  remember (filter (λ t, t ≠ d) dts) as options eqn:Hoptions.
  destruct options as [|o options]; [simpl in Hlen'; lia|].
  destruct (selectbox_Some (o :: options) 0 pb) as [d' Hd']; [simpl; lia|].
  rewrite Hd' in Hrun.
  assert (Hin' : d' ∈ o :: options) by (by eapply selectbox_elem_of).
  assert (Hout : ∃ final,
    out = [Header "⚖️ Disaster Average Impact Comparison";
           Selectbox "Select Disaster A" dts (Some d);
           Selectbox "Select Disaster B" (o :: options) (Some d'); final]
    ∧ (truthy (Some d') = false ∧ final = Warning SELECT_DIFFERENT
       ∨ truthy (Some d') = true
         ∧ ∃ avg_a avg_b,
             final = Table (Some d) avg_a average_impact (Some d') avg_b)).
  { destruct (truthy (Some d')); cbn [negb] in Hrun.
    - apply bind_Ok in Hrun as (avg_a & _ & Hrun).
      apply bind_Ok in Hrun as (avg_b & _ & Hrun).
      injection Hrun as _ <-. eexists. split; [reflexivity|]. right.
      split; [done|]. by eexists _, _.
    - injection Hrun as _ <-. eexists. split; [reflexivity|]. by left. }
  destruct Hout as (final & -> & Hfinal).
  assert (types = dts ∧ a = Some d) as [-> ->].
  { revert Hbox. rewrite !elem_of_cons, elem_of_nil.
    intros [[=]|[[= -> ->]|[[=]|[Hf|[]]]]]; [done|].
    destruct Hfinal as [[_ ->]|[_ (x & y & ->)]]; discriminate Hf. }
  split; [done|]. exists d, d', final. by rewrite <- Hoptions.
Qed.

(** X6. The two select boxes of the comparison table, once the table has
    at least two disaster types.  Box A offers the distinct disaster types
    of the table (missing values aside) in strictly ascending order and
    stands at the first unless the user picks otherwise.  Box B is always
    shown and always has a value: it offers every type but the one
    selected as A, in the same order, hence exactly one entry less, and
    stands at the first of them unless the user picks otherwise.  The
    branch of line 163 that sets B to [None] is never taken. *)
Theorem comparison_boxes_past_guard `{NumberParser}
    (df : DataFrame) (pa pb : option nat) df' out types a :
  disaster_impact_comparison_table df pa pb = Ok (df', out) →
  Selectbox "Select Disaster A" types a ∈ out →
  StronglySorted (λ x y, cell_lt x y = true) types
  ∧ (∀ t, t ∈ types ↔ t ≠ NaN ∧ ∃ r, r ∈ rows df ∧ cell_at TYPE r = t)
  ∧ ∃ d options d',
      a = Some d ∧ d ∈ types ∧ (pa = None → head types = Some d)
      ∧ Selectbox "Select Disaster B" options (Some d') ∈ out
      ∧ options = filter (λ t, t ≠ d) types
      ∧ length options + 1 = length types
      ∧ d' ∈ options ∧ (pb = None → head options = Some d').
Proof.
  intros Hrun Hbox.
  destruct (comparison_run _ _ _ _ _ _ _ Hrun Hbox)
    as (Htypes & d & d' & final & -> & Hd & Hd' & Hin & Hin' & Hlen & -> & _).
  destruct (comparison_types_facts _ _ Htypes) as (_ & Hsorted & Hmem).
  split_and!; [done|done|].
  exists d, (filter (λ t, t ≠ d) types), d'.
  split_and!; [done|done| | |done|done|done|].
  - intros ->. by rewrite head_lookup.
  - do 2 apply list_elem_of_further. apply list_elem_of_here.
  - intros ->. by rewrite head_lookup.
Qed.

Lemma falsy_cell d :
  truthy (Some d) = false ↔ d = Str "" ∨ d = Num 0.
Proof.
  destruct d as [|s|z]; simpl.
  - split; [done|]. by intros [|].
  - destruct s; split; try done; [by left|by intros [[=]|[=]]].
  - destruct z; split; try done; [by right|by intros [|[=]]..].
Qed.

(** X7. When "Please select different disasters for comparison." is shown.
    Box B never offers the value of box A, so the two selections always
    differ; the warning of line 166 appears exactly when the value
    selected as B is falsy in Python, that is when a disaster type is the
    empty text or the number 0 and is selected as B.  In every other case
    the table is drawn, for the two selected types. *)
Theorem comparison_warns_on_falsy_b `{NumberParser}
    (df : DataFrame) (pa pb : option nat) df' out options b :
  disaster_impact_comparison_table df pa pb = Ok (df', out) →
  Selectbox "Select Disaster B" options b ∈ out →
  (Warning SELECT_DIFFERENT ∈ out ↔ b = Some (Str "") ∨ b = Some (Num 0))
  ∧ ((∃ a avg_a impact avg_b, Table a avg_a impact b avg_b ∈ out)
     ↔ ¬ (b = Some (Str "") ∨ b = Some (Num 0)))
  ∧ ∃ types a, Selectbox "Select Disaster A" types a ∈ out ∧ b ≠ None ∧ b ≠ a.
Proof.
  intros Hrun Hbox.
  assert (HA : ∃ types a, Selectbox "Select Disaster A" types a ∈ out).
  { unfold disaster_impact_comparison_table in Hrun.
    apply bind_Ok in Hrun as (dts & _ & Hrun).
    destruct (length dts <? 2).
    { injection Hrun as _ <-. revert Hbox.
      rewrite !elem_of_cons, elem_of_nil. intros [[=]|[[=]|[]]]. }
    apply bind_Ok in Hrun as (df0 & _ & Hrun).
    apply bind_Ok in Hrun as (df1 & _ & Hrun).
    destruct (negb _);
      [|apply bind_Ok in Hrun as (avg_a & _ & Hrun);
        apply bind_Ok in Hrun as (avg_b & _ & Hrun)];
      injection Hrun as _ <-; eexists _, _;
      apply list_elem_of_further, list_elem_of_here. }
  destruct HA as (types & a & HA).
  destruct (comparison_run _ _ _ _ _ _ _ Hrun HA)
    as (_ & d & d' & final & -> & _ & _ & _ & Hin' & _ & -> & Hfinal).
  assert (b = Some d') as ->.
  { revert Hbox. rewrite !elem_of_cons, elem_of_nil.
    intros [[=]|[[=]|[[= _ ->]|[Hf|[]]]]]; [done|].
    destruct Hfinal as [[_ ->]|[_ (x & y & ->)]]; discriminate Hf. }
  assert (Hfalsy : truthy (Some d') = false
                   ↔ Some d' = Some (Str "") ∨ Some d' = Some (Num 0)).
  { rewrite falsy_cell.
    split; intros [Hx|Hx]; [left|right|left|right]; congruence. }
  split_and!.
  - rewrite <- Hfalsy, !elem_of_cons, elem_of_nil.
    destruct Hfinal as [[Ht ->]|[Ht (x & y & ->)]]; rewrite Ht; split;
      try done; try tauto.
    by intros [[=]|[[=]|[[=]|[[=]|[]]]]].
  - rewrite <- Hfalsy.
    destruct Hfinal as [[Ht ->]|[Ht (x & y & ->)]]; rewrite Ht; split;
      try done.
    + intros (a & u & v & w & Hin). revert Hin.
      rewrite !elem_of_cons, elem_of_nil.
      by intros [[=]|[[=]|[[=]|[[=]|[]]]]].
    + intros _. eexists _, _, _, _. do 3 apply list_elem_of_further.
      apply list_elem_of_here.
  - exists types, (Some d). split_and!; [done|done|].
    intros [= ->]. apply list_elem_of_filter in Hin' as [Hne _]. done.
Qed.
(** ** The world map *)

Lemma astype_str_kind `{NumberText} c v :
  astype_str c v = NaN ∨ is_str (astype_str c v).
Proof. destruct v; simpl; auto. Qed.

Lemma astype_str_NaN `{NumberText} c v : astype_str c v = NaN ↔ v = NaN.
Proof. by destruct v. Qed.

Lemma cell_at_stringify_TYPE `{NumberText} r :
  cell_at TYPE (stringify r) = astype_str TYPE (cell_at TYPE r).
Proof. apply cell_at_insert_eq. Qed.

Lemma cell_at_stringify_ISO `{NumberText} r :
  cell_at ISO (stringify r) = astype_str ISO (cell_at ISO r).
Proof.
  unfold stringify. rewrite cell_at_insert_ne by done. apply cell_at_insert_eq.
Qed.

(** Groups of a column of texts and missing values: one per distinct
    text, by strictly ascending text, with the number of rows holding
    it.  A missing value is a key of no group. *)
Lemma groupby_size_strings c df :
  c ∈ columns df →
  (∀ r, r ∈ rows df → cell_at c r = NaN ∨ is_str (cell_at c r)) →
  ∃ keys,
    groupby_size c df
    = Ok ((λ k, (k, length (filter (λ r, cell_at c r = k) (rows df)))) <$> keys)
    ∧ StronglySorted (λ x y, cell_lt x y = true) keys
    ∧ NoDup keys
    ∧ ∀ k, k ∈ keys ↔ k ≠ NaN ∧ ∃ r, r ∈ rows df ∧ cell_at c r = k.
Proof.
  intros Hc Hstr. unfold groupby_size. rewrite (get_col_Ok _ _ Hc). run.
  set (col := cell_at c <$> rows df).
  set (ks := unique (series_dropna col)).
  assert (Hks : Forall (λ k, is_str k) ks).
  { apply Forall_forall. intros k Hk. unfold ks in Hk.
    rewrite elem_of_unique, elem_of_series_dropna in Hk.
    destruct Hk as [Hn Hk]. apply list_elem_of_fmap in Hk as (r & -> & Hr).
    by destruct (Hstr r Hr). }
  assert (Hkeys : group_keys col = stable_sort cell_lt ks).
  { unfold group_keys. fold ks.
    rewrite (filter_none _ ks), (filter_all _ ks); [done| |].
    - rewrite Forall_forall in Hks. intros k Hk. exact (Hks k Hk).
    - rewrite Forall_forall in Hks. intros k Hk. specialize (Hks k Hk).
      destruct k; simpl in *; tauto. }
  exists (stable_sort cell_lt ks). rewrite Hkeys. split_and!.
  - f_equal. apply list_fmap_ext. intros _ k _. f_equal.
    unfold count_occ_cell, col. by rewrite filter_fmap, length_fmap.
  - apply stable_sort_strict; [apply NoDup_unique|by left].
  - rewrite stable_sort_perm. apply NoDup_unique.
  - intros k. unfold ks.
    rewrite elem_of_stable_sort, elem_of_unique, elem_of_series_dropna.
    unfold col. rewrite list_elem_of_fmap. split.
    + intros (Hn & r & -> & Hr). split; [done|]. by exists r.
    + intros (Hn & r & Hr & <-). split; [done|]. by exists r.
Qed.

(** The counts of the groups add up to the number of rows that are in a
    group. *)
Lemma sum_group_sizes c (keys : list cell) (rs : list row) :
  NoDup keys →
  sum_list ((λ k, length (filter (λ r, cell_at c r = k) rs)) <$> keys)
  = length (filter (λ r, cell_at c r ∈ keys) rs).
Proof.
  intros Hnd.
  transitivity (sum_list ((λ v, count_occ_cell v (cell_at c <$> rs)) <$> keys)).
  - f_equal. apply list_fmap_ext. intros _ k _.
    unfold count_occ_cell. by rewrite filter_fmap, length_fmap.
  - rewrite (sum_counts_NoDup keys (cell_at c <$> rs) Hnd).
    by rewrite filter_fmap, length_fmap.
Qed.

Lemma world_map_frame `{NumberText} df :
  ISO ∈ columns df → TYPE ∈ columns df →
  ∀ pick,
    world_map_of_disasters df pick
    = (let df := mkDF (columns df) (stringify <$> rows df) in
       ts ← get_col df TYPE;
       types ← sorted (unique ts);
       let disaster_type := selectbox types 0 pick in
       let df_filtered :=
         select_rows (λ r, py_eq (cell_at TYPE r) disaster_type) df in
       df_map ← groupby_size ISO df_filtered;
       mret (df, [Header "🌍 Disaster Distribution by Country";
                  Selectbox "Select Disaster Type" types disaster_type;
                  PlotlyChart (Choropleth df_map.*1 df_map.*2
                                 ("Global Distribution of "
                                  +:+ fmt disaster_type))])).
Proof.
  intros Hi Ht pick. unfold world_map_of_disasters.
  rewrite (get_col_Ok _ _ Hi). run. rewrite (set_col_own _ _ _ Hi).
  rewrite (get_col_Ok (mkDF _ _) TYPE Ht). run.
  rewrite (set_col_own _ _ (mkDF _ _) Ht). cbn [columns rows].
  rewrite <- list_fmap_compose.
  rewrite (list_fmap_ext _ stringify (rows df)); [done|].
  intros _ r _. cbn [compose]. unfold stringify.
  by rewrite cell_at_insert_ne by done.
Qed.

Lemma elem_of_map_types `{NumberText} df t :
  t ∈ unique (cell_at TYPE <$> (stringify <$> rows df))
  ↔ ∃ r, r ∈ rows df ∧ astype_str TYPE (cell_at TYPE r) = t.
Proof.
  rewrite elem_of_unique, <- list_fmap_compose, list_elem_of_fmap. split.
  - intros (r & -> & Hr). exists r. cbn [compose].
    by rewrite cell_at_stringify_TYPE.
  - intros (r & Hr & <-). exists r. cbn [compose].
    by rewrite cell_at_stringify_TYPE.
Qed.

(** Line 278 sorts texts and, where a record has no type, a missing
    value: the list is [mixed] exactly when the table has both. *)
Lemma mixed_map_types `{NumberText} df :
  mixed (unique (cell_at TYPE <$> (stringify <$> rows df)))
  ↔ (∃ r, r ∈ rows df ∧ cell_at TYPE r = NaN)
    ∧ (∃ r, r ∈ rows df ∧ cell_at TYPE r ≠ NaN).
Proof.
  unfold mixed. setoid_rewrite elem_of_map_types. split.
  - intros (a & b & (ra & Hra & <-) & (rb & Hrb & <-) & Hsa & Hsb). split.
    + exists rb. split; [done|]. apply (astype_str_NaN TYPE).
      by destruct (astype_str_kind TYPE (cell_at TYPE rb)).
    + exists ra. split; [done|]. rewrite <- (astype_str_NaN TYPE).
      intros Hn. by rewrite Hn in Hsa.
  - intros [(rb & Hrb & Hb) (ra & Hra & Ha)].
    exists (astype_str TYPE (cell_at TYPE ra)),
           (astype_str TYPE (cell_at TYPE rb)).
    split_and!; [by exists ra|by exists rb| |].
    + destruct (astype_str_kind TYPE (cell_at TYPE ra)) as [Hn|Hs]; [|done].
      by apply astype_str_NaN in Hn.
    + rewrite Hb. by intros [].
Qed.

Lemma map_types_sorted `{NumberText} df :
  ¬ ((∃ r, r ∈ rows df ∧ cell_at TYPE r = NaN)
     ∧ (∃ r, r ∈ rows df ∧ cell_at TYPE r ≠ NaN)) →
  let ts := unique (cell_at TYPE <$> (stringify <$> rows df)) in
  sorted ts = Ok (stable_sort cell_lt ts)
  ∧ StronglySorted (λ x y, cell_lt x y = true) (stable_sort cell_lt ts).
Proof.
  intros Hnot ts.
  destruct (decide (Exists (λ r, cell_at TYPE r = NaN) (rows df)))
    as [Hmiss|Hmiss]; rewrite Exists_exists in Hmiss.
  - assert (Hall : ∀ t, t ∈ ts → t = NaN).
    { intros t (r & Hr & <-)%elem_of_map_types. apply astype_str_NaN.
      destruct (decide (cell_at TYPE r = NaN)) as [|Hne]; [done|].
      exfalso. apply Hnot. split; [done|]. by exists r. }
    assert (Hts : ts = [] ∨ ts = [NaN]).
    { pose proof (NoDup_unique (cell_at TYPE <$> (stringify <$> rows df)))
        as Hnd. fold ts in Hnd.
      destruct ts as [|a [|b ts']]; [by left| |].
      - right. by rewrite (Hall a (list_elem_of_here _ _)).
      - exfalso. apply NoDup_cons in Hnd as [Hab _]. apply Hab.
        rewrite (Hall a (list_elem_of_here _ _)).
        rewrite (Hall b (list_elem_of_further _ _ _ (list_elem_of_here _ _))).
        apply list_elem_of_here. }
    destruct Hts as [-> | ->]; split; try done; by repeat constructor.
  - assert (Hstr : Forall (λ t, is_str t) ts).
    { apply Forall_forall. intros t (r & Hr & <-)%elem_of_map_types.
      destruct (astype_str_kind TYPE (cell_at TYPE r)) as [Hn|Hs]; [|done].
      exfalso. apply Hmiss. exists r. split; [done|].
      by apply astype_str_NaN in Hn. }
    split; [apply sorted_one_kind; by left|].
    apply stable_sort_strict; [apply NoDup_unique|by left].
Qed.

(** X8. The select box of the world map.  Line 275 turns the disaster
    types into text, but a missing type stays missing, and line 278 sorts
    the distinct values without dropping it.  So, with the ISO and type
    columns in the table, the renderer raises [TypeError] exactly when
    some record has a disaster type and another has none.  In every other
    case it renders: the select box offers the distinct types, as text, in
    strictly ascending order (the one missing value when no record has a
    type), and stands at the first unless the user picks otherwise. *)
Theorem world_map_select_box `{NumberText} (df : DataFrame) (pick : option nat) :
  ISO ∈ columns df → TYPE ∈ columns df →
  ((∃ r, r ∈ rows df ∧ cell_at TYPE r = NaN)
   ∧ (∃ r, r ∈ rows df ∧ cell_at TYPE r ≠ NaN) →
   world_map_of_disasters df pick = Raise TypeError)
  ∧ (¬ ((∃ r, r ∈ rows df ∧ cell_at TYPE r = NaN)
        ∧ (∃ r, r ∈ rows df ∧ cell_at TYPE r ≠ NaN)) →
     ∃ types dt fig,
       world_map_of_disasters df pick
       = Ok (mkDF (columns df) (stringify <$> rows df),
             [Header "🌍 Disaster Distribution by Country";
              Selectbox "Select Disaster Type" types dt;
              PlotlyChart fig])
       ∧ StronglySorted (λ x y, cell_lt x y = true) types
       ∧ (∀ t, t ∈ types
               ↔ ∃ r, r ∈ rows df ∧ astype_str TYPE (cell_at TYPE r) = t)
       ∧ (pick = None → dt = head types)
       ∧ (rows df ≠ [] → ∃ t, dt = Some t ∧ t ∈ types)).
Proof.
  intros Hi Ht. rewrite (world_map_frame df Hi Ht).
  cbv zeta. rewrite (get_col_Ok (mkDF _ _) TYPE Ht). run. cbn [rows].
  split.
  - intros Hmix%mixed_map_types. by rewrite (sorted_mixed _ Hmix).
  - intros Hnot. destruct (map_types_sorted df Hnot) as [-> Hsorted]. run.
    set (types := stable_sort cell_lt _) in *.
    assert (Hmem : ∀ t, t ∈ types
                        ↔ ∃ r, r ∈ rows df
                               ∧ astype_str TYPE (cell_at TYPE r) = t).
    { intros t. unfold types.
      by rewrite elem_of_stable_sort, elem_of_map_types. }
    unfold groupby_size. rewrite get_col_Ok by exact Hi. run.
    eexists types, _, _. split_and!; [reflexivity|done|done| |].
    + intros ->. unfold selectbox. by rewrite head_lookup.
    + intros Hne. destruct (selectbox_Some types 0 pick) as [t Hsel].
      * destruct (rows df) as [|r rs] eqn:Hrows; [done|].
        assert (Hin : astype_str TYPE (cell_at TYPE r) ∈ types).
        { apply Hmem. exists r. split; [|done]. rewrite ?Hrows. left. }
        destruct types; [by apply elem_of_nil in Hin|simpl; lia].
      * exists t. split; [done|]. by eapply selectbox_elem_of.
Qed.

(** X9. What the world map colours.  For the selected type there is one
    location for every ISO code, as text, that a record of that type has,
    by strictly ascending code, and its count is the number of records of
    that type with that code.  A record whose ISO code is missing is at
    no location: [astype(str)] leaves the code missing and [groupby]
    drops it.  Over all locations the counts add up to the number of
    records of the selected type that have an ISO code. *)
Theorem world_map_counts `{NumberText} (df : DataFrame) (pick : option nat)
    df' out types dt locs count title :
  world_map_of_disasters df pick = Ok (df', out) →
  Selectbox "Select Disaster Type" types dt ∈ out →
  PlotlyChart (Choropleth locs count title) ∈ out →
  StronglySorted (λ x y, cell_lt x y = true) locs
  ∧ (∀ l, l ∈ locs ↔ ∃ r, r ∈ rows df ∧ located_at dt l r)
  ∧ (∀ l r, located_at dt l r → cell_at ISO r ≠ NaN)
  ∧ count = (λ l, length (filter (located_at dt l) (rows df))) <$> locs
  ∧ sum_list count
    = length (filter (λ r, dt = Some (astype_str TYPE (cell_at TYPE r))
                           ∧ cell_at TYPE r ≠ NaN ∧ cell_at ISO r ≠ NaN)
                (rows df))
  ∧ title = "Global Distribution of " +:+ fmt dt.
Proof.
  intros Hrun Hbox Hchart.
  assert (Hcols : ISO ∈ columns df ∧ TYPE ∈ columns df).
  { unfold world_map_of_disasters in Hrun.
    apply bind_Ok in Hrun as (iso & [Hi _]%get_col_Ok_inv & Hrun).
    apply bind_Ok in Hrun as (ts & [Ht _]%get_col_Ok_inv & _).
    split; [done|]. cbn [columns set_col] in Ht. by case_bool_decide. }
  destruct Hcols as [Hi Ht]. rewrite (world_map_frame df Hi Ht) in Hrun.
  cbv zeta in Hrun. rewrite (get_col_Ok (mkDF _ _) TYPE Ht) in Hrun.
  cbn [mbind result_bind rows] in Hrun.
  destruct (sorted (unique (cell_at TYPE <$> (stringify <$> rows df))))
    as [tys|e] eqn:Htys; [|done].
  cbn [mbind result_bind] in Hrun.
  set (sel := selectbox tys 0 pick) in Hrun.
  set (dff := select_rows (λ r, py_eq (cell_at TYPE r) sel)
                (mkDF (columns df) (stringify <$> rows df))) in Hrun.
  destruct (groupby_size_strings ISO dff) as (keys & Hg & Hsorted & Hnd & Hmem).
  { done. }
  { intros r' [_ Hr']%list_elem_of_filter. cbn [rows] in Hr'.
    apply list_elem_of_fmap in Hr' as (r & -> & _).
    rewrite cell_at_stringify_ISO. apply astype_str_kind. }
  rewrite Hg in Hrun. cbn [mbind result_bind mret result_ret] in Hrun.
  injection Hrun as _ <-.
  assert (types = tys ∧ dt = sel) as [-> ->].
  { revert Hbox. rewrite !elem_of_cons, elem_of_nil.
    by intros [[=]|[[= -> ->]|[[=]|[]]]]. }
  assert (Hmask : ∀ r, py_eq (cell_at TYPE (stringify r)) sel
                       ↔ sel = Some (astype_str TYPE (cell_at TYPE r))
                         ∧ cell_at TYPE r ≠ NaN).
  { intros r. rewrite py_eq_spec, cell_at_stringify_TYPE.
    rewrite (astype_str_NaN TYPE). tauto. }
  assert (Hlen : ∀ (P : row → Prop) `{!∀ r, Decision (P r)},
            length (filter P (rows dff))
            = length (filter (λ r, P (stringify r)
                                   ∧ sel = Some (astype_str TYPE (cell_at TYPE r))
                                   ∧ cell_at TYPE r ≠ NaN)
                        (rows df))).
  { intros P ?. unfold dff, select_rows. cbn [rows].
    rewrite list_filter_filter, filter_fmap, length_fmap.
    apply length_filter_iff. intros r _. by rewrite Hmask. }
  assert (Hcounts : (λ k, length (filter (λ r, cell_at ISO r = k) (rows dff))) <$> keys
                    = (λ l, length (filter (located_at sel l) (rows df))) <$> keys).
  { apply list_fmap_ext. intros _ k Hk%list_elem_of_lookup_2. rewrite Hlen.
    apply length_filter_iff. intros r _.
    rewrite cell_at_stringify_ISO. unfold located_at.
    apply Hmem in Hk as [Hk _]. split; [|tauto].
    intros (? & ? & ?). split_and!; done. }
  assert (locs = keys ∧ count = (λ l, length (filter (located_at sel l) (rows df))) <$> keys
          ∧ title = "Global Distribution of " +:+ fmt sel) as (-> & -> & ->).
  { revert Hchart. rewrite !elem_of_cons, elem_of_nil.
    intros [[=]|[[=]|[[= -> -> ->]|[]]]].
    rewrite <- !list_fmap_compose. split_and!; [|by rewrite <- Hcounts|done].
    rewrite <- (list_fmap_id keys) at 2. by apply list_fmap_ext. }
  split_and!; [done| | |done| |done].
  - intros l. rewrite Hmem. unfold dff, select_rows. cbn [rows]. split.
    + intros (Hl & r' & [Hm Hr']%list_elem_of_filter & <-).
      apply list_elem_of_fmap in Hr' as (r & -> & Hr).
      exists r. split; [done|]. apply Hmask in Hm as [Hsel Hty].
      rewrite cell_at_stringify_ISO in Hl |- *. by split_and!.
    + intros (r & Hr & Hsel & Hty & <- & Hl). split; [done|].
      exists (stringify r).
      rewrite cell_at_stringify_ISO. split; [|done].
      apply list_elem_of_filter. split; [by apply Hmask|].
      by apply list_elem_of_fmap_2.
  - intros l r (_ & _ & <- & Hl). by rewrite (astype_str_NaN ISO) in Hl.
  - rewrite <- Hcounts, (sum_group_sizes ISO keys (rows dff) Hnd).
    rewrite Hlen. apply length_filter_iff. intros r Hr.
    rewrite cell_at_stringify_ISO, Hmem.
    rewrite <- (astype_str_NaN ISO (cell_at ISO r)). split.
    + intros [[Hl _] [Hsel Hty]]. by split_and!.
    + intros (Hsel & Hty & Hl). split; [|done]. split; [done|].
      exists (stringify r). rewrite cell_at_stringify_ISO. split; [|done].
      unfold dff, select_rows. cbn [rows].
      apply list_elem_of_filter. split; [by apply Hmask|].
      by apply list_elem_of_fmap_2.
Qed.

(** ** The country select boxes *)

Lemma keep_nonblank_Ok l k :
  keep_nonblank l = Ok k → Forall (λ c, is_str c) l ∧ k = filter named l.
Proof.
  revert k. induction l as [|c l IH]; intros k; simpl.
  - by intros [= <-].
  - destruct c as [|s|z]; [done| |done].
    intros (rest & Hrest & Hk)%bind_Ok.
    destruct (IH rest Hrest) as [Hl ->]. split; [by constructor|].
    rewrite filter_cons.
    destruct (strip_is_empty s) eqn:Hs; injection Hk as <-.
    + rewrite decide_False; [done|]. cbn [named]. by rewrite Hs.
    + rewrite decide_True; [done|]. cbn [named]. by rewrite Hs.
Qed.

Lemma keep_nonblank_Raise l :
  ¬ Forall (λ c, is_str c) l → keep_nonblank l = Raise AttributeError.
Proof.
  induction l as [|c l IH]; simpl; [by intros []|].
  destruct c as [|s|z]; [done| |done].
  intros Hl. rewrite IH; [done|]. intros Hl'. apply Hl. by constructor.
Qed.

Lemma named_is_str c : named c → is_str c.
Proof. by destruct c. Qed.

Lemma named_ne_NaN c : named c → c ≠ NaN.
Proof. by destruct c. Qed.

(** The names offered on the country page (lines 191 to 193). *)
Lemma country_page_names df names :
  (col ← get_col df COUNTRY;
   country_list ← keep_nonblank (unique (series_dropna col));
   sorted country_list) = Ok names →
  StronglySorted (λ x y, cell_lt x y = true) names
  ∧ ∀ c, c ∈ names ↔ named c ∧ ∃ r, r ∈ rows df ∧ cell_at COUNTRY r = c.
Proof.
  intros (col & [_ ->]%get_col_Ok_inv & Hrun)%bind_Ok.
  apply bind_Ok in Hrun as (cl & [_ ->]%keep_nonblank_Ok & Hs).
  apply sorted_Ok_eq in Hs as ->. split.
  - apply stable_sort_strict; [apply NoDup_filter, NoDup_unique|].
    left. apply Forall_forall. intros c [Hc _]%list_elem_of_filter.
    by apply named_is_str.
  - intros c.
    rewrite elem_of_stable_sort, list_elem_of_filter, elem_of_unique.
    rewrite elem_of_series_dropna, list_elem_of_fmap. split.
    + intros (Hn & _ & r & -> & Hr). split; [done|]. by exists r.
    + intros (Hn & r & Hr & <-). split; [done|].
      split; [by apply named_ne_NaN|]. by exists r.
Qed.

(** X10. The country page offers "All Countries" followed by every country
    name of the table that is not blank, once each, in strictly ascending
    order; the box always has a value; and whenever a country is selected,
    the table shown has at least one row. *)
Theorem country_page_options (df : DataFrame) (pick : option nat) df' out :
  country_wise_data_page df pick = Ok (df', out) →
  ∃ names sel shown,
    out = [Selectbox "Select Country:" (Str ALL_COUNTRIES :: names) sel;
           Dataframe shown]
    ∧ StronglySorted (λ x y, cell_lt x y = true) names
    ∧ (∀ c, c ∈ names ↔ named c ∧ ∃ r, r ∈ rows df ∧ cell_at COUNTRY r = c)
    ∧ (∃ c, sel = Some c ∧ (c = Str ALL_COUNTRIES ∨ c ∈ names))
    ∧ (sel ≠ Some (Str ALL_COUNTRIES) → rows shown ≠ []).
Proof.
  intros Hrun. unfold country_wise_data_page in Hrun.
  assert (Hnames : ∃ names,
    (col ← get_col df COUNTRY;
     country_list ← keep_nonblank (unique (series_dropna col));
     sorted country_list) = Ok names
    ∧ out = [Selectbox "Select Country:" (Str ALL_COUNTRIES :: names)
               (selectbox (Str ALL_COUNTRIES :: names) 0 pick);
             Dataframe
               (if negb (bool_decide (selectbox (Str ALL_COUNTRIES :: names) 0 pick
                                      = Some (Str ALL_COUNTRIES)))
                then select_rows
                       (λ r, py_eq (cell_at COUNTRY r)
                               (selectbox (Str ALL_COUNTRIES :: names) 0 pick)) df
                else df)]).
  { apply bind_Ok in Hrun as (col & Hcol & Hrun).
    apply bind_Ok in Hrun as (cl & Hcl & Hrun).
    apply bind_Ok in Hrun as (names & Hnames & Hrun).
    exists names. rewrite Hcol. run. rewrite Hcl. run.
    split; [done|]. by injection Hrun as _ <-. }
  destruct Hnames as (names & Hnames & ->).
  apply country_page_names in Hnames as [Hsorted Hmem].
  destruct (selectbox_Some (Str ALL_COUNTRIES :: names) 0 pick) as [c Hc];
    [simpl; lia|].
  pose proof (selectbox_elem_of _ _ _ _ Hc) as Hin.
  rewrite Hc.
  eexists names, (Some c), _. split_and!; [reflexivity|done|done| |].
  - exists c. split; [done|]. by apply elem_of_cons in Hin.
  - intros Hne. rewrite bool_decide_eq_false_2 by done. cbn [negb].
    apply elem_of_cons in Hin as [->|Hin]; [done|].
    apply Hmem in Hin as (Hn & r & Hr & <-).
    unfold select_rows. cbn [rows]. intros Hnil.
    assert (Hr' : r ∈ filter (λ r0 : row,
                    py_eq (cell_at COUNTRY r0) (Some (cell_at COUNTRY r))) (rows df)).
    { apply list_elem_of_filter. split; [|done].
      apply py_eq_spec. split; [by apply named_ne_NaN|done]. }
    rewrite Hnil in Hr'. by apply elem_of_nil in Hr'.
Qed.

Lemma StronglySorted_filter {A} (R : relation A) (P : A → Prop)
    `{!∀ x, Decision (P x)} (l : list A) :
  StronglySorted R l → StronglySorted R (filter P l).
Proof.
  induction 1 as [|x l Hl IH Hx]; [constructor|].
  rewrite filter_cons. case_decide; [|done].
  constructor; [done|]. apply Forall_forall.
  intros y [_ Hy]%list_elem_of_filter. rewrite Forall_forall in Hx. by apply Hx.
Qed.

(** The names offered by the pie chart of one country (lines 244 and
    245). *)
Lemma country_pie_names df pick cl sel dff :
  country_pie_filtered df pick = Ok (cl, sel, dff) →
  StronglySorted (λ x y, cell_lt x y = true) cl
  ∧ (∀ c, c ∈ cl ↔ named c ∧ ∃ r, r ∈ rows df ∧ cell_at COUNTRY r = c)
  ∧ sel = selectbox cl 0 pick
  ∧ dff = select_rows (λ r, py_eq (cell_at COUNTRY r) sel) df.
Proof.
  unfold country_pie_filtered.
  intros (col & [_ ->]%get_col_Ok_inv & Hrun)%bind_Ok.
  apply bind_Ok in Hrun as (s0 & Hs & Hrun).
  apply bind_Ok in Hrun as (k & [Hstr ->]%keep_nonblank_Ok & Hrun).
  apply sorted_Ok_eq in Hs as ->. injection Hrun as <- <- <-.
  split_and!; [| |done|done].
  - set (l := unique (series_dropna (cell_at COUNTRY <$> rows df))) in *.
    assert (Hl : Forall (λ c, is_str c) l) by by rewrite stable_sort_perm in Hstr.
    apply StronglySorted_filter.
    apply (stable_sort_strict l (NoDup_unique _) (or_introl Hl)).
  - intros c.
    rewrite list_elem_of_filter, elem_of_stable_sort, elem_of_unique.
    rewrite elem_of_series_dropna, list_elem_of_fmap. split.
    + intros (Hn & _ & r & -> & Hr). split; [done|]. by exists r.
    + intros (Hn & r & Hr & <-). split; [done|].
      split; [by apply named_ne_NaN|]. by exists r.
Qed.

(** X11. The warning of the pie chart of one country appears exactly when
    the table names no country at all, and then it reads "No disaster data
    available for None.": the select box is empty and its value is
    [None].  Whenever a country is offered, the one selected has records,
    so the branch of line 251 is never taken for a named country.  The
    box offers the non-blank country names once each in strictly ascending
    order and stands at the first unless the user picks otherwise. *)
Theorem country_pie_warns_only_without_countries
    (df : DataFrame) (pick : option nat) df' out :
  pie_chart_disaster_type_by_country df pick = Ok (df', out) →
  ((∃ s, Warning s ∈ out) ↔ ∀ r, r ∈ rows df → ¬ named (cell_at COUNTRY r))
  ∧ (∀ s, Warning s ∈ out →
       out = [Header "🌍 Disaster Types by Country";
              Selectbox "Select a Country" [] None;
              Warning "No disaster data available for None."])
  ∧ ∃ names sel,
      Selectbox "Select a Country" names sel ∈ out
      ∧ StronglySorted (λ x y, cell_lt x y = true) names
      ∧ (∀ c, c ∈ names ↔ named c ∧ ∃ r, r ∈ rows df ∧ cell_at COUNTRY r = c)
      ∧ (pick = None → sel = head names).
Proof.
  unfold pie_chart_disaster_type_by_country.
  intros ([[cl sel] dff] & Hf & Hrun)%bind_Ok.
  destruct (country_pie_names _ _ _ _ _ Hf) as (Hsorted & Hmem & Hsel & Hdff).
  assert (Hrows : rows dff = [] ↔ cl = []).
  { split.
    - intros Hnil. destruct cl as [|c0 cl]; [done|]. exfalso.
      destruct (selectbox_Some (c0 :: cl) 0 pick) as [c Hc]; [simpl; lia|].
      pose proof (selectbox_elem_of _ _ _ _ Hc) as Hin.
      apply Hmem in Hin as (Hn & r & Hr & <-).
      assert (Hr' : r ∈ rows dff).
      { rewrite Hdff. unfold select_rows. cbn [rows].
        apply list_elem_of_filter. split; [|done].
        rewrite Hsel, Hc. apply py_eq_spec.
        split; [by apply named_ne_NaN|done]. }
      rewrite Hnil in Hr'. by apply elem_of_nil in Hr'.
    - intros ->. rewrite Hdff, Hsel. unfold select_rows. cbn [rows].
      apply filter_none. intros r _. unfold selectbox. rewrite lookup_nil.
      rewrite py_eq_spec. by intros [_ [=]]. }
  assert (Hnone : cl = [] ↔ ∀ r, r ∈ rows df → ¬ named (cell_at COUNTRY r)).
  { split.
    - intros -> r Hr Hn.
      assert (Hin : cell_at COUNTRY r ∈ @nil cell)
        by (apply Hmem; split; [done|by exists r]).
      by apply elem_of_nil in Hin.
    - intros Hall. destruct cl as [|c cl]; [done|]. exfalso.
      destruct (proj1 (Hmem c) (list_elem_of_here _ _)) as (Hn & r & Hr & <-).
      by apply (Hall r Hr). }
  assert (Hbox : ∃ last,
    out = [Header "🌍 Disaster Types by Country";
           Selectbox "Select a Country" cl sel; last]
    ∧ (cl = [] ∧ last = Warning (NO_DATA sel)
       ∨ cl ≠ [] ∧ ∃ fig, last = Pyplot fig)).
  { destruct (rows dff) as [|r rs] eqn:Hr.
    - injection Hrun as _ <-. eexists. split; [done|]. left.
      split; [by apply Hrows|done].
    - apply bind_Ok in Hrun as (ts & _ & Hrun).
      apply bind_Ok in Hrun as (fig & _ & Hrun). injection Hrun as _ <-.
      eexists. split; [done|]. right. split; [|by eexists].
      intros Hcl. by apply Hrows in Hcl. }
  destruct Hbox as (last & -> & Hlast). split_and!.
  - rewrite <- Hnone. split.
    + intros (s & Hs). revert Hs. rewrite !elem_of_cons, elem_of_nil.
      intros [[=]|[[=]|[Hs|[]]]].
      destruct Hlast as [[? _]|[_ [fig ->]]]; [done|discriminate Hs].
    + intros Hcl. destruct Hlast as [[_ ->]|[? _]]; [|done].
      eexists. do 2 apply list_elem_of_further. apply list_elem_of_here.
  - intros s. rewrite !elem_of_cons, elem_of_nil.
    intros [[=]|[[=]|[Hs|[]]]].
    destruct Hlast as [[-> ->]|[_ [fig ->]]]; [|discriminate Hs].
    by rewrite Hsel.
  - exists cl, sel. split_and!; [|done|done|].
    + apply list_elem_of_further, list_elem_of_here.
    + intros ->. rewrite Hsel. unfold selectbox. by rewrite head_lookup.
Qed.

(** X12. A country cell that holds a number breaks both country renderers,
    in different ways.  The country page calls [strip] on it and raises
    [AttributeError].  The pie chart of one country sorts the countries
    first: it raises [TypeError] when the column also holds a text, and
    [AttributeError] from [strip] when it holds numbers only. *)
Theorem country_number_raises (df : DataFrame) (pick : option nat) :
  COUNTRY ∈ columns df →
  (∃ r, r ∈ rows df ∧ is_num (cell_at COUNTRY r)) →
  country_wise_data_page df pick = Raise AttributeError
  ∧ pie_chart_disaster_type_by_country df pick
    = Raise (if decide (Exists (λ r, is_str (cell_at COUNTRY r)) (rows df))
             then TypeError else AttributeError).
Proof.
  intros Hc (r & Hr & Hnum).
  set (l := unique (series_dropna (cell_at COUNTRY <$> rows df))).
  assert (Hin : cell_at COUNTRY r ∈ l).
  { unfold l. rewrite elem_of_unique, elem_of_series_dropna.
    split; [by destruct (cell_at COUNTRY r)|]. by apply list_elem_of_fmap_2. }
  assert (Hnot : ∀ l', l' ≡ₚ l → ¬ Forall (λ c, is_str c) l').
  { intros l' Hl' Hall. rewrite Hl' in Hall. rewrite Forall_forall in Hall.
    specialize (Hall _ Hin). by destruct (cell_at COUNTRY r). }
  split.
  - unfold country_wise_data_page. rewrite (get_col_Ok _ _ Hc). run.
    fold l. by rewrite (keep_nonblank_Raise l (Hnot l (reflexivity _))).
  - unfold pie_chart_disaster_type_by_country, country_pie_filtered.
    rewrite (get_col_Ok _ _ Hc). run. fold l.
    case_decide as Hex.
    + rewrite (sorted_mixed l); [done|].
      apply Exists_exists in Hex as (r' & Hr' & Hstr).
      exists (cell_at COUNTRY r'), (cell_at COUNTRY r). split_and!; [|done|done|].
      * unfold l. rewrite elem_of_unique, elem_of_series_dropna.
        split; [by destruct (cell_at COUNTRY r')|]. by apply list_elem_of_fmap_2.
      * destruct (cell_at COUNTRY r); simpl in *; tauto.
    + rewrite (sorted_one_kind l).
      * run. by rewrite (keep_nonblank_Raise _ (Hnot _ (stable_sort_perm _ _))).
      * right. apply Forall_forall. intros a Ha.
        unfold l in Ha. rewrite elem_of_unique, elem_of_series_dropna in Ha.
        destruct Ha as [Hna (r' & -> & Hr')%list_elem_of_fmap].
        destruct (cell_at COUNTRY r') eqn:Hv; [done| |done].
        exfalso. apply Hex, Exists_exists. exists r'. by rewrite Hv.
Qed.

(** ** The bars of the impact chart together *)

Lemma sum_Z_perm (l1 l2 : list Z) : l1 ≡ₚ l2 → sum_Z l1 = sum_Z l2.
Proof.
  induction 1 as [|x l1 l2 _ IH|x y l|l1 l2 l3 _ IH1 _ IH2]; simpl; lia.
Qed.

Lemma filter_iff_elem {A} (P Q : A → Prop) `{!∀ x, Decision (P x)}
    `{!∀ x, Decision (Q x)} (l : list A) :
  (∀ x, x ∈ l → P x ↔ Q x) → filter P l = filter Q l.
Proof.
  induction l as [|x l IH]; [done|]. intros HPQ.
  rewrite !filter_cons.
  pose proof (HPQ x (list_elem_of_here _ _)) as Hx.
  rewrite IH by (intros y Hy; apply HPQ; by apply list_elem_of_further).
  destruct (decide (P x)), (decide (Q x)); tauto.
Qed.

Lemma sum_Z_cons x l : sum_Z (x :: l) = (x + sum_Z l)%Z.
Proof. done. Qed.

Lemma sum_Z_groups (f : row → Z) (C : row → Prop) `{!∀ r, Decision (C r)}
    (keys : list cell) (rs : list row) :
  NoDup keys →
  sum_Z ((λ g, sum_Z (f <$> filter (λ r, cell_at TYPE r = g ∧ C r) rs)) <$> keys)
  = sum_Z (f <$> filter (λ r, cell_at TYPE r ∈ keys ∧ C r) rs).
Proof.
  induction 1 as [|g keys Hg Hnd IH].
  - rewrite (filter_none _ rs); [done|]. intros r _ [?%elem_of_nil _]. done.
  - rewrite fmap_cons, sum_Z_cons, IH. clear IH.
    induction rs as [|r rs IHrs]; [done|].
    rewrite !filter_cons.
    destruct (decide (C r)) as [Hc|Hc].
    + destruct (decide (cell_at TYPE r = g)) as [Heq|Hne].
      * rewrite (decide_True (P := cell_at TYPE r = g ∧ C r)) by done.
        rewrite (decide_True (P := cell_at TYPE r ∈ g :: keys ∧ C r))
          by (split; [rewrite Heq; left|done]).
        rewrite (decide_False (P := cell_at TYPE r ∈ keys ∧ C r))
          by (rewrite Heq; tauto).
        rewrite !fmap_cons, !sum_Z_cons. lia.
      * rewrite (decide_False (P := cell_at TYPE r = g ∧ C r)) by tauto.
        destruct (decide (cell_at TYPE r ∈ keys)) as [Hin|Hnin].
        -- rewrite (decide_True (P := cell_at TYPE r ∈ g :: keys ∧ C r))
             by (split; [by right|done]).
           rewrite (decide_True (P := cell_at TYPE r ∈ keys ∧ C r)) by done.
           rewrite !fmap_cons, !sum_Z_cons. lia.
        -- rewrite (decide_False (P := cell_at TYPE r ∈ g :: keys ∧ C r))
             by (rewrite elem_of_cons; tauto).
           rewrite (decide_False (P := cell_at TYPE r ∈ keys ∧ C r)) by tauto.
           done.
    + rewrite (decide_False (P := cell_at TYPE r = g ∧ C r)) by tauto.
      rewrite (decide_False (P := cell_at TYPE r ∈ g :: keys ∧ C r)) by tauto.
      rewrite (decide_False (P := cell_at TYPE r ∈ keys ∧ C r)) by tauto.
      done.
Qed.

Lemma groups_with_values {A} (F : cell → A) (grouped : list (cell * A)) :
  (∀ g w, (g, w) ∈ grouped → w = F g) → grouped.*2 = F <$> grouped.*1.
Proof.
  induction grouped as [|[g w] grouped IH]; [done|]. intros HF.
  rewrite !fmap_cons. cbn [fst snd].
  rewrite (HF g w (list_elem_of_here _ _)).
  rewrite IH; [done|]. intros g' w' Hin. by apply HF, list_elem_of_further.
Qed.

(** X13. The bars of the impact chart add up to the total of the selected
    metric over every record that has a disaster type and whose cell
    reads as a number: each such record is in exactly one bar.  Records
    without a disaster type are in no bar.  The title names the label
    selected in the box.  (Every bar of a run that returns is an exact
    total, see [column_sum]; the sum over the bars is taken here, not by
    the code.) *)
Theorem bar_chart_total `{NumberParser}
    (df : DataFrame) (pick : option nat) df' out ys widths title :
  bar_chart_disaster_vs_impact df pick = Ok (df', out) →
  Pyplot (BarH ys widths title) ∈ out →
  ∃ label m,
    (label, m) ∈ impact_metrics
    ∧ Selectbox "Select Impact Metric" (Str <$> impact_metrics.*1)
        (Some (Str label)) ∈ out
    ∧ title = "Total " +:+ label +:+ " by Disaster Type"
    ∧ length ys = length widths
    ∧ sum_Z widths
      = sum_over m (filter (λ r, cell_at TYPE r ≠ NaN ∧ coerces m r) (rows df)).
Proof.
  intros Hrun Hbar.
  apply bar_chart_run in Hrun
    as (label & m & dff & grouped & _ & Hin & Hne & Hf & Hg & ->).
  destruct (groupby_sum_bar _ _ _ _ _ Hne Hf Hg) as (Hnd & Hkeys & Hsum).
  cbv zeta in Hbar. rewrite !elem_of_cons, elem_of_nil in Hbar.
  destruct Hbar as [[=]|[[=]|[Hbar|[]]]]. injection Hbar as -> -> ->.
  exists label, m. split_and!; [done| |done| |].
  - apply list_elem_of_further, list_elem_of_here.
  - by rewrite !length_fmap.
  - rewrite (sum_Z_perm _ (grouped.*2))
      by (by rewrite (stable_sort_perm _ grouped)).
    rewrite (groups_with_values _ grouped Hsum).
    unfold sum_over.
    rewrite (sum_Z_groups (coerced_value m) (coerces m) grouped.*1 (rows df) Hnd).
    f_equal. f_equal. apply filter_iff_elem. intros r Hr. rewrite Hkeys. split.
    + tauto.
    + intros [Hn Hc]. split; [|done]. split; [done|]. by exists r.
Qed.

(** ** Tick labels *)

Lemma append_k_nonempty t : "" ≠ t +:+ "k".
Proof. by destruct t. Qed.

Lemma no_k_String c s :
  c ≠ "k"%char → (∀ t, s ≠ t +:+ "k") → ∀ t, String c s ≠ t +:+ "k".
Proof.
  intros Hc Hs [|a t]; simpl; intros [= ? ?]; [done|]. by eapply Hs.
Qed.

Lemma pretty_N_char_ne_k n : pretty_N_char n ≠ "k"%char.
Proof. unfold pretty_N_char. by repeat case_match. Qed.

Lemma pretty_N_go_ne_k x s :
  (∀ t, s ≠ t +:+ "k") → ∀ t, pretty_N_go x s ≠ t +:+ "k".
Proof.
  revert s. induction (N.lt_wf_0 x) as [x _ IH]. intros s Hs.
  assert (x = 0 ∨ 0 < x)%N as [->|Hx] by lia.
  - by rewrite pretty_N_go_0.
  - rewrite pretty_N_go_step by done. apply IH.
    + by apply N.div_lt.
    + apply no_k_String; [apply pretty_N_char_ne_k|done].
Qed.

(** The decimal text of a number does not end in "k". *)
Lemma pretty_Z_ne_k (x : Z) t : pretty x ≠ t +:+ "k".
Proof.
  assert (HN : ∀ (n : N) t, pretty n ≠ t +:+ "k").
  { intros n t'. unfold pretty, pretty_N. case_decide.
    - by apply no_k_String; [|apply append_k_nonempty].
    - apply pretty_N_go_ne_k, append_k_nonempty. }
  destruct x as [|p|p]; unfold pretty, pretty_Z.
  - by apply no_k_String; [|apply append_k_nonempty].
  - apply HN.
  - apply no_k_String; [done|]. apply HN.
Qed.

Lemma append_k_inj s t : s +:+ "k" = t +:+ "k" → s = t.
Proof.
  revert t. induction s as [|a s IH]; intros [|b t]; simpl; try done.
  - intros [= _ Ht]. by destruct (append_k_nonempty t).
  - intros [= _ Hs]. by destruct (append_k_nonempty s).
  - intros [= -> Hst]. f_equal. by apply IH.
Qed.

(** X14. Tick labels of the bar chart, for ticks that are whole numbers
    below [2 ^ 53].  From 1000 on, [format_k] cuts a tick down to its
    whole thousands (it does not round) and appends "k"; below 1000 it
    prints the tick itself.  Hence two ticks get the same label exactly
    when they are equal or both lie in the same thousand from 1000 on:
    1000 and 1999 are both labelled "1k", and no label below 1000 is ever
    confused with one above. *)
Theorem format_k_same_label (x y : Z) :
  in_range x → in_range y →
  ∃ label_x label_y,
    format_k x = Ok label_x ∧ format_k y = Ok label_y
    ∧ (label_x = label_y
       ↔ x = y ∨ (1000 ≤ x ∧ 1000 ≤ y ∧ x / 1000 = y / 1000)%Z).
Proof.
  intros Hx%Is_true_true Hy%Is_true_true. unfold format_k.
  rewrite Hx, Hy. run. eexists _, _. split_and!; [done|done|].
  clear Hx Hy.
  destruct (Z.leb_spec 1000 x) as [Hx|Hx], (Z.leb_spec 1000 y) as [Hy|Hy].
  - split.
    + intros Heq%append_k_inj%(inj pretty). tauto.
    + intros [->|(_ & _ & ->)]; done.
  - split; [|intros [->|?]; lia].
    intros Heq. symmetry in Heq. by apply pretty_Z_ne_k in Heq.
  - split; [|intros [->|?]; lia]. intros Heq. by apply pretty_Z_ne_k in Heq.
  - split; [|intros [->|?]; [done|lia]]. intros Heq%(inj pretty). by left.
Qed.

(** ** Missing columns *)

Lemma get_col_Raise df c : c ∉ columns df → get_col df c = Raise (KeyError c).
Proof. intros Hc. unfold get_col. by rewrite bool_decide_eq_false_2. Qed.

(** X15. A column the records never had.  [json_normalize] makes a column
    only for fields that occur in some record, and every renderer but the
    table view reads its columns before anything else, so a missing
    column surfaces as the [KeyError] of the first column read: the
    disaster type for the pie chart and the comparison table, the start
    year and then the type for the trend chart, the country for both
    country renderers, the ISO code and then the type for the world map,
    the selected metric and then the type for the bar chart.  On a table
    without any column, which is what an empty collection gives, every
    page of the dashboard ends in a [KeyError].  (The trend chart and the
    bar chart coerce a column before they read the type: the start years,
    resp. the cells of the metric, are taken to read as whole numbers
    below [2 ^ 53] or as no number.) *)
Theorem missing_column_raises_KeyError `{NumberParser} `{NumberText}
    (df : DataFrame) :
  (TYPE ∉ columns df →
     pie_chart_disaster_type df = Raise (KeyError TYPE)
     ∧ (∀ pa pb, disaster_impact_comparison_table df pa pb = Raise (KeyError TYPE))
     ∧ (∀ ps pe pt, YEAR ∈ columns df → readable_column YEAR df →
          line_graph_disaster_trend df ps pe pt = Raise (KeyError TYPE))
     ∧ (∀ pick, ISO ∈ columns df →
          world_map_of_disasters df pick = Raise (KeyError TYPE))
     ∧ (∀ pick label m, bar_metric pick = (label, Ok m) → m ∈ columns df →
          readable_column m df →
          bar_chart_disaster_vs_impact df pick = Raise (KeyError TYPE)))
  ∧ (YEAR ∉ columns df →
     ∀ ps pe pt, line_graph_disaster_trend df ps pe pt = Raise (KeyError YEAR))
  ∧ (COUNTRY ∉ columns df →
     ∀ pick, country_wise_data_page df pick = Raise (KeyError COUNTRY)
             ∧ pie_chart_disaster_type_by_country df pick
               = Raise (KeyError COUNTRY))
  ∧ (ISO ∉ columns df →
     ∀ pick, world_map_of_disasters df pick = Raise (KeyError ISO))
  ∧ (∀ pick label m, bar_metric pick = (label, Ok m) → m ∉ columns df →
       bar_chart_disaster_vs_impact df pick = Raise (KeyError m))
  ∧ (columns df = [] → ∀ t w, ∃ c, sidebar df t w = Raise (KeyError c)).
Proof.
  split_and!.
  - intros Ht. split_and!.
    + unfold pie_chart_disaster_type. by rewrite (get_col_Raise _ _ Ht).
    + intros pa pb. unfold disaster_impact_comparison_table, comparison_types.
      by rewrite (get_col_Raise _ _ Ht).
    + intros ps pe pt Hy Hread. unfold line_graph_disaster_trend.
      rewrite (trend_clean_rows df Hy Hread). run. unfold trend_widgets.
      rewrite (get_col_Ok (mkDF _ _) YEAR Hy). run. cbn [rows].
      destruct (trend_years df) as (years & -> & _). run.
      by rewrite (get_col_Raise (mkDF _ _) TYPE Ht).
    + intros pick Hi. unfold world_map_of_disasters.
      rewrite (get_col_Ok _ _ Hi). run. rewrite (set_col_own _ _ _ Hi).
      by rewrite (get_col_Raise (mkDF _ _) TYPE Ht).
    + intros pick label m Hm Hin Hread. unfold bar_chart_disaster_vs_impact.
      rewrite Hm. run.
      destruct (bar_filtered_total m df Hin Hread) as (dff & -> & Hcols). run.
      unfold groupby_sum.
      assert (Ht' : TYPE ∉ columns dff) by (by rewrite Hcols).
      by rewrite (get_col_Raise dff TYPE Ht').
  - intros Hy ps pe pt. unfold line_graph_disaster_trend, trend_clean.
    by rewrite (get_col_Raise _ _ Hy).
  - intros Hc pick. split.
    + unfold country_wise_data_page. by rewrite (get_col_Raise _ _ Hc).
    + unfold pie_chart_disaster_type_by_country, country_pie_filtered.
      by rewrite (get_col_Raise _ _ Hc).
  - intros Hi pick. unfold world_map_of_disasters.
    by rewrite (get_col_Raise _ _ Hi).
  - intros pick label m Hm Hin. unfold bar_chart_disaster_vs_impact.
    rewrite Hm. run. unfold bar_filtered. by rewrite (get_col_Raise _ _ Hin).
  - intros Hnil t w.
    assert (Hno : ∀ c, c ∉ columns df).
    { intros c. rewrite Hnil. apply not_elem_of_nil. }
    destruct t; unfold sidebar.
    + exists TYPE. unfold show_df_table. run.
      unfold pie_chart_disaster_type. by rewrite (get_col_Raise _ _ (Hno _)).
    + destruct (bar_metric_Ok (pick_metric w)) as (label & m & Hm & _).
      exists m. unfold bar_chart_disaster_vs_impact. rewrite Hm. run.
      unfold bar_filtered. by rewrite (get_col_Raise _ _ (Hno _)).
    + exists COUNTRY. unfold country_wise_data_page.
      by rewrite (get_col_Raise _ _ (Hno _)).
Qed.

(** ** Two ways to the same chart *)

(** X16. The pie chart of one country is the pie chart of the whole table
    restricted to the records of that country: although the first takes
    its ten largest slices with [nlargest(10)] and the second with
    [[:10]], both hand [ax.pie] the same labels and the same sizes. *)
Theorem country_pie_is_pie_of_its_records
    (df : DataFrame) (pick : option nat) df' out labels sizes title :
  pie_chart_disaster_type_by_country df pick = Ok (df', out) →
  Pyplot (Pie labels sizes title) ∈ out →
  ∃ names c,
    Selectbox "Select a Country" names (Some c) ∈ out
    ∧ named c
    ∧ title = "Disaster Types in " +:+ fmt (Some c)
    ∧ let records :=
        mkDF (columns df) (filter (λ r, cell_at COUNTRY r = c) (rows df)) in
      rows records ≠ []
      ∧ pie_chart_disaster_type records
        = Ok (records,
              [Header (String (ascii_of_nat 10) "🥧 Disaster Type Distribution");
               Pyplot (Pie labels sizes "")]).
Proof.
  unfold pie_chart_disaster_type_by_country.
  intros ([[cl sel] dff] & Hf & Hrun)%bind_Ok Hpie.
  destruct (country_pie_names _ _ _ _ _ Hf) as (_ & Hmem & Hsel & Hdff).
  destruct (rows dff) as [|r0 rs] eqn:Hrows.
  { injection Hrun as _ <-. revert Hpie.
    rewrite !elem_of_cons, elem_of_nil. by intros [[=]|[[=]|[[=]|[]]]]. }
  apply bind_Ok in Hrun as (ts & [Ht ->]%get_col_Ok_inv & Hrun).
  rewrite Hrows in Hrun.
  set (col := cell_at TYPE <$> r0 :: rs) in *.
  destruct (country_pie_slices (value_counts col)) as [Hl Hs].
  cbv zeta in Hl, Hs. rewrite Hl, Hs in Hrun. clear Hl Hs.
  apply bind_Ok in Hrun as (fig & [-> Hne]%ax_pie_Ok_inv & Hrun).
  injection Hrun as _ <-.
  revert Hpie. rewrite !elem_of_cons, elem_of_nil.
  intros [[=]|[[=]|[Hpie|[]]]]. injection Hpie as -> -> ->.
  destruct sel as [c|].
  2:{ rewrite Hdff in Hrows. unfold select_rows in Hrows. cbn [rows] in Hrows.
      rewrite filter_none in Hrows; [done|].
      intros r _. rewrite py_eq_spec. by intros [_ [=]]. }
  assert (Hc : named c).
  { symmetry in Hsel. apply selectbox_elem_of, Hmem in Hsel. tauto. }
  assert (Hsame : dff = mkDF (columns df)
                          (filter (λ r, cell_at COUNTRY r = c) (rows df))).
  { rewrite Hdff. unfold select_rows. f_equal. apply list_filter_iff.
    intros r. rewrite py_eq_spec. split.
    - by intros [_ [= ->]].
    - intros ->. split; [by apply named_ne_NaN|done]. }
  exists cl, c. split; [apply list_elem_of_further, list_elem_of_here|].
  split; [done|]. split; [done|]. cbv zeta. rewrite <- Hsame. split; [by rewrite Hrows|].
  unfold pie_chart_disaster_type. rewrite (get_col_Ok _ _ Ht). run.
  rewrite nlargest_value_counts. rewrite Hrows. fold col.
  by rewrite (ax_pie_Ok _ _ "" Hne).
Qed.

(** ** Line 151 *)

Lemma numbers_without_empty_rows m (P : row → Prop)
    `{!∀ r, Decision (P r)} (rs : list row) :
  m ∈ metrics →
  numbers (cell_at m
             <$> filter P (filter (λ r : row,
                                     existsb (λ c, notna (cell_at c r)) metrics) rs))
  = numbers (cell_at m <$> filter P rs).
Proof.
  intros Hm. induction rs as [|r rs IH]; [done|].
  rewrite (filter_cons _ r rs).
  destruct (decide (existsb (λ c, notna (cell_at c r)) metrics)) as [He|He].
  - rewrite !filter_cons. destruct (decide (P r)); [|done].
    rewrite !fmap_cons. unfold numbers in *. cbn [omap list_omap].
    by rewrite IH.
  - rewrite IH, filter_cons. destruct (decide (P r)); [|done].
    rewrite fmap_cons. unfold numbers. cbn [omap list_omap].
    assert (Hna : cell_at m r = NaN).
    { destruct (cell_at m r) eqn:Hv; [done|exfalso..]; apply He;
        apply Is_true_true, existsb_exists; exists m;
        (split; [by apply list_elem_of_In|by rewrite Hv]). }
    by rewrite Hna.
Qed.

Lemma mapM_ext {A B} (f g : A → result B) (l : list A) :
  (∀ x, x ∈ l → f x = g x) → mapM f l = mapM g l.
Proof.
  induction l as [|x l IH]; [done|]. intros Hfg. cbn [mapM].
  rewrite (Hfg x (list_elem_of_here _ _)), IH; [done|].
  intros y Hy. by apply Hfg, list_elem_of_further.
Qed.

(** X17. Line 151, which drops the records that have none of the eight
    metrics, does not change the comparison table: every mean of lines 169
    to 173 is the same on the frame before and after the drop, since a
    record without any metric adds nothing to a mean. *)
Theorem comparison_dropna_changes_no_mean
    (df0 df1 : DataFrame) (d : scalar) :
  dropna metrics how_all df0 = Ok df1 →
  averages d df1 = averages d df0.
Proof.
  intros Hdrop. unfold dropna in Hdrop.
  apply bind_Ok in Hdrop as (cols & _ & [= <-]).
  unfold averages, select_rows. cbn [rows].
  apply mapM_ext. intros m Hm.
  unfold mean_filled.
  by rewrite (numbers_without_empty_rows m _ (rows df0) Hm).
Qed.

(** * The theorems at work on the sample tables *)

#[local] Existing Instance decimal_parser.
#[local] Existing Instance integer_text.

Lemma pie_bucketing_witness :
  (∃ labels sizes,
     pie_chart_disaster_type sample
     = Ok (sample,
           [Header (String (ascii_of_nat 10) "🥧 Disaster Type Distribution");
            Pyplot (Pie labels sizes "")])
     ∧ length labels ≤ 11 ∧ sum_list sizes = 3)
  ∧ ∃ labels sizes,
      pie_chart_disaster_type_by_country sample None
      = Ok (sample,
            [Header "🌍 Disaster Types by Country";
             Selectbox "Select a Country" [Str "France"; Str "India"]
               (Some (Str "France"));
             Pyplot (Pie labels sizes "Disaster Types in France")])
      ∧ length labels ≤ 11 ∧ sum_list sizes = 2.
Proof.
  assert (Hty : TYPE ∈ columns sample) by apply list_elem_of_here.
  assert (Hc : COUNTRY ∈ columns sample)
    by (do 2 apply list_elem_of_further; apply list_elem_of_here).
  destruct (pie_bucketing_top10_plus_others sample) as (Hall & _ & Hone).
  split.
  - destruct (Hall Hty) as (labels & sizes & Hrun & _ & Hlen & _ & _ & Hsum & _).
    { exists (record (Str "Flood") (Str "2000") (Str "France") (Str "FRA")
                (Str "12")).
      split; [apply list_elem_of_here|]. vm_compute. discriminate. }
    exists labels, sizes. split_and!; [exact Hrun|exact Hlen|exact Hsum].
  - destruct (Hone None Hty Hc) as (cl & sel & Hf & Hdraw).
    { repeat constructor; vm_compute; tauto. }
    assert (Hsel : cl = [Str "France"; Str "India"] ∧ sel = Some (Str "France")).
    { assert (Hf' : country_pie_filtered sample None
                    = Ok ([Str "France"; Str "India"], Some (Str "France"),
                          select_rows
                            (λ r, py_eq (cell_at COUNTRY r) (Some (Str "France")))
                            sample))
        by (vm_compute; reflexivity).
      rewrite Hf' in Hf. by injection Hf as <- <-. }
    destruct Hsel as [-> ->].
    destruct Hdraw as (labels & sizes & Hrun & _ & Hlen & _ & _ & Hsum & _).
    { exists (record (Str "Flood") (Str "2000") (Str "France") (Str "FRA")
                (Str "12")).
      split; [|vm_compute; discriminate].
      apply (bool_decide_unpack _). vm_compute. exact I. }
    exists labels, sizes. split_and!; [exact Hrun|exact Hlen|exact Hsum].
Defined.

Lemma renderers_write_witness :
  let df' := mkDF sample_columns (coerce_year <$> rows sample) in
  fst <$> line_graph_disaster_trend sample None None None = Ok df'
  ∧ overwritten [YEAR] (λ _, whole) sample df'
  ∧ ∃ df'', fst <$> bar_chart_disaster_vs_impact sample (Some 1) = Ok df''
            ∧ overwritten ["impact_info.injured_number"] (λ _, whole) sample df''.
Proof.
  destruct (renderers_write_only_coerced_columns sample)
    as (_ & _ & _ & _ & Htrend & Hbar & _).
  cbv zeta. split_and!; [vm_compute; reflexivity| |].
  - apply (Htrend None None None _
             [Header "📈 Disaster Trend Line Graph";
              Selectbox "Select Start Year" [Num 2000; Num 2001] (Some (Num 2000));
              Selectbox "Select End Year" [Num 2000; Num 2001] (Some (Num 2001));
              Selectbox "Select Disaster Type" [Str "Flood"; Str "Storm"]
                (Some (Str "Flood"));
              Pyplot (Line [Num 2000; Num 2001] [1; 1]
                        "Trend of Flood from 2000 to 2001")]).
    vm_compute; reflexivity.
  - destruct (bar_chart_disaster_vs_impact sample (Some 1))
      as [[df'' out]|e] eqn:Hrun; [|vm_compute in Hrun; discriminate Hrun].
    exists df''. split; [reflexivity|].
    destruct (Hbar (Some 1) df'' out Hrun) as (label & m & Hm & _ & _ & Hw).
    vm_compute in Hm. by injection Hm as _ <-.
Defined.

Lemma flood_trend_witness :
  ∃ df',
    line_graph_disaster_trend three_floods None None None
    = Ok (df',
          [Header "📈 Disaster Trend Line Graph";
           Selectbox "Select Start Year" [Num 2000; Num 2001] (Some (Num 2000));
           Selectbox "Select End Year" [Num 2000; Num 2001] (Some (Num 2001));
           Selectbox "Select Disaster Type" [Str "Flood"] (Some (Str "Flood"));
           Pyplot (Line [Num 2000; Num 2001] [2; 1]
                     "Trend of Flood from 2000 to 2001")]).
Proof.
  apply (flood_trend_example sample_columns); try reflexivity.
  - apply list_elem_of_further, list_elem_of_here.
  - apply list_elem_of_here.
Defined.

Lemma comparison_witness :
  let out :=
    [Header "⚖️ Disaster Average Impact Comparison";
     Selectbox "Select Disaster A" [Str "Flood"; Str "Storm"] (Some (Str "Flood"));
     Selectbox "Select Disaster B" [Str "Storm"] (Some (Str "Storm"));
     Table (Some (Str "Flood"))
       (Avg (12 # 1) :: replicate 7 (Filled "nan")) average_impact
       (Some (Str "Storm"))
       (Avg (7 # 1) :: replicate 7 (Filled "nan"))] in
  snd <$> disaster_impact_comparison_table sample None None = Ok out
  ∧ ∀ types a, Selectbox "Select Disaster A" types a ∈ out →
      (∃ d, a = Some d ∧ d ∈ types)
      ∧ (∀ options b, Selectbox "Select Disaster B" options b ∈ out →
           (∀ d, a = Some d → d ∉ options) ∧ b ≠ a)
      ∧ (∀ a' avg_a impact b avg_b,
           Table a' avg_a impact b avg_b ∈ out → a' = a ∧ b ≠ a).
Proof.
  cbv zeta. split; [vm_compute; reflexivity|].
  apply (comparison_never_offers_a_as_b sample None None
           (mkDF sample_columns (coerce_row whole metrics <$> rows sample))).
  vm_compute; reflexivity.
Defined.


Lemma empty_selection_witness :
  line_graph_disaster_trend unrecorded None None None
  = Ok (mkDF sample_columns (coerce_year <$> rows unrecorded),
        [Header "📈 Disaster Trend Line Graph";
         Selectbox "Select Start Year" [] None;
         Selectbox "Select Disaster Type" [] None;
         Write "⚠️ No Records found."])
  ∧ pie_chart_disaster_type_by_country unrecorded None
    = Ok (unrecorded,
          [Header "🌍 Disaster Types by Country";
           Selectbox "Select a Country" [] None;
           Warning "No disaster data available for None."]).
Proof.
  destruct (empty_selection_warns unrecorded) as [Htrend Hpie].
  split.
  - apply (Htrend None None None _ (mkDF sample_columns [])
             [Selectbox "Select Start Year" [] None;
              Selectbox "Select Disaster Type" [] None]
             (mkChoice None None None));
      vm_compute; reflexivity.
  - apply (Hpie None [] None (mkDF sample_columns [])); vm_compute; reflexivity.
Defined.

Lemma comparison_guard_witness :
  disaster_impact_comparison_table unrecorded None None
  = Ok (unrecorded,
        [Header "⚖️ Disaster Average Impact Comparison";
         Warning "Not enough disaster types available for comparison."]).
Proof.
  apply comparison_guards_fewer_than_two.
  - apply list_elem_of_here.
  - vm_compute. lia.
Defined.

Lemma country_filter_witness :
  let out :=
    [Selectbox "Select Country:"
       [Str "All Countries"; Str "France"; Str "India"] (Some (Str "France"));
     Dataframe (mkDF sample_columns
                  [ record (Str "Flood") (Str "2000") (Str "France") (Str "FRA")
                      (Str "12");
                    record (Str "Flood") (Num 2001) (Str "France") NaN
                      (Str "n/a") ])] in
  country_wise_data_page sample (Some 1) = Ok (sample, out)
  ∧ ∃ options selected shown,
      out = [Selectbox "Select Country:" options selected; Dataframe shown]
      ∧ (Some 1 = None → selected = Some (Str "All Countries"))
      ∧ (selected = Some (Str "All Countries") → shown = sample)
      ∧ (∀ c, selected = Some c → c ≠ Str "All Countries" →
           columns shown = columns sample
           ∧ rows shown = filter (λ r, cell_at COUNTRY r = c) (rows sample)).
Proof.
  destruct (country_filter_identity_or_exact sample (Some 1)) as [Hshown _].
  cbv zeta. split; [vm_compute; reflexivity|].
  apply (Hshown sample). vm_compute; reflexivity.
Defined.

Lemma bar_chart_ascending_witness :
  let out :=
    [Header "☠️ Impact of Different Disaster";
     Selectbox "Select Impact Metric" (Str <$> impact_metrics.*1)
       (Some (Str "Total Deaths"));
     Pyplot (BarH [Str "Storm"; Str "Flood"] [7; 12]%Z
               "Total Total Deaths by Disaster Type")] in
  snd <$> bar_chart_disaster_vs_impact sample None = Ok out
  ∧ StronglySorted Z.le [7; 12]%Z.
Proof.
  cbv zeta. split; [vm_compute; reflexivity|].
  eapply (bar_chart_ascending_totals sample None
            (mkDF sample_columns
               ((λ r : row,
                   <["impact_info.total_deaths" :=
                       whole (cell_at "impact_info.total_deaths" r)]> r)
                  <$> rows sample))).
  - vm_compute; reflexivity.
  - apply list_elem_of_further, list_elem_of_further, list_elem_of_here.
Defined.

(** * Where the code departs from a claim *)

(** Against C2: the trend chart returns the sample table with its year
    column rewritten (the text "2000" has become the number 2000). *)
Lemma trend_rewrites_year_column :
  let df' := mkDF sample_columns (coerce_year <$> rows sample) in
  fst <$> line_graph_disaster_trend sample None None None = Ok df'
  ∧ get_col sample YEAR = Ok [Str "2000"; Num 2000; Num 2001]
  ∧ get_col df' YEAR = Ok [Num 2000; Num 2000; Num 2001]
  ∧ df' ≠ sample.
Proof.
  cbv zeta. split_and!; [vm_compute; reflexivity..|].
  intros Heq. apply (f_equal (λ d, get_col d YEAR)) in Heq.
  vm_compute in Heq. discriminate Heq.
Qed.

(** Against C3: a storm of the year 2000 lies within the range 2000 to
    2000, yet the filter set to "Flood" does not return it, and the chart
    counts one record for 2000 where the table has two. *)
Lemma trend_filter_drops_other_types :
  let ch := mkChoice (Some (Num 2000)) (Some (Num 2000)) (Some (Str "Flood")) in
  let storm :=
    record (Str "Storm") (Num 2000) (Str "India") (Str "IND") (Num 5) in
  storm ∈ rows flood_and_storm
  ∧ cell_at YEAR storm = Num 2000
  ∧ (storm ∉ rows (trend_filter ch flood_and_storm))
  ∧ (snd <$> line_graph_disaster_trend flood_and_storm None None None)
    = Ok [Header "📈 Disaster Trend Line Graph";
          Selectbox "Select Start Year" [Num 2000] (Some (Num 2000));
          Selectbox "Select End Year" [Num 2000] (Some (Num 2000));
          Selectbox "Select Disaster Type" [Str "Flood"; Str "Storm"]
            (Some (Str "Flood"));
          Pyplot (Line [Num 2000] [1] "Trend of Flood from 2000 to 2000")].
Proof.
  cbv zeta. split_and!.
  - apply list_elem_of_further, list_elem_of_here.
  - vm_compute; reflexivity.
  - unfold trend_filter, select_rows. cbn [rows].
    intros [Hmask _]%list_elem_of_filter. vm_compute in Hmask. exact Hmask.
  - vm_compute; reflexivity.
Qed.

(** Against C7: no record of the table has a readable death count, the
    frame the bar chart aggregates is empty, and the renderer draws an
    empty chart without any message. *)
Lemma bar_chart_empty_without_warning :
  let df' :=
    mkDF sample_columns
      ((λ r : row,
          <["impact_info.total_deaths" :=
              whole (cell_at "impact_info.total_deaths" r)]> r)
         <$> rows unrecorded) in
  bar_filtered "impact_info.total_deaths" unrecorded
  = Ok (df', mkDF sample_columns [])
  ∧ bar_chart_disaster_vs_impact unrecorded None
    = Ok (df',
          [Header "☠️ Impact of Different Disaster";
           Selectbox "Select Impact Metric" (Str <$> impact_metrics.*1)
             (Some (Str "Total Deaths"));
           Pyplot (BarH [] [] "Total Total Deaths by Disaster Type")]).
Proof.
  cbv zeta. split; vm_compute; reflexivity.
Qed.


(** * The further properties at work on the sample tables *)

Lemma rendering_again_witness :
  let df' := mkDF sample_columns (coerce_year <$> rows sample) in
  let out :=
    [Header "📈 Disaster Trend Line Graph";
     Selectbox "Select Start Year" [Num 2000; Num 2001] (Some (Num 2000));
     Selectbox "Select End Year" [Num 2000; Num 2001] (Some (Num 2001));
     Selectbox "Select Disaster Type" [Str "Flood"; Str "Storm"]
       (Some (Str "Flood"));
     Pyplot (Line [Num 2000; Num 2001] [1; 1]
               "Trend of Flood from 2000 to 2001")] in
  line_graph_disaster_trend sample None None None = Ok (df', out)
  ∧ line_graph_disaster_trend df' None None None = Ok (df', out).
Proof.
  cbv zeta. split; [vm_compute; reflexivity|].
  destruct (rendering_again_changes_nothing sample
              (mkDF sample_columns (coerce_year <$> rows sample))
              [Header "📈 Disaster Trend Line Graph";
               Selectbox "Select Start Year" [Num 2000; Num 2001] (Some (Num 2000));
               Selectbox "Select End Year" [Num 2000; Num 2001] (Some (Num 2001));
               Selectbox "Select Disaster Type" [Str "Flood"; Str "Storm"]
                 (Some (Str "Flood"));
               Pyplot (Line [Num 2000; Num 2001] [1; 1]
                         "Trend of Flood from 2000 to 2001")])
    as (Htrend & _).
  apply (Htrend None None None). vm_compute; reflexivity.
Defined.

Lemma trend_year_boxes_witness :
  let df' := mkDF sample_columns (coerce_year <$> rows sample) in
  let out :=
    [Header "📈 Disaster Trend Line Graph";
     Selectbox "Select Start Year" [Num 2000; Num 2001] (Some (Num 2000));
     Selectbox "Select End Year" [Num 2000; Num 2001] (Some (Num 2001));
     Selectbox "Select Disaster Type" [Str "Flood"; Str "Storm"]
       (Some (Str "Flood"));
     Pyplot (Line [Num 2000; Num 2001] [1; 1]
               "Trend of Flood from 2000 to 2001")] in
  line_graph_disaster_trend sample None None None = Ok (df', out)
  ∧ ∃ years : list Z,
      StronglySorted Z.lt years
      ∧ ∀ y, y ∈ years ↔ ∃ r, r ∈ rows sample ∧ year_of r = Num y.
Proof.
  cbv zeta.
  assert (Hrun : line_graph_disaster_trend sample None None None
                 = Ok (mkDF sample_columns (coerce_year <$> rows sample),
                       [Header "📈 Disaster Trend Line Graph";
                        Selectbox "Select Start Year" [Num 2000; Num 2001]
                          (Some (Num 2000));
                        Selectbox "Select End Year" [Num 2000; Num 2001]
                          (Some (Num 2001));
                        Selectbox "Select Disaster Type" [Str "Flood"; Str "Storm"]
                          (Some (Str "Flood"));
                        Pyplot (Line [Num 2000; Num 2001] [1; 1]
                                  "Trend of Flood from 2000 to 2001")]))
    by (vm_compute; reflexivity).
  split; [exact Hrun|].
  destruct (trend_year_boxes sample None None None _ _ Hrun)
    as (years & ch & types & chart & _ & Hsorted & Hmem & _).
  exists years. split; [exact Hsorted|exact Hmem].
Defined.

(** The start year picked after the end year. *)
Lemma trend_chart_counts_witness :
  let df' := mkDF sample_columns (coerce_year <$> rows sample) in
  let out :=
    [Header "📈 Disaster Trend Line Graph";
     Selectbox "Select Start Year" [Num 2000; Num 2001] (Some (Num 2001));
     Selectbox "Select End Year" [Num 2000; Num 2001] (Some (Num 2000));
     Selectbox "Select Disaster Type" [Str "Flood"; Str "Storm"]
       (Some (Str "Flood"));
     Write "⚠️ No Records found."] in
  line_graph_disaster_trend sample (Some 1) (Some 0) None = Ok (df', out)
  ∧ ∃ (ch : trend_choice) (plotted : list Z),
      StronglySorted Z.lt plotted
      ∧ ∀ y, y ∈ plotted ↔ ∃ r, r ∈ rows sample ∧ counted_at ch y r.
Proof.
  cbv zeta.
  assert (Hrun : line_graph_disaster_trend sample (Some 1) (Some 0) None
                 = Ok (mkDF sample_columns (coerce_year <$> rows sample),
                       [Header "📈 Disaster Trend Line Graph";
                        Selectbox "Select Start Year" [Num 2000; Num 2001]
                          (Some (Num 2001));
                        Selectbox "Select End Year" [Num 2000; Num 2001]
                          (Some (Num 2000));
                        Selectbox "Select Disaster Type" [Str "Flood"; Str "Storm"]
                          (Some (Str "Flood"));
                        Write "⚠️ No Records found."]))
    by (vm_compute; reflexivity).
  split; [exact Hrun|].
  destruct (trend_chart_counts sample (Some 1) (Some 0) None _ _ Hrun)
    as (ch & plotted & _ & _ & _ & Hsorted & Hmem & _).
  exists ch, plotted. split; [exact Hsorted|exact Hmem].
Defined.


Lemma comparison_boxes_witness :
  let df' := mkDF sample_columns (coerce_row whole metrics <$> rows blank_type) in
  let out :=
    [Header "⚖️ Disaster Average Impact Comparison";
     Selectbox "Select Disaster A" [Str ""; Str "Flood"] (Some (Str ""));
     Selectbox "Select Disaster B" [Str "Flood"] (Some (Str "Flood"));
     Table (Some (Str ""))
       (Avg (3 # 1) :: replicate 7 (Filled "nan")) average_impact
       (Some (Str "Flood"))
       (Avg (5 # 1) :: replicate 7 (Filled "nan"))] in
  disaster_impact_comparison_table blank_type None None = Ok (df', out)
  ∧ ∃ d options d',
      Some (Str "") = Some d
      ∧ Selectbox "Select Disaster B" options (Some d') ∈ out
      ∧ length options + 1 = 2.
Proof.
  cbv zeta.
  assert (Hrun : disaster_impact_comparison_table blank_type None None
                 = Ok (mkDF sample_columns
                         (coerce_row whole metrics <$> rows blank_type),
                       [Header "⚖️ Disaster Average Impact Comparison";
                        Selectbox "Select Disaster A" [Str ""; Str "Flood"]
                          (Some (Str ""));
                        Selectbox "Select Disaster B" [Str "Flood"]
                          (Some (Str "Flood"));
                        Table (Some (Str ""))
                          (Avg (3 # 1) :: replicate 7 (Filled "nan"))
                          average_impact (Some (Str "Flood"))
                          (Avg (5 # 1) :: replicate 7 (Filled "nan"))]))
    by (vm_compute; reflexivity).
  split; [exact Hrun|].
  destruct (comparison_boxes_past_guard blank_type None None _ _
              [Str ""; Str "Flood"] (Some (Str "")) Hrun)
    as (_ & _ & d & options & d' & Ha & _ & _ & Hbox & _ & Hlen & _).
  { apply list_elem_of_further, list_elem_of_here. }
  exists d, options, d'. split_and!; [exact Ha|exact Hbox|exact Hlen].
Defined.

(** "Flood" picked as A: B stands at the disaster type that is the empty
    text. *)
Lemma comparison_warns_witness :
  let df' := mkDF sample_columns (coerce_row whole metrics <$> rows blank_type) in
  let out :=
    [Header "⚖️ Disaster Average Impact Comparison";
     Selectbox "Select Disaster A" [Str ""; Str "Flood"] (Some (Str "Flood"));
     Selectbox "Select Disaster B" [Str ""] (Some (Str ""));
     Warning "Please select different disasters for comparison."] in
  disaster_impact_comparison_table blank_type (Some 1) None = Ok (df', out)
  ∧ (Warning SELECT_DIFFERENT ∈ out
     ↔ Some (Str "") = Some (Str "") ∨ Some (Str "") = Some (Num 0)).
Proof.
  cbv zeta.
  assert (Hrun : disaster_impact_comparison_table blank_type (Some 1) None
                 = Ok (mkDF sample_columns
                         (coerce_row whole metrics <$> rows blank_type),
                       [Header "⚖️ Disaster Average Impact Comparison";
                        Selectbox "Select Disaster A" [Str ""; Str "Flood"]
                          (Some (Str "Flood"));
                        Selectbox "Select Disaster B" [Str ""] (Some (Str ""));
                        Warning "Please select different disasters for comparison."]))
    by (vm_compute; reflexivity).
  split; [exact Hrun|].
  destruct (comparison_warns_on_falsy_b blank_type (Some 1) None _ _
              [Str ""] (Some (Str "")) Hrun) as (Hwarn & _).
  { do 2 apply list_elem_of_further. apply list_elem_of_here. }
  exact Hwarn.
Defined.

(** A record without a disaster type beside a flood; and the sample
    table, where every record has a type. *)
Lemma world_map_select_box_witness :
  world_map_of_disasters untyped None = Raise TypeError
  ∧ ∃ types dt fig,
      world_map_of_disasters sample None
      = Ok (mkDF (columns sample) (stringify <$> rows sample),
            [Header "🌍 Disaster Distribution by Country";
             Selectbox "Select Disaster Type" types dt;
             PlotlyChart fig])
      ∧ dt = head types
      ∧ StronglySorted (λ x y, cell_lt x y = true) types.
Proof.
  assert (HI : ISO ∈ sample_columns)
    by (do 3 apply list_elem_of_further; apply list_elem_of_here).
  assert (HT : TYPE ∈ sample_columns) by apply list_elem_of_here.
  split.
  - apply (proj1 (world_map_select_box untyped None HI HT)). split.
    + exists (record NaN (Num 2001) (Str "India") (Str "IND") (Num 5)).
      split; [apply list_elem_of_further, list_elem_of_here|].
      vm_compute; reflexivity.
    + exists (record (Str "Flood") (Num 2000) (Str "France") (Str "FRA") (Num 3)).
      split; [apply list_elem_of_here|]. vm_compute. discriminate.
  - destruct (proj2 (world_map_select_box sample None HI HT))
      as (types & dt & fig & Hrun & Hsorted & _ & Hhead & _).
    { intros [(r & Hr & Hna) _]. revert Hna.
      cbn [rows sample] in Hr. rewrite !elem_of_cons, elem_of_nil in Hr.
      destruct Hr as [->|[->|[->|[]]]]; vm_compute; discriminate. }
    exists types, dt, fig. split_and!; [exact Hrun|by apply Hhead|exact Hsorted].
Defined.

(** The flood without an ISO code is at no location. *)
Lemma world_map_counts_witness :
  let df' := mkDF sample_columns (stringify <$> rows sample) in
  let out :=
    [Header "🌍 Disaster Distribution by Country";
     Selectbox "Select Disaster Type" [Str "Flood"; Str "Storm"]
       (Some (Str "Flood"));
     PlotlyChart (Choropleth [Str "FRA"] [1]
                    "Global Distribution of Flood")] in
  world_map_of_disasters sample None = Ok (df', out)
  ∧ sum_list [1]
    = length (filter (λ r, Some (Str "Flood")
                           = Some (astype_str TYPE (cell_at TYPE r))
                           ∧ cell_at TYPE r ≠ NaN ∧ cell_at ISO r ≠ NaN)
                (rows sample))
  ∧ ∀ l, l ∈ [Str "FRA"]
         ↔ ∃ r, r ∈ rows sample ∧ located_at (Some (Str "Flood")) l r.
Proof.
  cbv zeta.
  assert (Hrun : world_map_of_disasters sample None
                 = Ok (mkDF sample_columns (stringify <$> rows sample),
                       [Header "🌍 Disaster Distribution by Country";
                        Selectbox "Select Disaster Type" [Str "Flood"; Str "Storm"]
                          (Some (Str "Flood"));
                        PlotlyChart (Choropleth [Str "FRA"] [1]
                                       "Global Distribution of Flood")]))
    by (vm_compute; reflexivity).
  split; [exact Hrun|].
  destruct (world_map_counts sample None _ _ [Str "Flood"; Str "Storm"]
              (Some (Str "Flood")) [Str "FRA"] [1]
              "Global Distribution of Flood" Hrun)
    as (_ & Hmem & _ & _ & Hsum & _).
  { apply list_elem_of_further, list_elem_of_here. }
  { do 2 apply list_elem_of_further. apply list_elem_of_here. }
  split; [exact Hsum|exact Hmem].
Defined.

Lemma country_page_options_witness :
  let out :=
    [Selectbox "Select Country:" [Str "All Countries"; Str "France"; Str "India"]
       (Some (Str "France"));
     Dataframe (mkDF sample_columns
                  (filter (λ r, cell_at COUNTRY r = Str "France") (rows sample)))] in
  country_wise_data_page sample (Some 1) = Ok (sample, out)
  ∧ ∃ names sel shown,
      out = [Selectbox "Select Country:" (Str ALL_COUNTRIES :: names) sel;
             Dataframe shown]
      ∧ (sel ≠ Some (Str ALL_COUNTRIES) → rows shown ≠ []).
Proof.
  cbv zeta.
  assert (Hrun : country_wise_data_page sample (Some 1)
                 = Ok (sample,
                       [Selectbox "Select Country:"
                          [Str "All Countries"; Str "France"; Str "India"]
                          (Some (Str "France"));
                        Dataframe (mkDF sample_columns
                                     (filter (λ r, cell_at COUNTRY r = Str "France")
                                        (rows sample)))]))
    by (vm_compute; reflexivity).
  split; [exact Hrun|].
  destruct (country_page_options sample (Some 1) _ _ Hrun)
    as (names & sel & shown & Hout & _ & _ & _ & Hrows).
  exists names, sel, shown. split; [exact Hout|exact Hrows].
Defined.

Lemma country_pie_warns_witness :
  let out :=
    [Header "🌍 Disaster Types by Country";
     Selectbox "Select a Country" [] None;
     Warning "No disaster data available for None."] in
  pie_chart_disaster_type_by_country unrecorded None = Ok (unrecorded, out)
  ∧ ∀ r, r ∈ rows unrecorded → ¬ named (cell_at COUNTRY r).
Proof.
  cbv zeta.
  assert (Hrun : pie_chart_disaster_type_by_country unrecorded None
                 = Ok (unrecorded,
                       [Header "🌍 Disaster Types by Country";
                        Selectbox "Select a Country" [] None;
                        Warning "No disaster data available for None."]))
    by (vm_compute; reflexivity).
  split; [exact Hrun|].
  destruct (country_pie_warns_only_without_countries unrecorded None _ _ Hrun)
    as (Hiff & _).
  apply Hiff. exists "No disaster data available for None.".
  do 2 apply list_elem_of_further. apply list_elem_of_here.
Defined.

Lemma country_number_raises_witness :
  COUNTRY ∈ columns numbered_country
  ∧ country_wise_data_page numbered_country None = Raise AttributeError
  ∧ pie_chart_disaster_type_by_country numbered_country None
    = Raise AttributeError.
Proof.
  assert (HC : COUNTRY ∈ columns numbered_country)
    by (do 2 apply list_elem_of_further; apply list_elem_of_here).
  split; [exact HC|].
  destruct (country_number_raises numbered_country None HC) as [Hpage Hpie].
  { exists (record (Str "Flood") (Num 2000) (Num 33) (Str "FRA") (Num 3)).
    split; [apply list_elem_of_here|]. vm_compute. exact I. }
  split; [exact Hpage|].
  rewrite Hpie. vm_compute. reflexivity.
Defined.

(** The five deaths of the record without a disaster type are in no bar. *)
Lemma bar_chart_total_witness :
  let df' :=
    mkDF sample_columns
      ((λ r : row, <["impact_info.total_deaths" :=
                       whole (cell_at "impact_info.total_deaths" r)]> r)
         <$> rows untyped) in
  let out :=
    [Header "☠️ Impact of Different Disaster";
     Selectbox "Select Impact Metric" (Str <$> impact_metrics.*1)
       (Some (Str "Total Deaths"));
     Pyplot (BarH [Str "Flood"] [3%Z] "Total Total Deaths by Disaster Type")] in
  bar_chart_disaster_vs_impact untyped None = Ok (df', out)
  ∧ ∃ label m,
      (label, m) ∈ impact_metrics
      ∧ sum_Z [3%Z]
        = sum_over m (filter (λ r, cell_at TYPE r ≠ NaN ∧ coerces m r)
                        (rows untyped)).
Proof.
  cbv zeta.
  assert (Hrun : bar_chart_disaster_vs_impact untyped None
                 = Ok (mkDF sample_columns
                         ((λ r : row,
                             <["impact_info.total_deaths" :=
                                 whole (cell_at "impact_info.total_deaths" r)]> r)
                            <$> rows untyped),
                       [Header "☠️ Impact of Different Disaster";
                        Selectbox "Select Impact Metric" (Str <$> impact_metrics.*1)
                          (Some (Str "Total Deaths"));
                        Pyplot (BarH [Str "Flood"] [3%Z]
                                  "Total Total Deaths by Disaster Type")]))
    by (vm_compute; reflexivity).
  split; [exact Hrun|].
  destruct (bar_chart_total untyped None _ _ [Str "Flood"] [3%Z]
              "Total Total Deaths by Disaster Type" Hrun)
    as (label & m & Hin & _ & _ & _ & Hsum).
  { do 2 apply list_elem_of_further. apply list_elem_of_here. }
  exists label, m. split; [exact Hin|exact Hsum].
Defined.

Lemma format_k_witness :
  in_range 1000 ∧ in_range 1999
  ∧ ∃ label, format_k 1000 = Ok label ∧ format_k 1999 = Ok label.
Proof.
  assert (H1 : in_range 1000) by (vm_compute; exact I).
  assert (H2 : in_range 1999) by (vm_compute; exact I).
  split_and!; [exact H1|exact H2|].
  destruct (format_k_same_label 1000 1999 H1 H2)
    as (lx & ly & Hx & Hy & Hsame).
  exists lx. split; [exact Hx|]. rewrite Hy. f_equal. symmetry.
  apply Hsame. right. split_and!; [lia|lia|reflexivity].
Defined.

Lemma missing_column_witness :
  (TYPE ∉ columns no_type_column)
  ∧ pie_chart_disaster_type no_type_column = Raise (KeyError TYPE)
  ∧ ∃ c, sidebar (mkDF [] []) DisasterImpact
           (mkPicks None None None None None None None None None)
         = Raise (KeyError c).
Proof.
  assert (HT : TYPE ∉ columns no_type_column).
  { apply (bool_decide_unpack _). vm_compute. exact I. }
  split; [exact HT|].
  destruct (missing_column_raises_KeyError no_type_column) as (Htype & _).
  destruct (Htype HT) as (Hpie & _).
  split; [exact Hpie|].
  destruct (missing_column_raises_KeyError (mkDF [] []))
    as (_ & _ & _ & _ & _ & Hempty).
  apply (Hempty eq_refl).
Defined.

Lemma country_pie_is_pie_witness :
  let out :=
    [Header "🌍 Disaster Types by Country";
     Selectbox "Select a Country" [Str "France"; Str "India"] (Some (Str "France"));
     Pyplot (Pie [Str "Flood"] [2] "Disaster Types in France")] in
  pie_chart_disaster_type_by_country sample None = Ok (sample, out)
  ∧ ∃ c,
      named c
      ∧ let records :=
          mkDF (columns sample) (filter (λ r, cell_at COUNTRY r = c) (rows sample)) in
        pie_chart_disaster_type records
        = Ok (records,
              [Header (String (ascii_of_nat 10) "🥧 Disaster Type Distribution");
               Pyplot (Pie [Str "Flood"] [2] "")]).
Proof.
  cbv zeta.
  assert (Hrun : pie_chart_disaster_type_by_country sample None
                 = Ok (sample,
                       [Header "🌍 Disaster Types by Country";
                        Selectbox "Select a Country" [Str "France"; Str "India"]
                          (Some (Str "France"));
                        Pyplot (Pie [Str "Flood"] [2] "Disaster Types in France")]))
    by (vm_compute; reflexivity).
  split; [exact Hrun|].
  destruct (country_pie_is_pie_of_its_records sample None _ _
              [Str "Flood"] [2] "Disaster Types in France" Hrun)
    as (names & c & _ & Hc & _ & _ & Hpie).
  { do 2 apply list_elem_of_further. apply list_elem_of_here. }
  exists c. split; [exact Hc|exact Hpie].
Defined.

(** Both records of [unrecorded] lack every metric once coerced. *)
Lemma comparison_dropna_witness :
  let df0 := mkDF sample_columns (coerce_row whole metrics <$> rows unrecorded) in
  dropna metrics how_all df0 = Ok (mkDF sample_columns [])
  ∧ averages (Some (Str "Flood")) (mkDF sample_columns [])
    = averages (Some (Str "Flood")) df0.
Proof.
  cbv zeta.
  assert (Hdrop : dropna metrics how_all
                    (mkDF sample_columns
                       (coerce_row whole metrics <$> rows unrecorded))
                  = Ok (mkDF sample_columns []))
    by (vm_compute; reflexivity).
  split; [exact Hdrop|].
  apply (comparison_dropna_changes_no_mean _ _ (Some (Str "Flood")) Hdrop).
Defined.
